(** * SX1255 transceiver control (linht-web, package plugins)

    A shallow embedding of the register map, the SPI register transport,
    the GPIO line controller and the SX1255 controller of
    [plugins/hardware_regs.go] and of the GPIO source file, followed by the
    properties of the specification that concern them.

    Integers are [Z] with the wrap-around of the Go type written out,
    [float64] is the IEEE 754 binary64 format of [SpecFloat], and every call
    that leaves the program (periph.io, gpiocdev, [time.Sleep]) is a
    transition of an explicit [World] that keeps a trace of those calls. *)

From Stdlib Require Import ZArith List Bool String Ascii DecimalString Lia Permutation SpecFloat.
Import ListNotations.
Local Open Scope string_scope.
Local Open Scope list_scope.
Local Open Scope Z_scope.

(* ================================================================= *)
(** * Part I: the embedding *)
(* ================================================================= *)

(** ** Register map *)

Definition RegMode      : Z := 0x00.
Definition RegFrfhRx    : Z := 0x01.
Definition RegFrfmRx    : Z := 0x02.
Definition RegFrflRx    : Z := 0x03.
Definition RegFrfhTx    : Z := 0x04.
Definition RegFrfmTx    : Z := 0x05.
Definition RegFrflTx    : Z := 0x06.
Definition RegVersion   : Z := 0x07.
Definition RegTxfe1     : Z := 0x08.
Definition RegTxfe2     : Z := 0x09.
Definition RegTxfe3     : Z := 0x0A.
Definition RegTxfe4     : Z := 0x0B.
Definition RegRxfe1     : Z := 0x0C.
Definition RegRxfe2     : Z := 0x0D.
Definition RegRxfe3     : Z := 0x0E.
Definition RegIoMap     : Z := 0x0F.
Definition RegCkSel     : Z := 0x10.
Definition RegStat      : Z := 0x11.
Definition RegIism      : Z := 0x12.
Definition RegDigBridge : Z := 0x13.

(** RegMode bits. *)
Definition ModeBitDriverEnable : Z := Z.shiftl 1 3.
Definition ModeBitTxEnable     : Z := Z.shiftl 1 2.
Definition ModeBitRxEnable     : Z := Z.shiftl 1 1.
Definition ModeBitRefEnable    : Z := Z.shiftl 1 0.

(** Operating modes. *)
Definition ModeSleep   : Z := 0x00.
Definition ModeStandby : Z := ModeBitRefEnable.
Definition ModeRx      : Z := Z.lor ModeBitRefEnable ModeBitRxEnable.
Definition ModeTx      : Z := Z.lor ModeBitRefEnable ModeBitTxEnable.

(** LNA gain settings (RegRxfe1 bits 7:5). *)
Definition LnaGainMax     : Z := 1.
Definition LnaGainMinus6  : Z := 2.
Definition LnaGainMinus12 : Z := 3.
Definition LnaGainMinus24 : Z := 4.
Definition LnaGainMinus36 : Z := 5.
Definition LnaGainMinus48 : Z := 6.

(** [DefaultRegisterValues] is a Go map literal; its entries are listed in
    the order of the source text.  A [range] over the map visits every
    entry once, in an order the language does not fix. *)
Definition DefaultRegisterValues : list (Z * Z) :=
  [ (RegMode,   0x01);
    (RegFrfhRx, 0xC0);
    (RegFrfmRx, 0xE3);
    (RegFrflRx, 0x8E);
    (RegFrfhTx, 0xC0);
    (RegFrfmTx, 0xE3);
    (RegFrflTx, 0x8E);
    (RegTxfe1,  0x2E);
    (RegTxfe2,  0x24);
    (RegTxfe3,  0x60);
    (RegTxfe4,  0x02);
    (RegRxfe1,  0x2F);
    (RegRxfe2,  0xA5);
    (RegRxfe3,  0x06);
    (RegCkSel,  0x02) ].

(** ** Machine integers *)

Definition uint8 (x : Z) : Z := x mod 2 ^ 8.
Definition uint32 (x : Z) : Z := x mod 2 ^ 32.

(** ** float64

    The binary64 operations of [SpecFloat] at precision 53 and maximal
    exponent 1024; conversions from unsigned integers are exact or rounded to
    nearest even as in Go. *)

Definition float64 : Type := spec_float.

Definition float64_of_Z (n : Z) : float64 := binary_normalize 53 1024 n 0 false.
Definition fmul : float64 -> float64 -> float64 := SFmul 53 1024.
Definition fdiv : float64 -> float64 -> float64 := SFdiv 53 1024.

(** [math.Pow(2, 20)], which is exactly 1048576. *)
Definition math_Pow_2_20 : float64 := float64_of_Z 1048576.

(** [math.Round]: the nearest integer, halves rounded away from zero;
    zeros, infinities and NaN are returned unchanged. *)
Definition math_Round (x : float64) : float64 :=
  match x with
  | S754_finite s m e =>
      if 0 <=? e then x
      else let n := (Zpos m + 2 ^ (- e - 1)) / 2 ^ (- e) in
           binary_normalize 53 1024 (if s then - n else n) 0 s
  | _ => x
  end.

(** The conversion [uint32(x)] of a float64: the fraction is discarded.
    [None] where the value is not representable in 32 bits (or is not a
    number), for which Go leaves the result to the implementation. *)
Definition uint32_of_float64 (x : float64) : option Z :=
  match x with
  | S754_zero _ => Some 0
  | S754_finite s m e =>
      let t := if 0 <=? e then Zpos m * 2 ^ e else Zpos m / 2 ^ (- e) in
      if t =? 0 then Some 0
      else if s then None
      else if t <? 2 ^ 32 then Some t else None
  | _ => None
  end.

(** The tuning word computed by [SetRxFrequency] and [SetTxFrequency]:
    [uint32(math.Round(float64(freqHz) * math.Pow(2, 20) / float64(clockFreq)))]. *)
Definition frf_word (clockFreq freqHz : Z) : float64 :=
  math_Round (fdiv (fmul (float64_of_Z freqHz) math_Pow_2_20) (float64_of_Z clockFreq)).

(** The frequency computed by [GetRxFrequency] and [GetTxFrequency]:
    [uint32(math.Round(float64(clockFreq) * float64(frf) / math.Pow(2, 20)))]. *)
Definition frf_hz (clockFreq frf : Z) : float64 :=
  math_Round (fdiv (fmul (float64_of_Z clockFreq) (float64_of_Z frf)) math_Pow_2_20).

(** ** Errors

    One constructor per [fmt.Errorf] site that creates an error, and [Wrap]
    for the sites that wrap a cause with [%w]; of a format string only the
    constant text before its first verb is kept. *)

Inductive error : Type :=
| ErrExternal (call : string)      (* an error returned by periph.io, gpiocdev or the kernel *)
| ErrBufferLength                  (* "tx and rx buffers must be the same length" *)
| ErrSpiNotOpen                    (* "SPI device not open" *)
| ErrNoValues                      (* "no values to write" *)
| ErrInvalidCount (count : Z)      (* "invalid count: %d" *)
| ErrNotInitialized                (* "controller not initialized" *)
| ErrFrequencyRange (freqHz : Z)   (* "frequency %d Hz out of range (400-510 MHz)" *)
| ErrResetLineNil                  (* "reset line not initialized" *)
| ErrNilPointer                    (* the run-time panic of a nil dereference *)
| Wrap (msg : string) (cause : error).

(** The class [InvalidArgument] of the specification, read over the error
    sites of the code: the sites that reject an argument, however the error
    is wrapped on its way up. *)
Fixpoint is_InvalidArgument (e : error) : bool :=
  match e with
  | ErrBufferLength | ErrNoValues | ErrInvalidCount _ | ErrFrequencyRange _ => true
  | Wrap _ cause => is_InvalidArgument cause
  | _ => false
  end.

(** ** The world outside the program *)

Inductive Resource : Type :=
| SpiPort (device : string)
| GpioChip (path : string)
| GpioLine (chip : string) (offset : Z).

Definition Resource_eqb (a b : Resource) : bool :=
  match a, b with
  | SpiPort d1, SpiPort d2 => String.eqb d1 d2
  | GpioChip p1, GpioChip p2 => String.eqb p1 p2
  | GpioLine c1 o1, GpioLine c2 o2 => String.eqb c1 c2 && (o1 =? o2)
  | _, _ => false
  end.

(** One event per call that leaves the program, in program order. *)
Inductive Event : Type :=
| EvHostInit (ok : bool)                        (* host.Init *)
| EvOpen (r : Resource) (ok : bool)             (* spireg.Open, gpiocdev.NewChip, chip.RequestLine *)
| EvConnect (r : Resource) (ok : bool)          (* port.Connect, SPI mode 0, 8 bits *)
| EvClose (r : Resource) (ok : bool)            (* port.Close, line.Close, chip.Close *)
| EvTx (tx : list Z) (rx : option (list Z))     (* conn.Tx: bytes shifted out, bytes shifted in *)
| EvSetValue (r : Resource) (v : Z) (ok : bool) (* line.SetValue; the level of a line requested as output *)
| EvSleep (microseconds : Z).                   (* time.Sleep *)

(** The world: the register file of the transceiver behind the SPI bus,
    the handles the process holds, the trace of its external calls, and an
    oracle that decides which of those calls fail.  [impl_uint32] is what
    the platform yields for a float-to-uint32 conversion that the language
    leaves implementation-dependent. *)
Record World : Type := mkWorld {
  regs        : Z -> Z;
  held        : list Resource;
  trace       : list Event;
  fault       : nat -> bool;
  impl_uint32 : float64 -> Z
}.

Definition log (ev : Event) (w : World) : World :=
  mkWorld (regs w) (held w) (trace w ++ [ev]) (fault w) (impl_uint32 w).

Definition set_regs (r : Z -> Z) (w : World) : World :=
  mkWorld r (held w) (trace w) (fault w) (impl_uint32 w).

Definition set_held (h : list Resource) (w : World) : World :=
  mkWorld (regs w) h (trace w) (fault w) (impl_uint32 w).

(** Whether the external call about to be made fails: the oracle is asked
    at the position the call will take in the trace. *)
Definition failing (w : World) : bool := fault w (List.length (trace w)).

Definition acquire (r : Resource) (h : list Resource) : list Resource := r :: h.

Fixpoint release (r : Resource) (h : list Resource) : list Resource :=
  match h with
  | [] => []
  | x :: t => if Resource_eqb r x then t else x :: release r t
  end.

(** *** The transceiver as seen through SPI frames

    The first byte of a frame is the address, with bit 7 set for a write;
    the data bytes that follow go to, or come from, consecutive registers.
    The chip answers one byte per byte received; the byte shifted in
    during the address byte, and during a write, carries no information and
    is 0 here. *)

Definition upd (r : Z -> Z) (a v : Z) : Z -> Z :=
  fun x => if x =? a then v else r x.

Fixpoint write_burst (r : Z -> Z) (a : Z) (data : list Z) : Z -> Z :=
  match data with
  | [] => r
  | v :: rest => write_burst (upd r (Z.land a 0x7F) (uint8 v)) (a + 1) rest
  end.

Fixpoint read_burst (r : Z -> Z) (a : Z) (dummy : list Z) : list Z :=
  match dummy with
  | [] => []
  | _ :: rest => uint8 (r (Z.land a 0x7F)) :: read_burst r (a + 1) rest
  end.

Definition chip_exchange (r : Z -> Z) (tx : list Z) : list Z * (Z -> Z) :=
  match tx with
  | [] => ([], r)
  | a :: data =>
      if Z.testbit a 7
      then (0 :: map (fun _ => 0) data, write_burst r (Z.land a 0x7F) data)
      else (0 :: read_burst r a data, r)
  end.

(** ** Computations: world passing with Go's [(value, error)] results *)

Inductive res (A : Type) : Type :=
| Ok (a : A)
| Err (e : error).
Arguments Ok {A} a.
Arguments Err {A} e.

Definition M (A : Type) : Type := World -> res A * World.

Definition ret {A} (a : A) : M A := fun w => (Ok a, w).
Definition fail {A} (e : error) : M A := fun w => (Err e, w).

Definition bind {A B} (c : M A) (k : A -> M B) : M B :=
  fun w => match c w with
           | (Ok a, w') => k a w'
           | (Err e, w') => (Err e, w')
           end.

(** [if err != nil { return fmt.Errorf("msg: %w", err) }] *)
Definition wrapping {A} (msg : string) (c : M A) : M A :=
  fun w => match c w with
           | (Ok a, w') => (Ok a, w')
           | (Err e, w') => (Err (Wrap msg e), w')
           end.

(** A call whose error the caller drops. *)
Definition ignoring {A} (c : M A) : M unit :=
  fun w => (Ok tt, snd (c w)).

Notation "x <- c ;; k" := (bind c (fun x => k))
  (at level 61, c at next level, right associativity).
Notation "c ;;; k" := (bind c (fun _ => k))
  (at level 61, right associativity).

(** *** External calls *)

Definition external (call : string) (ev : bool -> Event) (effect : World -> World)
  : M unit :=
  fun w => if failing w
           then (Err (ErrExternal call), log (ev false) w)
           else (Ok tt, effect (log (ev true) w)).

Definition host_Init : M unit :=
  external "host.Init" EvHostInit (fun w => w).

Definition open_resource (call : string) (r : Resource) : M unit :=
  external call (EvOpen r) (fun w => set_held (acquire r (held w)) w).

(** Closing gives the handle back whether or not the call reports an error. *)
Definition close_resource (call : string) (r : Resource) : M unit :=
  fun w => if failing w
           then (Err (ErrExternal call), set_held (release r (held w)) (log (EvClose r false) w))
           else (Ok tt, set_held (release r (held w)) (log (EvClose r true) w)).

(** [chip.RequestLine(offset, gpiocdev.AsOutput(initial), ...)].  A line
    can be requested once: a second request of a line that is held fails as
    busy.  A request that succeeds makes the line an output and drives it to
    [initial]. *)
Definition chip_RequestLine (chip : string) (offset : Z) (initial : Z) : M unit :=
  fun w => if existsb (Resource_eqb (GpioLine chip offset)) (held w)
           then (Err (ErrExternal "chip.RequestLine"), log (EvOpen (GpioLine chip offset) false) w)
           else match open_resource "chip.RequestLine" (GpioLine chip offset) w with
                | (Ok _, w') => (Ok tt, log (EvSetValue (GpioLine chip offset) initial true) w')
                | (Err e, w') => (Err e, w')
                end.

(** [line.SetValue(v)].  The level of the line is in the trace; what the
    transceiver does with its register file when a line changes is outside
    this model, which holds the register file as the SPI frames show it. *)
Definition line_SetValue (line : Resource) (v : Z) : M unit :=
  external "line.SetValue" (EvSetValue line v) (fun w => w).

Definition time_Sleep (microseconds : Z) : M unit :=
  fun w => (Ok tt, log (EvSleep microseconds) w).

Definition conn_Tx (tx : list Z) : M (list Z) :=
  fun w => if failing w
           then (Err (ErrExternal "conn.Tx"), log (EvTx tx None) w)
           else let '(rx, r') := chip_exchange (regs w) tx in
                (Ok rx, set_regs r' (log (EvTx tx (Some rx)) w)).

(** [uint32(x)] for a float64 [x]. *)
Definition to_uint32 (x : float64) : M Z :=
  fun w => (Ok (match uint32_of_float64 x with
                | Some v => v
                | None => uint32 (impl_uint32 w x)
                end), w).

(** [if err != nil { cleanup; return fmt.Errorf("msg: %w", err) }], the
    errors of the clean-up calls being dropped. *)
Definition or_cleanup {A} (msg : string) (cleanup : M unit) (c : M A) : M A :=
  fun w => match c w with
           | (Ok a, w') => (Ok a, w')
           | (Err e, w') => (Err (Wrap msg e), snd (cleanup w'))
           end.

(** ** Register map, continued: the remaining masks and codes *)

Definition ModeTxFull : Z :=
  Z.lor (Z.lor ModeBitRefEnable ModeBitTxEnable) ModeBitDriverEnable.
Definition ModeFullDuplex : Z :=
  Z.lor (Z.lor (Z.lor ModeBitRefEnable ModeBitRxEnable) ModeBitTxEnable) ModeBitDriverEnable.

(** RegStat bits. *)
Definition StatEol       : Z := Z.shiftl 1 3.
Definition StatXoscReady : Z := Z.shiftl 1 2.
Definition StatPllLockRx : Z := Z.shiftl 1 1.
Definition StatPllLockTx : Z := Z.shiftl 1 0.

(** DAC gain settings (RegTxfe1 bits 6:4). *)
Definition DacGainMinus9 : Z := 0.
Definition DacGainMinus6 : Z := 1.
Definition DacGainMinus3 : Z := 2.
Definition DacGainMax    : Z := 3.

(** ** float32, for the mixer gain

    The binary32 operations of [SpecFloat] at precision 24 and maximal
    exponent 128.  Conversion to float64 is exact. *)

Definition float32 : Type := spec_float.

Definition fadd32 : float32 -> float32 -> float32 := SFadd 24 128.

(** The float32 constant [n / 2], for the literals -37.5, -7.5 and 37.5. *)
Definition float32_of_halves (n : Z) : float32 := binary_normalize 24 128 n (-1) false.

Definition float64_of_float32 (x : float32) : float64 :=
  match x with
  | S754_finite s m e => binary_normalize 53 1024 (if s then Zneg m else Zpos m) e s
  | _ => x
  end.

(** The conversion [uint8(x)] of a float64, as [uint32_of_float64]. *)
Definition uint8_of_float64 (x : float64) : option Z :=
  match x with
  | S754_zero _ => Some 0
  | S754_finite s m e =>
      let t := if 0 <=? e then Zpos m * 2 ^ e else Zpos m / 2 ^ (- e) in
      if t =? 0 then Some 0
      else if s then None
      else if t <? 2 ^ 8 then Some t else None
  | _ => None
  end.

(** [uint8(x)] for a float64 [x]; where the language leaves the result to
    the implementation it is a byte that the platform determines from [x]. *)
Definition to_uint8 (x : float64) : M Z :=
  fun w => (Ok (match uint8_of_float64 x with
                | Some v => v
                | None => uint8 (impl_uint32 w x)
                end), w).

(** ** Errors of the close operations and of the TX/RX line

    [Close] collects the errors of the handles it closes and reports them
    together, in one error that lists them; the controller wraps the report
    of the GPIO controller in its own list. *)

Inductive close_error : Type :=
| CloseFailed (e : error)
| CloseWrapped (msg : string) (report : list error).

(** The outcomes of setting the TX/RX line through the controller. *)
Inductive txrx_error : Type :=
| TxRxControllerNotInitialized   (* "controller not initialized" *)
| TxRxNilPointer                 (* the run-time panic of a nil dereference *)
| TxRxLineNil                    (* "TX/RX line not initialized" *)
| TxRxSetFailed (cause : error). (* "failed to set TX/RX pin to %v: %w" *)

(** The outcomes of [Reinitialize] other than success. *)
Inductive reinit_error : Type :=
| ReinitCloseFailed (report : list error) (* "failed to close during reinitialization: %w" *)
| ReinitOpenFailed (cause : error).       (* the error of [NewGPIOController], as it is *)

(** ** SPIDevice: the register transport *)

Module SPIDevice.

Record t : Type := mk {
  conn   : option Resource;   (* nil or the connection of the open port *)
  port   : option Resource;
  device : string;
  speed  : Z
}.

Definition physic_Hertz : Z := 1000000.

Definition NewSPIDevice (device : string) (speed : Z) : M t :=
  wrapping "failed to initialize periph.io" host_Init ;;;
  wrapping "failed to open SPI device" (open_resource "spireg.Open" (SpiPort device)) ;;;
  or_cleanup "failed to connect to SPI device"
    (ignoring (close_resource "port.Close" (SpiPort device)))
    (external "port.Connect" (EvConnect (SpiPort device)) (fun w => w)) ;;;
  ret (mk (Some (SpiPort device)) (Some (SpiPort device)) device (speed * physic_Hertz)).

Definition Close (s : t) : M unit :=
  match port s with
  | Some p => close_resource "port.Close" p
  | None => ret tt
  end.

(** [Transfer(tx, rx)]: [rx_len] is the length of the buffer the caller
    made for the answer; the result is that buffer once filled. *)
Definition Transfer (s : t) (tx : list Z) (rx_len : nat) : M (list Z) :=
  if negb (Nat.eqb (List.length tx) rx_len) then fail ErrBufferLength
  else match conn s with
       | None => fail ErrSpiNotOpen
       | Some _ => wrapping "SPI transfer failed" (conn_Tx tx)
       end.

Definition WriteRegister (s : t) (addr value : Z) : M unit :=
  let tx := [Z.lor addr 0x80; value] in
  wrapping "failed to write register" (Transfer s tx 2) ;;;
  time_Sleep 10.

Definition ReadRegister (s : t) (addr : Z) : M Z :=
  let tx := [Z.land addr 0x7F; 0x00] in
  rx <- wrapping "failed to read register" (Transfer s tx 2) ;;
  time_Sleep 10 ;;;
  ret (nth 1 rx 0).

Definition BurstWrite (s : t) (startAddr : Z) (values : list Z) : M unit :=
  if Nat.eqb (List.length values) 0 then fail ErrNoValues
  else
    let tx := Z.lor startAddr 0x80 :: values in
    wrapping "failed to burst write" (Transfer s tx (List.length tx)) ;;;
    time_Sleep 10.

(** [count] is an [int]; the buffers are [make([]byte, count+1)].  The
    model is of the counts whose buffers can be made: at [math.MaxInt] the
    sum wraps and [make] panics before anything is sent. *)
Definition BurstRead (s : t) (startAddr : Z) (count : Z) : M (list Z) :=
  if count <=? 0 then fail (ErrInvalidCount count)
  else
    let tx := Z.land startAddr 0x7F :: repeat 0 (Z.to_nat count) in
    rx <- wrapping "failed to burst read" (Transfer s tx (List.length tx)) ;;
    time_Sleep 10 ;;;
    ret (tl rx).

Definition CheckDevice (s : t) : M Z :=
  wrapping "failed to read version register" (ReadRegister s RegVersion).

Definition IsOpen (s : t) : bool :=
  match conn s, port s with
  | Some _, Some _ => true
  | _, _ => false
  end.

(** [Reopen] changes its receiver: the result carries the device after the
    call. *)
Definition Reopen (s : t) : World -> (res unit * t) * World :=
  fun w =>
    let dev := device s in
    let spd := uint32 (Z.quot (speed s) physic_Hertz) in
    match wrapping "failed to close device during reopen" (Close s) w with
    | (Err e, w1) => ((Err e, s), w1)
    | (Ok _, w1) =>
        match NewSPIDevice dev spd w1 with
        | (Err e, w2) => ((Err e, s), w2)
        | (Ok n, w2) => ((Ok tt, mk (conn n) (port n) dev (speed n)), w2)
        end
    end.

(** [defer port.Close()]: the port is closed on the way out, its error
    dropped. *)
Definition ValidateSPIDevice (device : string) : M unit :=
  wrapping "failed to initialize periph.io" host_Init ;;;
  wrapping "SPI device not accessible" (open_resource "spireg.Open" (SpiPort device)) ;;;
  ignoring (close_resource "port.Close" (SpiPort device)) ;;;
  ret tt.

End SPIDevice.

(** ** GPIOController: the reset and TX/RX lines *)

Module GPIOController.

Record t : Type := mk {
  chip      : option Resource;
  resetLine : option Resource;
  txRxLine  : option Resource;
  chipPath  : string;
  resetPin  : Z;
  txRxPin   : Z
}.

Definition NewGPIOController (chipPath : string) (resetPin txRxPin : Z) : M t :=
  wrapping "failed to open GPIO chip"
    (open_resource "gpiocdev.NewChip" (GpioChip chipPath)) ;;;
  or_cleanup "failed to request reset pin"
    (ignoring (close_resource "chip.Close" (GpioChip chipPath)))
    (chip_RequestLine chipPath resetPin 0) ;;;
  or_cleanup "failed to request TX/RX pin"
    (ignoring (close_resource "line.Close" (GpioLine chipPath resetPin)) ;;;
     ignoring (close_resource "chip.Close" (GpioChip chipPath)))
    (chip_RequestLine chipPath txRxPin 0) ;;;
  ret (mk (Some (GpioChip chipPath))
          (Some (GpioLine chipPath resetPin))
          (Some (GpioLine chipPath txRxPin))
          chipPath resetPin txRxPin).

Definition Reset (g : t) : M unit :=
  match resetLine g with
  | None => fail ErrResetLineNil
  | Some line =>
      wrapping "failed to set reset pin HIGH" (line_SetValue line 1) ;;;
      time_Sleep 100 ;;;
      wrapping "failed to set reset pin LOW" (line_SetValue line 0) ;;;
      time_Sleep 5000
  end.

(** One [if field != nil { if err := field.Close(); err != nil { errs =
    append(errs, ...) }; field = nil }] of [Close]. *)
Definition close_field (call msg : string) (field : option Resource)
    (errs : list error) : World -> list error * World :=
  fun w =>
    match field with
    | None => (errs, w)
    | Some r =>
        match close_resource call r w with
        | (Ok _, w') => (errs, w')
        | (Err e, w') => (errs ++ [Wrap msg e], w')
        end
    end.

(** [Close] changes its receiver: the result carries the list [errs] (the
    error returned is nil when the list is empty, and otherwise one error,
    "errors closing GPIO", that lists them) and the controller after the
    call. *)
Definition Close (g : t) : World -> (list error * t) * World :=
  fun w =>
    let '(errs, w1) := close_field "line.Close" "failed to close TX/RX line" (txRxLine g) [] w in
    let '(errs, w2) := close_field "line.Close" "failed to close reset line" (resetLine g) errs w1 in
    let '(errs, w3) := close_field "chip.Close" "failed to close GPIO chip" (chip g) errs w2 in
    ((errs, mk None None None (chipPath g) (resetPin g) (txRxPin g)), w3).

Definition SetResetPin (g : t) (high : bool) : M unit :=
  match resetLine g with
  | None => fail ErrResetLineNil
  | Some line =>
      let value := if high then 1 else 0 in
      wrapping "failed to set reset pin to" (line_SetValue line value)
  end.

Definition SetTxRxPin (g : t) (tx : bool) : World -> option txrx_error * World :=
  fun w =>
    match txRxLine g with
    | None => (Some TxRxLineNil, w)
    | Some line =>
        let value := if tx then 1 else 0 in
        match line_SetValue line value w with
        | (Ok _, w') => (None, w')
        | (Err e, w') => (Some (TxRxSetFailed e), w')
        end
    end.

Definition IsInitialized (g : t) : bool :=
  match chip g, resetLine g, txRxLine g with
  | Some _, Some _, Some _ => true
  | _, _, _ => false
  end.

(** [Reinitialize] changes its receiver: [Close] has emptied the three
    fields when the call returns an error; on success they are those of the
    new controller. *)
Definition Reinitialize (g : t) : World -> (option reinit_error * t) * World :=
  fun w =>
    let chipPath' := chipPath g in
    let resetPin' := resetPin g in
    let txRxPin' := txRxPin g in
    let '((errs, g1), w1) := Close g w in
    match errs with
    | _ :: _ => ((Some (ReinitCloseFailed errs), g1), w1)
    | [] =>
        match NewGPIOController chipPath' resetPin' txRxPin' w1 with
        | (Err e, w2) => ((Some (ReinitOpenFailed e), g1), w2)
        | (Ok n, w2) =>
            ((None, mk (chip n) (resetLine n) (txRxLine n)
                       (chipPath g1) (resetPin g1) (txRxPin g1)), w2)
        end
    end.

End GPIOController.

(** ** SX1255Controller *)

Module SX1255Controller.

Record t : Type := mk {
  spi         : option SPIDevice.t;
  gpio        : option GPIOController.t;
  clockFreq   : Z;
  initialized : bool
}.

Definition NewSX1255Controller
    (spiDevice : string) (spiSpeed : Z) (gpioChip : string)
    (resetPin txRxPin : Z) (clockFreq : Z) : M t :=
  spi <- wrapping "failed to initialize SPI" (SPIDevice.NewSPIDevice spiDevice spiSpeed) ;;
  gpio <- or_cleanup "failed to initialize GPIO"
            (ignoring (SPIDevice.Close spi))
            (GPIOController.NewGPIOController gpioChip resetPin txRxPin) ;;
  ret (mk (Some spi) (Some gpio) clockFreq true).

(** A method called through [s.spi] or [s.gpio]. *)
Definition via_spi {A} (s : t) (k : SPIDevice.t -> M A) : M A :=
  match spi s with
  | Some d => k d
  | None => fail ErrNilPointer
  end.

Definition via_gpio {A} (s : t) (k : GPIOController.t -> M A) : M A :=
  match gpio s with
  | Some g => k g
  | None => fail ErrNilPointer
  end.

Definition Reset (s : t) : M unit :=
  if negb (initialized s) then fail ErrNotInitialized
  else via_gpio s GPIOController.Reset.

Definition GetVersion (s : t) : M Z :=
  if negb (initialized s) then fail ErrNotInitialized
  else via_spi s (fun d => SPIDevice.ReadRegister d RegVersion).

Definition ReadRegister (s : t) (addr : Z) : M Z :=
  if negb (initialized s) then fail ErrNotInitialized
  else via_spi s (fun d => SPIDevice.ReadRegister d addr).

Definition WriteRegister (s : t) (addr value : Z) : M unit :=
  if negb (initialized s) then fail ErrNotInitialized
  else via_spi s (fun d => SPIDevice.WriteRegister d addr value).

Definition SetMode (s : t) (mode : Z) : M unit :=
  if negb (initialized s) then fail ErrNotInitialized
  else via_spi s (fun d => SPIDevice.WriteRegister d RegMode mode).

Definition GetMode (s : t) : M Z :=
  if negb (initialized s) then fail ErrNotInitialized
  else via_spi s (fun d => SPIDevice.ReadRegister d RegMode).

Definition SetRxFrequency (s : t) (freqHz : Z) : M unit :=
  if negb (initialized s) then fail ErrNotInitialized
  else if (freqHz <? 400000000) || (freqHz >? 510000000)
  then fail (ErrFrequencyRange freqHz)
  else
    frf <- to_uint32 (frf_word (clockFreq s) freqHz) ;;
    let msb := uint8 (Z.land (Z.shiftr frf 16) 0xFF) in
    let mid := uint8 (Z.land (Z.shiftr frf 8) 0xFF) in
    let lsb := uint8 (Z.land frf 0xFF) in
    via_spi s (fun d =>
      wrapping "failed to write RX frequency MSB" (SPIDevice.WriteRegister d RegFrfhRx msb) ;;;
      wrapping "failed to write RX frequency mid" (SPIDevice.WriteRegister d RegFrfmRx mid) ;;;
      wrapping "failed to write RX frequency LSB" (SPIDevice.WriteRegister d RegFrflRx lsb)).

Definition GetRxFrequency (s : t) : M Z :=
  if negb (initialized s) then fail ErrNotInitialized
  else via_spi s (fun d =>
    msb <- wrapping "failed to read RX frequency MSB" (SPIDevice.ReadRegister d RegFrfhRx) ;;
    mid <- wrapping "failed to read RX frequency mid" (SPIDevice.ReadRegister d RegFrfmRx) ;;
    lsb <- wrapping "failed to read RX frequency LSB" (SPIDevice.ReadRegister d RegFrflRx) ;;
    let frf := Z.lor (Z.lor (uint32 (Z.shiftl msb 16)) (uint32 (Z.shiftl mid 8))) lsb in
    to_uint32 (frf_hz (clockFreq s) frf)).

Definition SetTxFrequency (s : t) (freqHz : Z) : M unit :=
  if negb (initialized s) then fail ErrNotInitialized
  else if (freqHz <? 400000000) || (freqHz >? 510000000)
  then fail (ErrFrequencyRange freqHz)
  else
    frf <- to_uint32 (frf_word (clockFreq s) freqHz) ;;
    let msb := uint8 (Z.land (Z.shiftr frf 16) 0xFF) in
    let mid := uint8 (Z.land (Z.shiftr frf 8) 0xFF) in
    let lsb := uint8 (Z.land frf 0xFF) in
    via_spi s (fun d =>
      wrapping "failed to write TX frequency MSB" (SPIDevice.WriteRegister d RegFrfhTx msb) ;;;
      wrapping "failed to write TX frequency mid" (SPIDevice.WriteRegister d RegFrfmTx mid) ;;;
      wrapping "failed to write TX frequency LSB" (SPIDevice.WriteRegister d RegFrflTx lsb)).

Definition GetTxFrequency (s : t) : M Z :=
  if negb (initialized s) then fail ErrNotInitialized
  else via_spi s (fun d =>
    msb <- wrapping "failed to read TX frequency MSB" (SPIDevice.ReadRegister d RegFrfhTx) ;;
    mid <- wrapping "failed to read TX frequency mid" (SPIDevice.ReadRegister d RegFrfmTx) ;;
    lsb <- wrapping "failed to read TX frequency LSB" (SPIDevice.ReadRegister d RegFrflTx) ;;
    let frf := Z.lor (Z.lor (uint32 (Z.shiftl msb 16)) (uint32 (Z.shiftl mid 8))) lsb in
    to_uint32 (frf_hz (clockFreq s) frf)).

(** The threshold ladder of [SetLNAGain]. *)
Definition lnaGainSetting (gainDb : Z) : Z :=
  if gainDb >? 45 then LnaGainMax
  else if gainDb >? 39 then LnaGainMinus6
  else if gainDb >? 30 then LnaGainMinus12
  else if gainDb >? 18 then LnaGainMinus24
  else if gainDb >? 6 then LnaGainMinus36
  else LnaGainMinus48.

Definition SetLNAGain (s : t) (gainDb : Z) : M unit :=
  if negb (initialized s) then fail ErrNotInitialized
  else via_spi s (fun d =>
    reg <- wrapping "failed to read RXFE1 register" (SPIDevice.ReadRegister d RegRxfe1) ;;
    let reg := Z.lor (Z.land reg 0x1F) (uint8 (Z.shiftl (lnaGainSetting gainDb) 5)) in
    SPIDevice.WriteRegister d RegRxfe1 reg).

(** [reg |= bit] when enabling, [reg &= ^uint8(bit)] when disabling. *)
Definition set_or_clear (enable : bool) (reg bit : Z) : Z :=
  if enable then Z.lor reg bit else Z.land reg (uint8 (Z.lnot bit)).

Definition EnableRx (s : t) (enable : bool) : M unit :=
  if negb (initialized s) then fail ErrNotInitialized
  else via_spi s (fun d =>
    reg <- SPIDevice.ReadRegister d RegMode ;;
    SPIDevice.WriteRegister d RegMode (set_or_clear enable reg ModeBitRxEnable)).

Definition EnableTx (s : t) (enable : bool) : M unit :=
  if negb (initialized s) then fail ErrNotInitialized
  else via_spi s (fun d =>
    reg <- SPIDevice.ReadRegister d RegMode ;;
    SPIDevice.WriteRegister d RegMode (set_or_clear enable reg ModeBitTxEnable)).

Definition EnablePA (s : t) (enable : bool) : M unit :=
  if negb (initialized s) then fail ErrNotInitialized
  else via_spi s (fun d =>
    reg <- SPIDevice.ReadRegister d RegMode ;;
    SPIDevice.WriteRegister d RegMode (set_or_clear enable reg ModeBitDriverEnable)).

Definition Initialize (s : t) : M unit :=
  if negb (initialized s) then fail ErrNotInitialized
  else wrapping "failed to verify SPI communication" (GetVersion s) ;;; ret tt.

(** The loop of [InitializeWithDefaults] over the entries in the order
    the [range] yields them. *)
Fixpoint write_defaults (d : SPIDevice.t) (entries : list (Z * Z)) : M unit :=
  match entries with
  | [] => ret tt
  | (addr, value) :: rest =>
      wrapping "failed to write default value to register"
        (SPIDevice.WriteRegister d addr value) ;;;
      write_defaults d rest
  end.

(** [order] is the order in which [range DefaultRegisterValues] yields
    the entries of the map: some permutation of them. *)
Definition InitializeWithDefaults (order : list (Z * Z)) (s : t) : M unit :=
  Initialize s ;;;
  via_spi s (fun d => write_defaults d order).

(** [Close] changes its receiver: the result carries the list [errs] (the
    error returned is nil when the list is empty, and otherwise one error,
    "errors during close", that lists them) and the controller after the
    call.  The fields [spi] and [gpio] keep their pointers; the GPIO
    controller they point to is the one [GPIOController.Close] leaves. *)
Definition Close (s : t) : World -> (list close_error * t) * World :=
  fun w =>
    let '(errs, w1) :=
      match spi s with
      | None => ([], w)
      | Some d =>
          match SPIDevice.Close d w with
          | (Ok _, w') => ([], w')
          | (Err e, w') => ([CloseFailed (Wrap "SPI close error" e)], w')
          end
      end in
    let '(errs, g', w2) :=
      match gpio s with
      | None => (errs, None, w1)
      | Some g =>
          match GPIOController.Close g w1 with
          | (([], g1), w') => (errs, Some g1, w')
          | ((report, g1), w') =>
              (errs ++ [CloseWrapped "GPIO close error" report], Some g1, w')
          end
      end in
    ((errs, mk (spi s) g' (clockFreq s) false), w2).

Definition IsInitialized (s : t) : bool := initialized s.

(** [fmt.Sprintf("%d", n)] for a byte. *)
Definition Sprintf_d (n : Z) : string :=
  DecimalString.NilZero.string_of_uint (N.to_uint (Z.to_N n)).

(** The text of a version byte: [major] and, for [minor > 0], the letter
    ['A' + minor - 1]. *)
Definition version_string (version : Z) : string :=
  let major := Z.land (Z.shiftr version 4) 0x0F in
  let minor := Z.land version 0x0F in
  if minor >? 0
  then "V" ++ Sprintf_d major
           ++ String (Ascii.ascii_of_N (Z.to_N (uint8 (65 + minor - 1)))) ""
  else "V" ++ Sprintf_d major.

Definition GetVersionString (s : t) : M string :=
  version <- GetVersion s ;;
  ret (version_string version).

(** The addresses the loop of [ReadAllRegisters] visits: from 0x00 up to
    and including [RegDigBridge]. *)
Definition register_addresses : list Z :=
  map Z.of_nat (seq 0 (S (Z.to_nat RegDigBridge))).

(** The loop of [ReadAllRegisters]; the map it fills is the list of its
    entries, in the order in which they are set. *)
Fixpoint read_registers (d : SPIDevice.t) (addrs : list Z) (registers : list (Z * Z))
  : M (list (Z * Z)) :=
  match addrs with
  | [] => ret registers
  | addr :: rest =>
      value <- wrapping "failed to read register" (SPIDevice.ReadRegister d addr) ;;
      read_registers d rest (registers ++ [(addr, value)])
  end.

Definition ReadAllRegisters (s : t) : M (list (Z * Z)) :=
  if negb (initialized s) then fail ErrNotInitialized
  else via_spi s (fun d => read_registers d register_addresses []).

(** [GetPLLStatus] returns [(txLocked, rxLocked)]. *)
Definition GetPLLStatus (s : t) : M (bool * bool) :=
  if negb (initialized s) then fail ErrNotInitialized
  else via_spi s (fun d =>
    stat <- wrapping "failed to read status register" (SPIDevice.ReadRegister d RegStat) ;;
    let txLocked := negb (Z.land stat StatPllLockTx =? 0) in
    let rxLocked := negb (Z.land stat StatPllLockRx =? 0) in
    ret (txLocked, rxLocked)).

(** [GetStatus] returns a map with four keys, here the list of its entries. *)
Definition GetStatus (s : t) : M (list (string * bool)) :=
  if negb (initialized s) then fail ErrNotInitialized
  else via_spi s (fun d =>
    stat <- wrapping "failed to read status register" (SPIDevice.ReadRegister d RegStat) ;;
    ret [ ("eol",         negb (Z.land stat StatEol =? 0));
          ("xosc_ready",  negb (Z.land stat StatXoscReady =? 0));
          ("pll_lock_rx", negb (Z.land stat StatPllLockRx =? 0));
          ("pll_lock_tx", negb (Z.land stat StatPllLockTx =? 0)) ]).

Definition SetPGAGain (s : t) (gainDb : Z) : M unit :=
  if negb (initialized s) then fail ErrNotInitialized
  else
    let gainDb := if gainDb >? 30 then 30 else gainDb in
    let pgaGainSetting := gainDb / 2 in
    via_spi s (fun d =>
      reg <- wrapping "failed to read RXFE1 register" (SPIDevice.ReadRegister d RegRxfe1) ;;
      let reg := Z.lor (Z.land reg 0xE1) (uint8 (Z.shiftl pgaGainSetting 1)) in
      SPIDevice.WriteRegister d RegRxfe1 reg).

(** The [switch] of [SetDACGain]; [gainDb] is an int8. *)
Definition dacGainSetting (gainDb : Z) : Z :=
  if gainDb =? 0 then DacGainMax
  else if gainDb =? -3 then DacGainMinus3
  else if gainDb =? -6 then DacGainMinus6
  else if gainDb =? -9 then DacGainMinus9
  else DacGainMinus3.

Definition SetDACGain (s : t) (gainDb : Z) : M unit :=
  if negb (initialized s) then fail ErrNotInitialized
  else via_spi s (fun d =>
    reg <- wrapping "failed to read TXFE1 register" (SPIDevice.ReadRegister d RegTxfe1) ;;
    let reg := Z.lor (Z.land reg 0x8F) (uint8 (Z.shiftl (dacGainSetting gainDb) 4)) in
    SPIDevice.WriteRegister d RegTxfe1 reg).

(** The clamp of [SetMixerGain] and the value it rounds:
    [math.Round(float64(gainDb+37.5) / 2.0)]. *)
Definition clampMixerGain (gainDb : float32) : float32 :=
  let gainDb := if SFltb gainDb (float32_of_halves (-75))
                then float32_of_halves (-75) else gainDb in
  if SFltb (float32_of_halves (-15)) gainDb then float32_of_halves (-15) else gainDb.

Definition mixerGainRounded (gainDb : float32) : float64 :=
  math_Round (fdiv (float64_of_float32 (fadd32 gainDb (float32_of_halves 75)))
                   (float64_of_Z 2)).

Definition SetMixerGain (s : t) (gainDb : float32) : M unit :=
  if negb (initialized s) then fail ErrNotInitialized
  else
    mixerGainSetting <- to_uint8 (mixerGainRounded (clampMixerGain gainDb)) ;;
    via_spi s (fun d =>
      reg <- wrapping "failed to read TXFE1 register" (SPIDevice.ReadRegister d RegTxfe1) ;;
      let reg := Z.lor (Z.land reg 0xF0) (Z.land mixerGainSetting 0x0F) in
      SPIDevice.WriteRegister d RegTxfe1 reg).

Definition SetTxRxSwitch (s : t) (tx : bool) : World -> option txrx_error * World :=
  fun w =>
    if negb (initialized s) then (Some TxRxControllerNotInitialized, w)
    else match gpio s with
         | None => (Some TxRxNilPointer, w)
         | Some g => GPIOController.SetTxRxPin g tx w
         end.

End SX1255Controller.

(** ** HardwarePlugin: the callers of the controller (hardware.go) *)

Module HardwarePlugin.

Record HardwareConfig : Type := mkConfig {
  SPIDevice : string;
  SPISpeed  : Z;
  GPIOChip  : string;
  ResetPin  : Z;
  TxRxPin   : Z;
  ClockFreq : Z
}.

(** The plugin is its configuration, with the defaults filled in. *)
Definition NewHardwarePlugin (cfg : HardwareConfig) : HardwareConfig :=
  let speed := if SPISpeed cfg =? 0 then 500000 else SPISpeed cfg in
  let clock := if ClockFreq cfg =? 0 then 32000000 else ClockFreq cfg in
  mkConfig (SPIDevice cfg) speed (GPIOChip cfg) (ResetPin cfg) (TxRxPin cfg) clock.

Definition createController (p : HardwareConfig) : M SX1255Controller.t :=
  SX1255Controller.NewSX1255Controller
    (SPIDevice p) (SPISpeed p) (GPIOChip p) (ResetPin p) (TxRxPin p) (ClockFreq p).

(** [withController]: the controller is closed on the way out
    ([defer controller.Close()]), whatever [fn] returns; what [fn] stores in
    the variables of its caller is its result here. *)
Definition withController {A} (p : HardwareConfig) (fn : SX1255Controller.t -> M A)
  : M A :=
  fun w =>
    match createController p w with
    | (Err e, w1) => (Err e, w1)
    | (Ok controller, w1) =>
        let '(r, w2) := fn controller w1 in
        (r, snd (SX1255Controller.Close controller w2))
    end.

(** A run-time panic, however the model has wrapped it on its way up. *)
Fixpoint is_panic (e : error) : bool :=
  match e with
  | ErrNilPointer => true
  | Wrap _ cause => is_panic cause
  | _ => false
  end.

(** [x, _ = f()]: the error is dropped and [x] is what [f] returned with
    it, the zero value of its type; a panic is not an error to drop. *)
Definition dropping_error {A} (zero : A) (c : M A) : M A :=
  fun w => match c w with
           | (Ok a, w') => (Ok a, w')
           | (Err e, w') => if is_panic e then (Err e, w') else (Ok zero, w')
           end.

(** The function [handleStatus] passes to [withController]: the status,
    and then the version, the two frequencies and the mode, whose errors it
    drops. *)
Definition handleStatus_fn (ctrl : SX1255Controller.t)
  : M (list (string * bool) * string * Z * Z * Z) :=
  status <- SX1255Controller.GetStatus ctrl ;;
  version <- dropping_error "" (SX1255Controller.GetVersionString ctrl) ;;
  rxFreq <- dropping_error 0 (SX1255Controller.GetRxFrequency ctrl) ;;
  txFreq <- dropping_error 0 (SX1255Controller.GetTxFrequency ctrl) ;;
  mode <- dropping_error 0 (SX1255Controller.GetMode ctrl) ;;
  ret (status, version, rxFreq, txFreq, mode).

(** The [switch] of [handleSetMode]: [None] is the answer 400. *)
Definition modeValue (mode : string) : option Z :=
  if String.eqb mode "sleep" then Some ModeSleep
  else if String.eqb mode "standby" then Some ModeStandby
  else if String.eqb mode "rx" then Some ModeRx
  else if String.eqb mode "tx" then Some ModeTx
  else if String.eqb mode "tx_full" then Some ModeTxFull
  else if String.eqb mode "full_duplex" then Some ModeFullDuplex
  else None.

(** The [switch] of [handleGetMode]. *)
Definition modeName (value : Z) : string :=
  if value =? ModeSleep then "sleep"
  else if value =? ModeStandby then "standby"
  else if value =? ModeRx then "rx"
  else if value =? ModeTx then "tx"
  else if value =? ModeTxFull then "tx_full"
  else if value =? ModeFullDuplex then "full_duplex"
  else "unknown".

End HardwarePlugin.

(** ** Vocabulary of the statements *)

(** A binary64 number with a full 53-bit mantissa [M] and exponent [E]:
    the value [M * 2 ^ E]. *)
Definition normal (M : Z) : Prop := 2 ^ 52 <= M < 2 ^ 53.
Definition nf (M E : Z) : float64 := S754_finite false (Z.to_pos M) E.

(** No external call fails from now on. *)
Definition quiet (w : World) : Prop := forall i, fault w i = false.

(** A controller as [NewSX1255Controller] returns it: marked initialized,
    with a transport whose connection is set. *)
Definition ready (s : SX1255Controller.t) : Prop :=
  SX1255Controller.initialized s = true /\
  exists d, SX1255Controller.spi s = Some d /\ SPIDevice.conn d <> None.

(** The frames of a trace that write a register: those whose address byte
    has bit 7 set. *)
Definition is_write_frame (ev : Event) : bool :=
  match ev with
  | EvTx (a :: _) _ => Z.testbit a 7
  | _ => false
  end.

Definition register_writes (t : list Event) : list Event := filter is_write_frame t.

(** The frames shifted out on the SPI bus in a trace. *)
Fixpoint frames (t : list Event) : list (list Z) :=
  match t with
  | [] => []
  | EvTx tx _ :: rest => tx :: frames rest
  | _ :: rest => frames rest
  end.

(** The resources a trace opened, and those it closed, in order. *)
Fixpoint opened (t : list Event) : list Resource :=
  match t with
  | [] => []
  | EvOpen r true :: rest => r :: opened rest
  | _ :: rest => opened rest
  end.

Fixpoint closed (t : list Event) : list Resource :=
  match t with
  | [] => []
  | EvClose r _ :: rest => r :: closed rest
  | _ :: rest => closed rest
  end.

(** The event of a register write that went through. *)
Definition write_event (entry : Z * Z) : Event :=
  EvTx [Z.lor (fst entry) 0x80; snd entry] (Some [0; 0]).

(** The total time slept in a trace, in microseconds. *)
Fixpoint slept (t : list Event) : Z :=
  match t with
  | [] => 0
  | EvSleep us :: rest => us + slept rest
  | _ :: rest => slept rest
  end.

(** The world after a register write, and after a register read, that
    went through. *)
Definition written (addr value : Z) (w : World) : World :=
  log (EvSleep 10)
    (set_regs (upd (regs w) (Z.land addr 0x7F) (uint8 value))
       (log (EvTx [Z.lor addr 0x80; value] (Some [0; 0])) w)).

Definition read_value (addr : Z) (w : World) : Z := uint8 (regs w (Z.land addr 0x7F)).

Definition read_back (addr : Z) (w : World) : World :=
  log (EvSleep 10)
    (set_regs (regs w)
       (log (EvTx [Z.land addr 0x7F; 0x00] (Some [0; read_value addr w])) w)).

(** The world after the writes of a list of table entries, in order, and
    the register an entry goes to. *)
Definition write_all (entries : list (Z * Z)) (w : World) : World :=
  fold_left (fun w e => written (fst e) (snd e) w) entries w.

Definition key (e : Z * Z) : Z := Z.land (fst e) 0x7F.

(** A world and controllers to evaluate the code on: all registers 0,
    nothing held, an empty trace, no fault. *)
Definition still_world : World :=
  mkWorld (fun _ => 0) [] [] (fun _ => false) (fun _ => 0).

Definition open_transport : SPIDevice.t :=
  SPIDevice.mk (Some (SpiPort "/dev/spidev0.0")) (Some (SpiPort "/dev/spidev0.0"))
               "/dev/spidev0.0" (500000 * SPIDevice.physic_Hertz).

Definition open_lines : GPIOController.t :=
  GPIOController.mk (Some (GpioChip "gpiochip0")) (Some (GpioLine "gpiochip0" 5))
                    (Some (GpioLine "gpiochip0" 6)) "gpiochip0" 5 6.

Definition open_controller (clockFreq : Z) : SX1255Controller.t :=
  SX1255Controller.mk (Some open_transport) (Some open_lines) clockFreq true.

(** The bound of the frequency round trip: [ceil(FXOSC / 2^20)]. *)
Definition roundtrip_bound (clockFreq : Z) : Z := (clockFreq + 2 ^ 20 - 1) / 2 ^ 20.

(** ** Vocabulary of the further properties *)

(** What [uint32(x)] yields in world [w]. *)
Definition converted (w : World) (x : float64) : Z :=
  match uint32_of_float64 x with
  | Some v => v
  | None => uint32 (impl_uint32 w x)
  end.

(** The 24-bit words the RX and the TX frequency registers hold. *)
Definition rx_word (w : World) : Z :=
  65536 * read_value RegFrfhRx w + 256 * read_value RegFrfmRx w + read_value RegFrflRx w.

Definition tx_word (w : World) : Z :=
  65536 * read_value RegFrfhTx w + 256 * read_value RegFrfmTx w + read_value RegFrflTx w.

(** What [uint8(x)] yields in world [w]. *)
Definition converted8 (w : World) (x : float64) : Z :=
  match uint8_of_float64 x with
  | Some v => v
  | None => uint8 (impl_uint32 w x)
  end.

(** The world after the reads of a list of registers, in order. *)
Definition read_all (addrs : list Z) (w : World) : World :=
  fold_left (fun w a => read_back a w) addrs w.

(** A computation that opens and closes nothing: the handles held after
    it are those held before. *)
Definition keeps_held {A} (c : M A) : Prop :=
  forall w, held (snd (c w)) = held w.

(** A configuration that names the devices and leaves the SPI speed and
    the reference clock to the defaults. *)
Definition plain_config : HardwarePlugin.HardwareConfig :=
  HardwarePlugin.mkConfig "/dev/spidev0.0" 0 "gpiochip0" 5 6 0.

(** The transport that [NewSPIDevice] returns for a device and a speed. *)
Definition opened_transport (device : string) (speed : Z) : SPIDevice.t :=
  SPIDevice.mk (Some (SpiPort device)) (Some (SpiPort device)) device
               (speed * SPIDevice.physic_Hertz).

(** The values a trace drove on the lines, in order. *)
Fixpoint driven (t : list Event) : list (Resource * Z) :=
  match t with
  | [] => []
  | EvSetValue r v true :: rest => (r, v) :: driven rest
  | _ :: rest => driven rest
  end.

(** The GPIO controller that [NewGPIOController] returns. *)
Definition opened_lines (chipPath : string) (resetPin txRxPin : Z) : GPIOController.t :=
  GPIOController.mk (Some (GpioChip chipPath)) (Some (GpioLine chipPath resetPin))
                    (Some (GpioLine chipPath txRxPin)) chipPath resetPin txRxPin.

(** A computation that writes no register: the register file after it is
    the one before, and it adds no write frame to the trace. *)
Definition reads_only {A} (c : M A) : Prop :=
  forall w, regs (snd (c w)) = regs w /\
            register_writes (trace (snd (c w))) = register_writes (trace w).

(** The text of a version byte, in words and apart from the code: the
    letter V, the high nibble written as a decimal number (0 to 15, without
    a leading zero), and, when the low nibble is not 0, one capital letter,
    A for 1 up to O for 15. *)
Definition decimal_digit (n : Z) : ascii :=
  nth (Z.to_nat n) ["0"; "1"; "2"; "3"; "4"; "5"; "6"; "7"; "8"; "9"]%char "?"%char.

Definition decimal_text (n : Z) : string :=
  if n <? 10 then String (decimal_digit n) ""
  else String (decimal_digit (n / 10)) (String (decimal_digit (n mod 10)) "").

Definition letter_text (n : Z) : string :=
  if n =? 0 then ""
  else String (nth (Z.to_nat (n - 1))
                   ["A"; "B"; "C"; "D"; "E"; "F"; "G"; "H"; "I"; "J"; "K"; "L"; "M"; "N"; "O"]%char
                   "?"%char) "".

Definition version_text (version : Z) : string :=
  "V" ++ decimal_text (version / 16) ++ letter_text (version mod 16).

(** No external call fails before position [n] of the trace. *)
Definition quiet_until (n : nat) (w : World) : Prop :=
  forall i, (i < n)%nat -> fault w i = false.

(** The integers from 0 up to, and without, [n]. *)
Definition below (n : nat) : list Z := map Z.of_nat (seq 0 n).

(** The events a computation appended to the trace of [w]. *)
Definition appended (w w' : World) : list Event :=
  skipn (List.length (trace w)) (trace w').

(** A world whose chip reports version 0x11 and, in STAT, the crystal
    oscillator ready and the RX PLL locked. *)
Definition chip_world : World :=
  mkWorld (fun a => if a =? RegVersion then 0x11 else if a =? RegStat then 0x06 else 0)
          [] [] (fun _ => false) (fun _ => 0).

(** A world whose bus, or whichever call comes at position [k] of the
    trace, fails once: all registers 0, nothing held, an empty trace. *)
Definition faulty_world (k : nat) : World :=
  mkWorld (fun _ => 0) [] [] (fun i => Nat.eqb i k) (fun _ => 0).

(* ================================================================= *)
(** * Part II: properties *)
(* ================================================================= *)

(** ** binary64 arithmetic on the values the controller computes *)

Section Digits.

Lemma digits2_pos_size p : digits2_pos p = Pos.size p.
Proof. induction p; simpl; congruence. Qed.

Lemma Zdigits2_log2 p : Zdigits2 (Zpos p) = Z.log2 (Zpos p) + 1.
Proof.
  unfold Zdigits2. destruct p; simpl; rewrite ?digits2_pos_size; lia.
Qed.

Lemma Zdigits2_unique m d :
  2 ^ (d - 1) <= m < 2 ^ d -> 0 < d -> Zdigits2 m = d.
Proof.
  intros H Hd.
  assert (0 < m) by (pose proof (Z.pow_pos_nonneg 2 (d - 1)); lia).
  destruct m as [|p|p]; try lia.
  rewrite Zdigits2_log2.
  rewrite (Z.log2_unique (Zpos p) (d - 1)); try lia.
  replace (Z.succ (d - 1)) with d by lia. lia.
Qed.

Lemma digits_exists n : 0 < n -> 2 ^ (Z.log2 n + 1 - 1) <= n < 2 ^ (Z.log2 n + 1).
Proof.
  intros H. replace (Z.log2 n + 1 - 1) with (Z.log2 n) by lia.
  apply Z.log2_spec. exact H.
Qed.

Lemma digits_le n d k : 2 ^ (d - 1) <= n < 2 ^ k -> 1 <= d -> d <= k.
Proof.
  intros H Hd. destruct (Z_le_gt_dec d k); auto.
  assert (2 ^ k <= 2 ^ (d - 1)) by (apply Z.pow_le_mono_r; lia). lia.
Qed.

Lemma digits_ge n d k : 2 ^ k <= n < 2 ^ d -> 0 <= k -> k + 1 <= d.
Proof.
  intros H Hk. destruct (Z_le_gt_dec (k + 1) d); auto.
  assert (2 ^ d <= 2 ^ k) by (apply Z.pow_le_mono_r; lia). lia.
Qed.

End Digits.

Section Shifts.

Lemma iter_pos_nat {A} (f : A -> A) p x :
  iter_pos f p x = Nat.iter (Pos.to_nat p) f x.
Proof.
  revert x. induction p; intros x; cbn [iter_pos].
  - rewrite !IHp, Pos2Nat.inj_xI.
    replace (S (2 * Pos.to_nat p)) with (Pos.to_nat p + S (Pos.to_nat p))%nat by lia.
    now rewrite Nat.iter_add, Nat.iter_succ_r.
  - rewrite !IHp, Pos2Nat.inj_xO.
    replace (2 * Pos.to_nat p)%nat with (Pos.to_nat p + Pos.to_nat p)%nat by lia.
    now rewrite Nat.iter_add.
  - reflexivity.
Qed.

Lemma shr_1_m mrs : 0 <= shr_m mrs -> shr_m (shr_1 mrs) = shr_m mrs / 2.
Proof.
  destruct mrs as [m r s]. cbn [shr_m]. intros H.
  destruct m as [|[p|p|]|p]; cbn [shr_1 shr_m]; try lia; try reflexivity.
  - apply (Z.div_unique (Z.pos p~1) 2 (Z.pos p) 1); lia.
  - apply (Z.div_unique (Z.pos p~0) 2 (Z.pos p) 0); lia.
Qed.

Lemma shr_iter_m n mrs :
  0 <= shr_m mrs ->
  shr_m (Nat.iter n shr_1 mrs) = shr_m mrs / 2 ^ Z.of_nat n.
Proof.
  intros H. induction n.
  - simpl. now rewrite Z.div_1_r.
  - rewrite Nat.iter_succ. rewrite shr_1_m; rewrite IHn.
    + rewrite Z.div_div by lia. f_equal. rewrite Nat2Z.inj_succ, Z.pow_succ_r; lia.
    + apply Z.div_pos; lia.
Qed.

Lemma shr_1_exact m :
  0 <= m -> m mod 2 = 0 ->
  shr_1 (Build_shr_record m false false) = Build_shr_record (m / 2) false false.
Proof.
  intros H H2. destruct m as [|[p|p|]|p]; cbn [shr_1 orb]; try lia; try reflexivity.
  - exfalso.
    assert (1 = Z.pos p~1 mod 2) by (apply (Z.mod_unique _ 2 (Z.pos p) 1); lia). lia.
  - f_equal. apply (Z.div_unique (Z.pos p~0) 2 (Z.pos p) 0); lia.
  - discriminate.
Qed.

Lemma shr_iter_exact n : forall m,
  0 <= m -> m mod 2 ^ Z.of_nat n = 0 ->
  Nat.iter n shr_1 (Build_shr_record m false false)
  = Build_shr_record (m / 2 ^ Z.of_nat n) false false.
Proof.
  induction n; intros m H Hm.
  - simpl. now rewrite Z.div_1_r.
  - rewrite Nat.iter_succ_r.
    rewrite Nat2Z.inj_succ, Z.pow_succ_r in * by lia.
    assert (E : m = 2 * 2 ^ Z.of_nat n * (m / (2 * 2 ^ Z.of_nat n))).
    { apply Z.div_exact; lia. }
    set (k := m / (2 * 2 ^ Z.of_nat n)) in *.
    assert (0 <= k) by (apply Z.div_pos; lia).
    assert (E2 : m / 2 = 2 ^ Z.of_nat n * k).
    { rewrite E. replace (2 * 2 ^ Z.of_nat n * k) with ((2 ^ Z.of_nat n * k) * 2) by lia.
      apply Z.div_mul; lia. }
    rewrite shr_1_exact; try lia.
    + rewrite IHn.
      * f_equal. rewrite E2. rewrite Z.mul_comm. apply Z.div_mul. lia.
      * apply Z.div_pos; lia.
      * rewrite E2. rewrite Z.mul_comm. apply Z.mod_mul. lia.
    + rewrite E. replace (2 * 2 ^ Z.of_nat n * k) with ((2 ^ Z.of_nat n * k) * 2) by lia.
      apply Z.mod_mul. lia.
Qed.

Lemma shr_spec mrs e n :
  0 <= shr_m mrs -> 0 <= n ->
  shr_m (fst (shr mrs e n)) = shr_m mrs / 2 ^ n /\ snd (shr mrs e n) = e + n.
Proof.
  intros Hm Hn. destruct n as [|p|p]; try lia; cbn [shr fst snd].
  - rewrite Z.div_1_r. lia.
  - rewrite iter_pos_nat, shr_iter_m by assumption.
    now rewrite positive_nat_Z.
Qed.

Lemma shr_exact m e n :
  0 <= m -> 0 <= n -> m mod 2 ^ n = 0 ->
  shr (Build_shr_record m false false) e n
  = (Build_shr_record (m / 2 ^ n) false false, e + n).
Proof.
  intros Hm Hn H. destruct n as [|p|p]; try lia; cbn [shr].
  - rewrite Z.div_1_r. f_equal. lia.
  - rewrite iter_pos_nat. rewrite shr_iter_exact; rewrite ?positive_nat_Z; auto.
Qed.

Lemma iter_xO_pow2 p k : Zpos (Pos.iter xO p k) = Zpos p * 2 ^ Zpos k.
Proof.
  induction k using Pos.peano_ind.
  - simpl. lia.
  - rewrite Pos.iter_succ, Pos2Z.inj_xO, IHk, Pos2Z.inj_succ, Z.pow_succ_r; lia.
Qed.

End Shifts.

Ltac pow2_consts :=
  change (2 ^ 0) with 1 in *; change (2 ^ 1) with 2 in *; change (2 ^ 2) with 4 in *;
  change (2 ^ 52) with 4503599627370496 in *;
  change (2 ^ 53) with 9007199254740992 in *;
  change (2 ^ 54) with 18014398509481984 in *.

Section Rounding.

Lemma fexp64 x : fexp 53 1024 x = Z.max (x - 53) (-1074).
Proof. reflexivity. Qed.

Lemma round_nearest_even_bounds m l :
  m <= round_nearest_even m l <= m + 1.
Proof.
  destruct l as [|[| |]]; cbn [round_nearest_even]; try lia.
  destruct (Z.even m); lia.
Qed.

Lemma shr_record_of_loc_m m l : shr_m (shr_record_of_loc m l) = m.
Proof. destruct l as [|[| |]]; reflexivity. Qed.

Lemma pow2_scale_bounds M k :
  normal M -> 0 <= k -> 2 ^ (53 + k - 1) <= M * 2 ^ k < 2 ^ (53 + k).
Proof.
  unfold normal. intros H Hk.
  replace (53 + k - 1) with (52 + k) by lia.
  rewrite !Z.pow_add_r by lia.
  pose proof (Z.pow_pos_nonneg 2 k). nia.
Qed.

(** Rounding a mantissa whose low [k] bits are zero is exact. *)
Lemma binary_round_aux_exact M k e :
  normal M -> 0 <= k -> -1074 <= e + k <= 971 ->
  binary_round_aux 53 1024 false (M * 2 ^ k) e loc_Exact
  = S754_finite false (Z.to_pos M) (e + k).
Proof.
  intros HM Hk He. unfold binary_round_aux, shr_fexp.
  rewrite (Zdigits2_unique (M * 2 ^ k) (53 + k)) by (try apply pow2_scale_bounds; auto; lia).
  rewrite fexp64.
  replace (Z.max (53 + k + e - 53) (-1074) - e) with k by lia.
  cbn [shr_record_of_loc].
  rewrite shr_exact; try lia.
  2:{ unfold normal in HM. pose proof (Z.pow_pos_nonneg 2 k). nia. }
  2:{ apply Z.mod_mul. pose proof (Z.pow_pos_nonneg 2 k). lia. }
  rewrite Z.div_mul by (pose proof (Z.pow_pos_nonneg 2 k); lia).
  cbn [shr_m loc_of_shr_record round_nearest_even].
  rewrite (Zdigits2_unique M 53) by (unfold normal in HM; simpl; lia).
  rewrite fexp64.
  replace (Z.max (53 + (e + k) - 53) (-1074) - (e + k)) with 0 by lia.
  cbn [shr_record_of_loc shr shr_m].
  unfold normal in HM. destruct M as [|p|p]; try lia.
  replace (e + k <=? 1024 - 53) with true by (symmetry; apply Z.leb_le; lia).
  reflexivity.
Qed.

(** Rounding a mantissa of [53 + k] bits keeps its upper 53 bits or their
    successor; a carry out of the 53 bits moves the exponent by one. *)
Lemma binary_round_aux_bounds m k e l :
  2 ^ (52 + k) <= m < 2 ^ (53 + k) -> 0 <= k -> -1074 <= e + k -> e + k + 1 <= 971 ->
  exists M E,
    binary_round_aux 53 1024 false m e l = S754_finite false (Z.to_pos M) E /\
    normal M /\
    ((E = e + k /\ m / 2 ^ k <= M <= m / 2 ^ k + 1) \/
     (E = e + k + 1 /\ M = 2 ^ 52 /\ m / 2 ^ k = 2 ^ 53 - 1)).
Proof.
  intros Hm Hk He1 He2. unfold binary_round_aux, shr_fexp.
  assert (P2 : 0 < 2 ^ k) by (apply Z.pow_pos_nonneg; lia).
  assert (Hm0 : 0 <= m) by (pose proof (Z.pow_pos_nonneg 2 (52 + k)); lia).
  rewrite (Zdigits2_unique m (53 + k)) by (replace (53 + k - 1) with (52 + k) by lia; auto; lia).
  rewrite fexp64.
  replace (Z.max (53 + k + e - 53) (-1074) - e) with k by lia.
  destruct (shr_spec (shr_record_of_loc m l) e k) as [Hs1 Hs2];
    rewrite ?shr_record_of_loc_m; auto.
  destruct (shr (shr_record_of_loc m l) e k) as [mrs' e'].
  cbn [fst snd] in Hs1, Hs2. subst e'.
  rewrite shr_record_of_loc_m in Hs1. rewrite Hs1.
  set (m1 := m / 2 ^ k) in *.
  assert (Hm1 : normal m1).
  { unfold normal, m1. split.
    - apply Z.div_le_lower_bound; [lia|]. rewrite <- Z.pow_add_r by lia.
      replace (k + 52) with (52 + k) by lia. lia.
    - apply Z.div_lt_upper_bound; [lia|]. rewrite <- Z.pow_add_r by lia.
      replace (k + 53) with (53 + k) by lia. lia. }
  pose proof (round_nearest_even_bounds m1 (loc_of_shr_record mrs')) as HR.
  set (M1 := round_nearest_even m1 (loc_of_shr_record mrs')) in *.
  unfold normal in Hm1.
  destruct (Z.eq_dec M1 (2 ^ 53)) as [Hc|Hc].
  - (* the rounding carried into a 54th bit *)
    rewrite Hc.
    exists (2 ^ 52), (e + k + 1). split.
    + rewrite (Zdigits2_unique (2 ^ 53) 54) by (simpl; lia).
      rewrite fexp64.
      replace (Z.max (54 + (e + k) - 53) (-1074) - (e + k)) with 1 by lia.
      cbn [shr_record_of_loc]. rewrite shr_exact by (simpl; lia || reflexivity).
      cbn [shr_m].
      replace (2 ^ 53 / 2 ^ 1) with (2 ^ 52) by reflexivity.
      replace (e + k + 1 <=? 1024 - 53) with true by (symmetry; apply Z.leb_le; lia).
      reflexivity.
    + split; [unfold normal; simpl; lia|]. right. lia.
  - exists M1, (e + k). split.
    + rewrite (Zdigits2_unique M1 53) by (simpl; lia).
      rewrite fexp64.
      replace (Z.max (53 + (e + k) - 53) (-1074) - (e + k)) with 0 by lia.
      cbn [shr_record_of_loc shr shr_m].
      assert (0 < M1) by lia.
      destruct M1 as [|p|p]; try lia.
      replace (e + k <=? 1024 - 53) with true by (symmetry; apply Z.leb_le; lia).
      reflexivity.
    + split; [unfold normal; lia|]. left. lia.
Qed.

End Rounding.

Section Float64.

(** [float64(n)] for an integer of [d] bits, [d <= 53], is exact. *)
Lemma float64_of_Z_normal n d :
  2 ^ (d - 1) <= n < 2 ^ d -> 1 <= d <= 53 ->
  float64_of_Z n = nf (n * 2 ^ (53 - d)) (d - 53) /\ normal (n * 2 ^ (53 - d)).
Proof.
  intros Hn Hd.
  assert (Hnorm : normal (n * 2 ^ (53 - d))).
  { unfold normal.
    assert (E1 : 2 ^ 52 = 2 ^ (d - 1) * 2 ^ (53 - d))
      by (rewrite <- Z.pow_add_r by lia; f_equal; lia).
    assert (E2 : 2 ^ 53 = 2 ^ d * 2 ^ (53 - d))
      by (rewrite <- Z.pow_add_r by lia; f_equal; lia).
    rewrite E1, E2.
    assert (0 < 2 ^ (53 - d)) by (apply Z.pow_pos_nonneg; lia). nia. }
  split; [|exact Hnorm].
  assert (0 < n) by (pose proof (Z.pow_pos_nonneg 2 (d - 1)); lia).
  destruct n as [|p|p]; try lia.
  unfold float64_of_Z, binary_normalize, binary_round, shl_align.
  change (Z.pos (digits2_pos p)) with (Zdigits2 (Z.pos p)).
  rewrite (Zdigits2_unique (Z.pos p) d) by (auto; lia).
  rewrite fexp64.
  replace (Z.max (d + 0 - 53) (-1074) - 0) with (d - 53) by lia.
  pose proof (binary_round_aux_exact (Z.pos p * 2 ^ (53 - d)) 0 (d - 53) Hnorm) as R.
  rewrite Z.pow_0_r, Z.mul_1_r, Z.add_0_r in R.
  unfold nf. rewrite <- R by lia.
  destruct (d - 53) as [|q|q] eqn:Eq; try lia.
  - replace (53 - d) with 0 by lia. rewrite Z.pow_0_r, Z.mul_1_r. f_equal; lia.
  - replace (53 - d) with (Z.pos q) by lia. rewrite iter_xO_pow2. f_equal; lia.
Qed.

Lemma fmul_nf M1 e1 M2 e2 M k :
  normal M1 -> normal M2 -> normal M -> M1 * M2 = M * 2 ^ k -> 0 <= k ->
  -1074 <= e1 + e2 + k <= 971 ->
  fmul (nf M1 e1) (nf M2 e2) = nf M (e1 + e2 + k).
Proof.
  unfold normal. intros H1 H2 H3 HM Hk He.
  unfold fmul, nf, SFmul. cbn [xorb].
  rewrite Pos2Z.inj_mul, !Z2Pos.id by lia.
  rewrite HM. apply binary_round_aux_exact; auto.
Qed.

(** A product of integers that fits 53 bits is computed exactly. *)
Lemma fmul_of_Z a b :
  0 < a -> 0 < b -> a * b < 2 ^ 53 ->
  fmul (float64_of_Z a) (float64_of_Z b) = float64_of_Z (a * b).
Proof.
  intros Ha Hb Hab.
  pose proof (digits_exists a Ha) as Da. pose proof (digits_exists b Hb) as Db.
  assert (Hpos : 0 < a * b) by nia.
  pose proof (digits_exists (a * b) Hpos) as Dab.
  set (da := Z.log2 a + 1) in *. set (db := Z.log2 b + 1) in *.
  set (dab := Z.log2 (a * b) + 1) in *.
  assert (1 <= da) by (pose proof (Z.log2_nonneg a); lia).
  assert (1 <= db) by (pose proof (Z.log2_nonneg b); lia).
  assert (1 <= dab) by (pose proof (Z.log2_nonneg (a * b)); lia).
  assert (dab <= 53) by (apply (digits_le (a * b)); lia).
  assert (da + db - 1 <= dab).
  { destruct (Z_le_gt_dec (da + db - 1) dab); auto.
    assert (2 ^ dab <= 2 ^ (da - 1 + (db - 1))) by (apply Z.pow_le_mono_r; lia).
    rewrite Z.pow_add_r in * by lia. nia. }
  assert (dab <= da + db).
  { destruct (Z_le_gt_dec dab (da + db)); auto.
    assert (2 ^ (da + db) <= 2 ^ (dab - 1)) by (apply Z.pow_le_mono_r; lia).
    rewrite Z.pow_add_r in * by lia. nia. }
  assert (da <= 53) by (apply (digits_le a); [nia|lia]).
  assert (db <= 53) by (apply (digits_le b); [nia|lia]).
  destruct (float64_of_Z_normal a da) as [Ea Na]; auto.
  destruct (float64_of_Z_normal b db) as [Eb Nb]; auto.
  destruct (float64_of_Z_normal (a * b) dab) as [Eab Nab]; auto.
  rewrite Ea, Eb, Eab.
  rewrite (fmul_nf _ _ _ _ (a * b * 2 ^ (53 - dab)) (53 + dab - da - db)); auto; try lia.
  - f_equal. lia.
  - assert (E : 2 ^ (53 - da) * 2 ^ (53 - db)
                 = 2 ^ (53 - dab) * 2 ^ (53 + dab - da - db))
      by (rewrite <- !Z.pow_add_r by lia; f_equal; lia).
    replace (a * 2 ^ (53 - da) * (b * 2 ^ (53 - db)))
      with (a * b * (2 ^ (53 - da) * 2 ^ (53 - db))) by ring.
    rewrite E. ring.
Qed.

(** The quotient of two full mantissas: the result is within one unit in
    the last place of the exact quotient. *)
Lemma fdiv_nf Ma ea Mb eb :
  normal Ma -> normal Mb -> -1074 <= ea - eb - 53 -> ea - eb - 51 <= 971 ->
  exists M j,
    fdiv (nf Ma ea) (nf Mb eb) = nf M (ea - eb - 53 + j) /\ normal M /\
    (j = 0 \/ j = 1 \/ j = 2) /\
    - (2 ^ j * Mb) <= M * 2 ^ j * Mb - Ma * 2 ^ 53 <= 2 ^ j * Mb.
Proof.
  unfold normal. intros Ha Hb He1 He2.
  unfold fdiv, nf, SFdiv, SFdiv_core_binary. cbn [xorb]. cbv zeta.
  rewrite !Z2Pos.id by lia.
  rewrite (Zdigits2_unique Ma 53), (Zdigits2_unique Mb 53) by (simpl; lia).
  rewrite fexp64.
  replace (Z.min (Z.max (53 + ea - (53 + eb) - 53) (-1074)) (ea - eb))
    with (ea - eb - 53) by lia.
  replace (ea - eb - (ea - eb - 53)) with 53 by lia.
  cbv iota. rewrite Z.shiftl_mul_pow2 by lia.
  pose proof (Z_div_mod (Ma * 2 ^ 53) Mb) as DM.
  destruct (Z.div_eucl (Ma * 2 ^ 53) Mb) as [q r].
  destruct DM as [DM Hr]; [lia|].
  assert (Hq : 2 ^ 52 <= q < 2 ^ 54) by (pow2_consts; nia).
  destruct (Z_lt_ge_dec q (2 ^ 53)) as [Hlt|Hge].
  - destruct (binary_round_aux_bounds q 0 (ea - eb - 53) (new_location Mb r))
      as (M & E & HR & HN & HC); try lia.
    rewrite Z.pow_0_r, Z.div_1_r in HC. rewrite HR. unfold normal in HN.
    destruct HC as [[-> HM]|(-> & -> & Hq')].
    + exists M, 0. rewrite Z.add_0_r.
      split; [reflexivity|]. split; [exact HN|]. split; [auto|].
      pow2_consts. nia.
    + exists (2 ^ 52), 1. replace (ea - eb - 53 + 0 + 1) with (ea - eb - 53 + 1) by lia.
      split; [reflexivity|]. split; [exact HN|]. split; [auto|].
      pow2_consts. nia.
  - destruct (binary_round_aux_bounds q 1 (ea - eb - 53) (new_location Mb r))
      as (M & E & HR & HN & HC); try (simpl; lia).
    rewrite HR. unfold normal in HN.
    change (2 ^ 1) with 2 in HC.
    pose proof (Z.div_mod q 2 ltac:(lia)) as Dq.
    pose proof (Z.mod_pos_bound q 2 ltac:(lia)) as Bq.
    destruct HC as [[-> HM]|(-> & -> & Hq')].
    + exists M, 1.
      split; [reflexivity|]. split; [exact HN|]. split; [auto|].
      pow2_consts. nia.
    + exists (2 ^ 52), 2. replace (ea - eb - 53 + 1 + 1) with (ea - eb - 53 + 2) by lia.
      split; [reflexivity|]. split; [exact HN|]. split; [auto|].
      pow2_consts. nia.
Qed.

(** Division by a power of two only moves the exponent. *)
Lemma fdiv_nf_pow2 Ma ea eb :
  normal Ma -> -1074 <= ea - eb - 53 -> ea - eb - 52 <= 971 ->
  fdiv (nf Ma ea) (nf (2 ^ 52) eb) = nf Ma (ea - eb - 52).
Proof.
  unfold normal. intros Ha He He'.
  unfold fdiv, nf, SFdiv, SFdiv_core_binary. cbn [xorb]. cbv zeta.
  rewrite !Z2Pos.id by (simpl; lia).
  rewrite (Zdigits2_unique Ma 53) by (simpl; lia).
  change (Zdigits2 (2 ^ 52)) with 53.
  rewrite fexp64.
  replace (Z.min (Z.max (53 + ea - (53 + eb) - 53) (-1074)) (ea - eb))
    with (ea - eb - 53) by lia.
  replace (ea - eb - (ea - eb - 53)) with 53 by lia.
  cbv iota. rewrite Z.shiftl_mul_pow2 by lia.
  pose proof (Z_div_mod (Ma * 2 ^ 53) (2 ^ 52)) as DM.
  destruct (Z.div_eucl (Ma * 2 ^ 53) (2 ^ 52)) as [q r].
  destruct DM as [DM Hr]; [reflexivity|].
  assert (q = Ma * 2 ^ 1 /\ r = 0) as [-> ->] by (pow2_consts; lia).
  change (new_location (2 ^ 52) 0) with loc_Exact.
  rewrite binary_round_aux_exact; unfold normal; try lia.
  f_equal. lia.
Qed.

(** The quotient of two integers, against the exact quotient: with
    [M * 2 ^ E] the result, [|M * b - a * 2 ^ (- E)| <= b]. *)
Lemma fdiv_of_Z a da b db :
  2 ^ (da - 1) <= a < 2 ^ da -> 1 <= da <= 53 ->
  2 ^ (db - 1) <= b < 2 ^ db -> 1 <= db <= 53 ->
  da <= db + 51 ->
  exists M E,
    fdiv (float64_of_Z a) (float64_of_Z b) = nf M E /\ normal M /\
    da - db - 53 <= E <= da - db - 51 /\
    - b <= M * b - a * 2 ^ (- E) <= b.
Proof.
  intros Ha Hda Hb Hdb Hd.
  destruct (float64_of_Z_normal a da) as [Ea Na]; auto.
  destruct (float64_of_Z_normal b db) as [Eb Nb]; auto.
  rewrite Ea, Eb.
  destruct (fdiv_nf (a * 2 ^ (53 - da)) (da - 53) (b * 2 ^ (53 - db)) (db - 53))
    as (M & j & HR & HN & Hj & HB); auto; try lia.
  exists M, (da - 53 - (db - 53) - 53 + j).
  split; [exact HR|]. split; [exact HN|]. split; [lia|].
  set (w := 2 ^ (53 - db)) in *.
  assert (Hw : 0 < w) by (apply Z.pow_pos_nonneg; lia).
  assert (Hj2 : 0 < 2 ^ j) by (apply Z.pow_pos_nonneg; lia).
  assert (E : a * 2 ^ (53 - da) * 2 ^ 53
              = a * 2 ^ (- (da - 53 - (db - 53) - 53 + j)) * (2 ^ j * w)).
  { unfold w. rewrite <- !Z.mul_assoc. f_equal.
    rewrite <- !Z.pow_add_r by lia. f_equal. lia. }
  rewrite E in HB.
  set (u := 2 ^ (- (da - 53 - (db - 53) - 53 + j))) in *.
  assert (HP : 0 < 2 ^ j * w) by nia.
  set (P := 2 ^ j * w) in *.
  replace (M * 2 ^ j * (b * w)) with (M * b * P) in HB by (unfold P; ring).
  replace (2 ^ j * (b * w)) with (b * P) in HB by (unfold P; ring).
  split.
  - apply (Z.mul_le_mono_pos_r _ _ P HP). lia.
  - apply (Z.mul_le_mono_pos_r _ _ P HP). lia.
Qed.

Lemma math_Round_nf M E :
  normal M -> E < 0 ->
  math_Round (nf M E) = float64_of_Z ((M + 2 ^ (- E - 1)) / 2 ^ (- E)).
Proof.
  unfold normal. intros HM HE. unfold math_Round, nf, float64_of_Z.
  replace (0 <=? E) with false by (symmetry; apply Z.leb_gt; lia).
  rewrite Z2Pos.id by lia.
  cbv zeta.
  destruct ((M + 2 ^ (- E - 1)) / 2 ^ (- E)); reflexivity.
Qed.

Lemma uint32_of_float64_of_Z n :
  0 <= n < 2 ^ 32 -> uint32_of_float64 (float64_of_Z n) = Some n.
Proof.
  intros Hn. destruct (Z.eq_dec n 0) as [->|Hz]; [reflexivity|].
  assert (Hpos : 0 < n) by lia.
  pose proof (digits_exists n Hpos) as D. set (d := Z.log2 n + 1) in *.
  assert (1 <= d) by (pose proof (Z.log2_nonneg n); lia).
  assert (d <= 32) by (apply (digits_le n); lia).
  destruct (float64_of_Z_normal n d) as [E N]; auto; try lia.
  rewrite E. unfold nf, uint32_of_float64. unfold normal in N.
  replace (0 <=? d - 53) with false by (symmetry; apply Z.leb_gt; lia).
  rewrite Z2Pos.id by lia.
  replace (- (d - 53)) with (53 - d) by lia.
  rewrite Z.div_mul by (pose proof (Z.pow_pos_nonneg 2 (53 - d)); lia).
  cbv zeta.
  replace (n =? 0) with false by (symmetry; apply Z.eqb_neq; lia).
  replace (n <? 2 ^ 32) with true by (symmetry; apply Z.ltb_lt; lia).
  reflexivity.
Qed.

End Float64.

(** ** The tuning word and the frequency read back *)

Section TuningWord.

Lemma math_Pow_2_20_nf : math_Pow_2_20 = nf (2 ^ 52) (-32).
Proof. reflexivity. Qed.

(** The tuning word is an integer nearest to [freqHz * 2^20 / clockFreq]. *)
Lemma frf_word_spec c f :
  0 < c < 2 ^ 32 -> 400000000 <= f <= 510000000 ->
  exists n, frf_word c f = float64_of_Z n /\
            - c <= 2 * (n * c - f * 2 ^ 20) <= c.
Proof.
  intros Hc Hf. unfold frf_word, math_Pow_2_20.
  rewrite fmul_of_Z by (change (2 ^ 53) with 9007199254740992; lia).
  pose proof (digits_exists c ltac:(lia)) as Dc. set (db := Z.log2 c + 1) in *.
  assert (1 <= db) by (pose proof (Z.log2_nonneg c); lia).
  assert (db <= 32) by (apply (digits_le c); lia).
  destruct (fdiv_of_Z (f * 1048576) 49 c db) as (M & E & HR & HN & HE & HB);
    try lia.
  rewrite HR, math_Round_nf by (auto; lia).
  exists ((M + 2 ^ (- E - 1)) / 2 ^ (- E)). split; [reflexivity|].
  set (h := 2 ^ (- E - 1)) in *.
  assert (Hu : 2 ^ (- E) = 2 * h).
  { unfold h. rewrite <- Z.pow_succ_r by lia. f_equal. lia. }
  rewrite Hu in *.
  assert (Hh : 2 * c < h).
  { assert (2 ^ (db + 1) <= h) by (apply Z.pow_le_mono_r; lia).
    rewrite Z.pow_add_r in * by lia. change (2 ^ 1) with 2 in *. lia. }
  pose proof (Z.div_mod (M + h) (2 * h) ltac:(lia)) as DM.
  pose proof (Z.mod_pos_bound (M + h) (2 * h) ltac:(lia)) as BM.
  set (n := (M + h) / (2 * h)) in *.
  change (2 ^ 20) with 1048576.
  set (a := f * 1048576) in *.
  assert (U : 2 * h * n <= M + h) by lia.
  assert (L : M + 1 <= 2 * h * n + h) by lia.
  assert (U' : 2 * h * n * c <= (M + h) * c) by (apply Z.mul_le_mono_nonneg_r; lia).
  assert (L' : (M + 1) * c <= (2 * h * n + h) * c) by (apply Z.mul_le_mono_nonneg_r; lia).
  split.
  - (* 2 (a - n c) <= c *)
    apply (Z.mul_le_mono_pos_l _ _ h); [lia|]. nia.
  - destruct (Z_le_gt_dec (2 * (n * c - a)) c) as [|G]; auto. exfalso.
    assert (h * (c + 1) <= h * (2 * (n * c - a))) by (apply Z.mul_le_mono_nonneg_l; lia).
    nia.
Qed.

(** Reading back is exact arithmetic: [round(clockFreq * frf / 2^20)]. *)
Lemma frf_hz_spec c n :
  0 < c -> 0 < n -> c * n < 2 ^ 53 ->
  frf_hz c n = float64_of_Z ((c * n + 2 ^ 19) / 2 ^ 20).
Proof.
  intros Hc Hn Hcn. unfold frf_hz.
  rewrite fmul_of_Z by assumption.
  assert (HP : 0 < c * n) by nia.
  pose proof (digits_exists (c * n) HP) as D. set (d := Z.log2 (c * n) + 1) in *.
  assert (1 <= d) by (pose proof (Z.log2_nonneg (c * n)); lia).
  assert (d <= 53) by (apply (digits_le (c * n)); lia).
  destruct (float64_of_Z_normal (c * n) d) as [E N]; auto.
  rewrite E, math_Pow_2_20_nf, fdiv_nf_pow2, math_Round_nf by (auto; lia).
  f_equal.
  set (w := 2 ^ (53 - d)).
  assert (Hw : 0 < w) by (apply Z.pow_pos_nonneg; lia).
  replace (2 ^ (- (d - 53 - -32 - 52) - 1)) with (2 ^ 19 * w)
    by (unfold w; rewrite <- Z.pow_add_r by lia; f_equal; lia).
  replace (2 ^ (- (d - 53 - -32 - 52))) with (2 ^ 20 * w)
    by (unfold w; rewrite <- Z.pow_add_r by lia; f_equal; lia).
  replace (c * n * w + 2 ^ 19 * w) with ((c * n + 2 ^ 19) * w) by ring.
  apply Z.div_mul_cancel_r; lia.
Qed.

(** With a reference clock of at least 31875001 Hz the tuning word of
    every frequency up to 510 MHz fits 24 bits. *)
Lemma frf_24_bits c f n :
  31875001 <= c < 2 ^ 32 -> 400000000 <= f <= 510000000 ->
  - c <= 2 * (n * c - f * 2 ^ 20) <= c ->
  0 < n < 2 ^ 24.
Proof.
  intros Hc Hf Hn. change (2 ^ 20) with 1048576 in *.
  change (2 ^ 24) with 16777216. change (2 ^ 32) with 4294967296 in *.
  split.
  - destruct (Z_lt_ge_dec 0 n); auto. exfalso.
    assert (n * c <= 0 * c) by (apply Z.mul_le_mono_nonneg_r; lia). lia.
  - destruct (Z_lt_ge_dec n 16777216); auto. exfalso.
    assert (16777216 * c <= n * c) by (apply Z.mul_le_mono_nonneg_r; lia). lia.
Qed.

Lemma roundtrip_distance c f n :
  0 < c -> - c <= 2 * (n * c - f * 2 ^ 20) <= c ->
  Z.abs ((c * n + 2 ^ 19) / 2 ^ 20 - f) <= roundtrip_bound c.
Proof.
  intros Hc Hn. unfold roundtrip_bound.
  change (2 ^ 20) with 1048576 in *. change (2 ^ 19) with 524288.
  pose proof (Z.div_mod (c * n + 524288) 1048576 ltac:(lia)).
  pose proof (Z.mod_pos_bound (c * n + 524288) 1048576 ltac:(lia)).
  pose proof (Z.div_mod (c + 1048576 - 1) 1048576 ltac:(lia)).
  pose proof (Z.mod_pos_bound (c + 1048576 - 1) 1048576 ltac:(lia)).
  replace (n * c) with (c * n) in Hn by ring.
  lia.
Qed.

End TuningWord.

(** ** Bytes of a 24-bit word *)

Section Bytes.

Lemma uint8_small x : 0 <= x < 256 -> uint8 x = x.
Proof. intros H. unfold uint8. apply Z.mod_small. exact H. Qed.

Lemma uint8_range x : 0 <= uint8 x < 256.
Proof. unfold uint8. apply Z.mod_pos_bound. reflexivity. Qed.

Lemma uint8_land x : uint8 x = Z.land x 0xFF.
Proof. unfold uint8. change 0xFF with (Z.ones 8). now rewrite Z.land_ones. Qed.

Lemma uint8_idem x : uint8 (uint8 x) = uint8 x.
Proof. apply uint8_small, uint8_range. Qed.

Lemma land_disjoint hi lo k :
  0 <= k -> 0 <= lo < 2 ^ k -> Z.land (hi * 2 ^ k) lo = 0.
Proof.
  intros Hk Hlo. apply Z.bits_inj'. intros i Hi.
  rewrite Z.land_spec, Z.bits_0.
  destruct (Z_lt_ge_dec i k).
  - now rewrite Z.mul_pow2_bits_low.
  - rewrite <- (Z.mod_small lo (2 ^ k)) by lia.
    rewrite Z.mod_pow2_bits_high by lia. apply andb_false_r.
Qed.

Lemma lor_disjoint hi lo k :
  0 <= k -> 0 <= lo < 2 ^ k -> Z.lor (hi * 2 ^ k) lo = hi * 2 ^ k + lo.
Proof.
  intros Hk Hlo. pose proof (Z.add_lor_land (hi * 2 ^ k) lo) as H.
  rewrite land_disjoint in H by assumption. lia.
Qed.

(** The three register bytes of a 24-bit word, most significant first. *)
Lemma byte_msb n :
  0 <= n < 2 ^ 24 -> uint8 (Z.land (Z.shiftr n 16) 0xFF) = n / 2 ^ 16.
Proof.
  intros Hn. rewrite <- uint8_land, uint8_idem, Z.shiftr_div_pow2 by lia.
  apply uint8_small. change (2 ^ 24) with 16777216 in Hn. change (2 ^ 16) with 65536.
  split; [apply Z.div_pos; lia|apply Z.div_lt_upper_bound; lia].
Qed.

Lemma byte_mid n : uint8 (Z.land (Z.shiftr n 8) 0xFF) = (n / 2 ^ 8) mod 2 ^ 8.
Proof. rewrite <- uint8_land, uint8_idem, Z.shiftr_div_pow2 by lia. reflexivity. Qed.

Lemma byte_lsb n : uint8 (Z.land n 0xFF) = n mod 2 ^ 8.
Proof. rewrite <- uint8_land, uint8_idem. reflexivity. Qed.

(** Recombining the three bytes gives the word back. *)
Lemma frf_recombine n :
  0 <= n < 2 ^ 24 ->
  Z.lor (Z.lor (uint32 (Z.shiftl (n / 2 ^ 16) 16))
               (uint32 (Z.shiftl ((n / 2 ^ 8) mod 2 ^ 8) 8)))
        (n mod 2 ^ 8)
  = n.
Proof.
  intros Hn. rewrite !Z.shiftl_mul_pow2 by lia. unfold uint32.
  change (2 ^ 24) with 16777216 in Hn.
  pose proof (Z.div_mod n 256 ltac:(lia)) as D2.
  pose proof (Z.mod_pos_bound n 256 ltac:(lia)) as B2.
  pose proof (Z.div_mod (n / 256) 256 ltac:(lia)) as D3.
  pose proof (Z.mod_pos_bound (n / 256) 256 ltac:(lia)) as B3.
  assert (Hq : 0 <= n / 65536 < 256).
  { split; [apply Z.div_pos; lia|apply Z.div_lt_upper_bound; lia]. }
  assert (Hdd : n / 256 / 256 = n / 65536) by (rewrite Z.div_div by lia; reflexivity).
  change (n / 2 ^ 16) with (n / 65536). change (n / 2 ^ 8) with (n / 256).
  change (n mod 2 ^ 8) with (n mod 256).
  change ((n / 256) mod 2 ^ 8) with ((n / 256) mod 256).
  rewrite (Z.mod_small (n / 65536 * 2 ^ 16)) by (change (2 ^ 16) with 65536; lia).
  rewrite (Z.mod_small ((n / 256) mod 256 * 2 ^ 8)) by (change (2 ^ 8) with 256; lia).
  rewrite (lor_disjoint (n / 65536) ((n / 256) mod 256 * 2 ^ 8) 16)
    by (change (2 ^ 16) with 65536; change (2 ^ 8) with 256; lia).
  replace (n / 65536 * 2 ^ 16 + (n / 256) mod 256 * 2 ^ 8)
    with ((n / 256) * 2 ^ 8)
    by (change (2 ^ 16) with 65536; change (2 ^ 8) with 256; lia).
  rewrite lor_disjoint by (change (2 ^ 8) with 256; lia).
  change (2 ^ 8) with 256. lia.
Qed.

End Bytes.

(** ** Computations that succeed *)

Section Steps.

Lemma bind_ok {A B} (c : M A) (k : A -> M B) w a w' :
  c w = (Ok a, w') -> bind c k w = k a w'.
Proof. intros H. unfold bind. now rewrite H. Qed.

Lemma bind_err {A B} (c : M A) (k : A -> M B) w e w' :
  c w = (Err e, w') -> bind c k w = (Err e, w').
Proof. intros H. unfold bind. now rewrite H. Qed.

Lemma wrapping_ok {A} msg (c : M A) w a w' :
  c w = (Ok a, w') -> wrapping msg c w = (Ok a, w').
Proof. intros H. unfold wrapping. now rewrite H. Qed.

Lemma quiet_failing w : quiet w -> failing w = false.
Proof. intros H. apply H. Qed.

Lemma quiet_written a v w : quiet w -> quiet (written a v w).
Proof. intros H i. apply H. Qed.

Lemma quiet_read_back a w : quiet w -> quiet (read_back a w).
Proof. intros H i. apply H. Qed.

Lemma trace_written a v w :
  trace (written a v w)
  = trace w ++ [EvTx [Z.lor a 0x80; v] (Some [0; 0]); EvSleep 10].
Proof. cbn. now rewrite <- app_assoc. Qed.

Lemma trace_read_back a w :
  trace (read_back a w)
  = trace w ++ [EvTx [Z.land a 0x7F; 0x00] (Some [0; read_value a w]); EvSleep 10].
Proof. cbn. now rewrite <- app_assoc. Qed.

Lemma regs_written a v w :
  regs (written a v w) = upd (regs w) (Z.land a 0x7F) (uint8 v).
Proof. reflexivity. Qed.

Lemma regs_read_back a w : regs (read_back a w) = regs w.
Proof. reflexivity. Qed.

Lemma write_address_bit a : Z.testbit (Z.lor a 0x80) 7 = true.
Proof. rewrite Z.lor_spec. change (Z.testbit 0x80 7) with true. apply orb_true_r. Qed.

Lemma read_address_bit a : Z.testbit (Z.land a 0x7F) 7 = false.
Proof. rewrite Z.land_spec. change (Z.testbit 0x7F 7) with false. apply andb_false_r. Qed.

Lemma write_address_low a : Z.land (Z.lor a 0x80) 0x7F = Z.land a 0x7F.
Proof.
  rewrite Z.land_lor_distr_l. change (Z.land 0x80 0x7F) with 0. apply Z.lor_0_r.
Qed.

Lemma land_7F_idem a : Z.land (Z.land a 0x7F) 0x7F = Z.land a 0x7F.
Proof. rewrite <- Z.land_assoc. reflexivity. Qed.

Lemma WriteRegister_quiet d a v w :
  SPIDevice.conn d <> None -> quiet w ->
  SPIDevice.WriteRegister d a v w = (Ok tt, written a v w).
Proof.
  intros Hd Hq. unfold SPIDevice.WriteRegister, SPIDevice.Transfer.
  destruct (SPIDevice.conn d) as [c|]; [|contradiction]. cbn [List.length Nat.eqb negb].
  unfold bind, wrapping, conn_Tx. rewrite (quiet_failing w Hq).
  unfold chip_exchange. rewrite write_address_bit.
  cbn [map write_burst]. rewrite land_7F_idem, write_address_low.
  reflexivity.
Qed.

Lemma ReadRegister_quiet d a w :
  SPIDevice.conn d <> None -> quiet w ->
  SPIDevice.ReadRegister d a w = (Ok (read_value a w), read_back a w).
Proof.
  intros Hd Hq. unfold SPIDevice.ReadRegister, SPIDevice.Transfer.
  destruct (SPIDevice.conn d) as [c|]; [|contradiction]. cbn [List.length Nat.eqb negb].
  unfold bind, wrapping, conn_Tx. rewrite (quiet_failing w Hq).
  unfold chip_exchange. rewrite read_address_bit.
  cbn [read_burst]. rewrite land_7F_idem.
  reflexivity.
Qed.

Lemma to_uint32_of_Z n w :
  0 <= n < 2 ^ 32 -> to_uint32 (float64_of_Z n) w = (Ok n, w).
Proof. intros H. unfold to_uint32. now rewrite uint32_of_float64_of_Z. Qed.

End Steps.

(** ** Frequency: set, read back *)

Section Frequency.

Lemma in_band_check f :
  400000000 <= f <= 510000000 ->
  (f <? 400000000) || (f >? 510000000) = false.
Proof.
  intros H. rewrite Z.gtb_ltb. apply orb_false_iff. split; apply Z.ltb_ge; lia.
Qed.

Lemma out_of_band_check f :
  f < 400000000 \/ 510000000 < f ->
  (f <? 400000000) || (f >? 510000000) = true.
Proof.
  rewrite Z.gtb_ltb. intros [H|H]; apply orb_true_iff; [left|right]; apply Z.ltb_lt; lia.
Qed.

(** The three writes of [SetRxFrequency], for the tuning word [n]. *)
Lemma SetRxFrequency_writes s d w f n :
  SX1255Controller.initialized s = true ->
  SX1255Controller.spi s = Some d -> SPIDevice.conn d <> None -> quiet w ->
  400000000 <= f <= 510000000 ->
  frf_word (SX1255Controller.clockFreq s) f = float64_of_Z n -> 0 <= n < 2 ^ 24 ->
  SX1255Controller.SetRxFrequency s f w
  = (Ok tt, written RegFrflRx (n mod 2 ^ 8)
              (written RegFrfmRx ((n / 2 ^ 8) mod 2 ^ 8)
                 (written RegFrfhRx (n / 2 ^ 16) w))).
Proof.
  intros Hi Hs Hd Hq Hf Hw Hn. unfold SX1255Controller.SetRxFrequency.
  rewrite Hi, in_band_check by assumption. cbn [negb].
  rewrite Hw.
  erewrite bind_ok by (apply to_uint32_of_Z; change (2 ^ 24) with 16777216 in Hn;
                       change (2 ^ 32) with 4294967296; lia).
  rewrite byte_msb, byte_mid, byte_lsb by assumption.
  unfold SX1255Controller.via_spi. rewrite Hs.
  erewrite bind_ok by (apply wrapping_ok, WriteRegister_quiet; auto).
  erewrite bind_ok
    by (apply wrapping_ok, WriteRegister_quiet; auto using quiet_written).
  apply wrapping_ok, WriteRegister_quiet; auto using quiet_written.
Qed.

(** [GetRxFrequency] on registers that hold the bytes of [n]. *)
Lemma GetRxFrequency_reads s d w n :
  SX1255Controller.initialized s = true ->
  SX1255Controller.spi s = Some d -> SPIDevice.conn d <> None -> quiet w ->
  0 < SX1255Controller.clockFreq s -> 0 < n < 2 ^ 24 ->
  SX1255Controller.clockFreq s * n < 2 ^ 53 ->
  0 <= (SX1255Controller.clockFreq s * n + 2 ^ 19) / 2 ^ 20 < 2 ^ 32 ->
  read_value RegFrfhRx w = n / 2 ^ 16 ->
  read_value RegFrfmRx w = (n / 2 ^ 8) mod 2 ^ 8 ->
  read_value RegFrflRx w = n mod 2 ^ 8 ->
  SX1255Controller.GetRxFrequency s w
  = (Ok ((SX1255Controller.clockFreq s * n + 2 ^ 19) / 2 ^ 20),
     read_back RegFrflRx (read_back RegFrfmRx (read_back RegFrfhRx w))).
Proof.
  intros Hi Hs Hd Hq Hc Hn Hcn Hr H2 H1 H0. unfold SX1255Controller.GetRxFrequency.
  rewrite Hi. cbn [negb]. unfold SX1255Controller.via_spi. rewrite Hs.
  erewrite bind_ok by (apply wrapping_ok, ReadRegister_quiet; auto).
  erewrite bind_ok
    by (apply wrapping_ok, ReadRegister_quiet; auto using quiet_read_back).
  erewrite bind_ok
    by (apply wrapping_ok, ReadRegister_quiet; auto using quiet_read_back).
  replace (read_value RegFrfmRx (read_back RegFrfhRx w))
    with (read_value RegFrfmRx w) by reflexivity.
  replace (read_value RegFrflRx (read_back RegFrfmRx (read_back RegFrfhRx w)))
    with (read_value RegFrflRx w) by reflexivity.
  rewrite H2, H1, H0, frf_recombine by lia.
  rewrite frf_hz_spec by lia.
  apply to_uint32_of_Z. assumption.
Qed.

End Frequency.

Section RegisterFile.

Lemma read_value_written_same a v w : read_value a (written a v w) = uint8 v.
Proof.
  unfold read_value. rewrite regs_written. unfold upd.
  rewrite Z.eqb_refl. apply uint8_idem.
Qed.

Lemma read_value_written_other a b v w :
  Z.land a 0x7F <> Z.land b 0x7F ->
  read_value a (written b v w) = read_value a w.
Proof.
  intros H. unfold read_value. rewrite regs_written. unfold upd.
  now rewrite (proj2 (Z.eqb_neq _ _) H).
Qed.

Lemma ready_open_controller c : ready (open_controller c).
Proof. split; [reflexivity|]. exists open_transport. split; [reflexivity|discriminate]. Qed.

Lemma quiet_still_world : quiet still_world.
Proof. intros i. reflexivity. Qed.

End RegisterFile.

(** ** The claims on the frequency conversion *)

(** C1, as amended.  For every reference clock [FXOSC] of at least
    31875001 Hz (the default 32 MHz included) and every [freqHz] in
    [400000000, 510000000]: [SetRxFrequency] succeeds and leaves in the three
    RX frequency registers the bytes, most significant first, of a word
    [frf] that is an integer nearest to [freqHz * 2^20 / FXOSC];
    [GetRxFrequency] then returns [round(FXOSC * frf / 2^20)], whose distance
    from [freqHz] is at most [ceil(FXOSC / 2^20)], which is 31 Hz at the
    default clock. *)
Theorem rx_frequency_roundtrip s w freqHz :
  ready s -> quiet w ->
  31875001 <= SX1255Controller.clockFreq s < 2 ^ 32 ->
  400000000 <= freqHz <= 510000000 ->
  exists frf w1 got w2,
    SX1255Controller.SetRxFrequency s freqHz w = (Ok tt, w1) /\
    - SX1255Controller.clockFreq s
      <= 2 * (frf * SX1255Controller.clockFreq s - freqHz * 2 ^ 20)
      <= SX1255Controller.clockFreq s /\
    0 < frf < 2 ^ 24 /\
    read_value RegFrfhRx w1 = frf / 2 ^ 16 /\
    read_value RegFrfmRx w1 = (frf / 2 ^ 8) mod 2 ^ 8 /\
    read_value RegFrflRx w1 = frf mod 2 ^ 8 /\
    SX1255Controller.GetRxFrequency s w1 = (Ok got, w2) /\
    got = (SX1255Controller.clockFreq s * frf + 2 ^ 19) / 2 ^ 20 /\
    Z.abs (got - freqHz) <= roundtrip_bound (SX1255Controller.clockFreq s) /\
    (SX1255Controller.clockFreq s = 32000000 -> Z.abs (got - freqHz) <= 31).
Proof.
  intros (Hi & d & Hs & Hd) Hq Hc Hf.
  set (c := SX1255Controller.clockFreq s) in *.
  destruct (frf_word_spec c freqHz) as (n & Hw & Hn); [lia|exact Hf|].
  pose proof (frf_24_bits c freqHz n Hc Hf Hn) as H24.
  pose proof (roundtrip_distance c freqHz n ltac:(lia) Hn) as Hdist.
  assert (Hbound : roundtrip_bound c <= 4096).
  { unfold roundtrip_bound. change (2 ^ 20) with 1048576.
    change (2 ^ 32) with 4294967296 in Hc.
    apply Z.lt_succ_r, Z.div_lt_upper_bound; lia. }
  set (w1 := written RegFrflRx (n mod 2 ^ 8)
               (written RegFrfmRx ((n / 2 ^ 8) mod 2 ^ 8)
                  (written RegFrfhRx (n / 2 ^ 16) w))).
  assert (B0 : 0 <= n mod 2 ^ 8 < 256) by (apply Z.mod_pos_bound; reflexivity).
  assert (B1 : 0 <= (n / 2 ^ 8) mod 2 ^ 8 < 256) by (apply Z.mod_pos_bound; reflexivity).
  assert (B2 : 0 <= n / 2 ^ 16 < 256).
  { change (2 ^ 24) with 16777216 in H24. change (2 ^ 16) with 65536.
    split; [apply Z.div_pos; lia|apply Z.div_lt_upper_bound; lia]. }
  assert (R2 : read_value RegFrfhRx w1 = n / 2 ^ 16).
  { unfold w1. rewrite !read_value_written_other by discriminate.
    rewrite read_value_written_same. now apply uint8_small. }
  assert (R1 : read_value RegFrfmRx w1 = (n / 2 ^ 8) mod 2 ^ 8).
  { unfold w1. rewrite read_value_written_other by discriminate.
    rewrite read_value_written_same. now apply uint8_small. }
  assert (R0 : read_value RegFrflRx w1 = n mod 2 ^ 8).
  { unfold w1. rewrite read_value_written_same. now apply uint8_small. }
  exists n, w1, ((c * n + 2 ^ 19) / 2 ^ 20),
    (read_back RegFrflRx (read_back RegFrfmRx (read_back RegFrfhRx w1))).
  split. { apply (SetRxFrequency_writes s d); auto. fold c. lia. }
  split; [exact Hn|]. split; [exact H24|].
  split; [exact R2|]. split; [exact R1|]. split; [exact R0|].
  split.
  { apply (GetRxFrequency_reads s d); fold c; auto using quiet_written; lia. }
  split; [reflexivity|]. split; [exact Hdist|].
  intros E. rewrite E in *. exact Hdist.
Qed.

Lemma rx_frequency_roundtrip_witness :
  exists frf w1 got w2,
    SX1255Controller.SetRxFrequency (open_controller 32000000) 434000000 still_world
    = (Ok tt, w1) /\
    - 32000000 <= 2 * (frf * 32000000 - 434000000 * 2 ^ 20) <= 32000000 /\
    0 < frf < 2 ^ 24 /\
    read_value RegFrfhRx w1 = frf / 2 ^ 16 /\
    read_value RegFrfmRx w1 = (frf / 2 ^ 8) mod 2 ^ 8 /\
    read_value RegFrflRx w1 = frf mod 2 ^ 8 /\
    SX1255Controller.GetRxFrequency (open_controller 32000000) w1 = (Ok got, w2) /\
    got = (32000000 * frf + 2 ^ 19) / 2 ^ 20 /\
    Z.abs (got - 434000000) <= roundtrip_bound 32000000 /\
    (32000000 = 32000000 -> Z.abs (got - 434000000) <= 31).
Proof.
  apply (rx_frequency_roundtrip (open_controller 32000000) still_world 434000000).
  - apply ready_open_controller.
  - apply quiet_still_world.
  - cbn. lia.
  - lia.
Defined.

(** C1, the claim as stated, fails for a reference clock that is too
    slow: with [FXOSC] = 30 MHz the tuning word of 510 MHz is 17 * 2^20,
    which does not fit the three registers; the registers keep its low 24
    bits and the frequency read back is 30 MHz, 480 MHz away, while
    [ceil(FXOSC / 2^20)] is 29. *)
Lemma rx_frequency_roundtrip_slow_clock :
  fst ((SX1255Controller.SetRxFrequency (open_controller 30000000) 510000000 ;;;
        SX1255Controller.GetRxFrequency (open_controller 30000000)) still_world)
  = Ok 30000000
  /\ roundtrip_bound 30000000 = 29
  /\ ~ Z.abs (30000000 - 510000000) <= roundtrip_bound 30000000.
Proof.
  split; [vm_compute; reflexivity|]. split; [reflexivity|].
  vm_compute. intros H. apply H. reflexivity.
Qed.

Section TxFrequency.

(** The three writes of [SetTxFrequency], for the tuning word [n]. *)
Lemma SetTxFrequency_writes s d w f n :
  SX1255Controller.initialized s = true ->
  SX1255Controller.spi s = Some d -> SPIDevice.conn d <> None -> quiet w ->
  400000000 <= f <= 510000000 ->
  frf_word (SX1255Controller.clockFreq s) f = float64_of_Z n -> 0 <= n < 2 ^ 24 ->
  SX1255Controller.SetTxFrequency s f w
  = (Ok tt, written RegFrflTx (n mod 2 ^ 8)
              (written RegFrfmTx ((n / 2 ^ 8) mod 2 ^ 8)
                 (written RegFrfhTx (n / 2 ^ 16) w))).
Proof.
  intros Hi Hs Hd Hq Hf Hw Hn. unfold SX1255Controller.SetTxFrequency.
  rewrite Hi, in_band_check by assumption. cbn [negb].
  rewrite Hw.
  erewrite bind_ok by (apply to_uint32_of_Z; change (2 ^ 24) with 16777216 in Hn;
                       change (2 ^ 32) with 4294967296; lia).
  rewrite byte_msb, byte_mid, byte_lsb by assumption.
  unfold SX1255Controller.via_spi. rewrite Hs.
  erewrite bind_ok by (apply wrapping_ok, WriteRegister_quiet; auto).
  erewrite bind_ok
    by (apply wrapping_ok, WriteRegister_quiet; auto using quiet_written).
  apply wrapping_ok, WriteRegister_quiet; auto using quiet_written.
Qed.

End TxFrequency.

(** C8, as amended.  For every reference clock of at least 31875001 Hz and
    every [freqHz] in [400000000, 510000000], the tuning word computed by
    [SetRxFrequency] and [SetTxFrequency] is an integer [frf] nearest to
    [freqHz * 2^20 / FXOSC] and a 24-bit value, [0 < frf < 2^24]: the three
    adjacent registers MSB, MID, LSB receive its three bytes and these
    recombine to [frf].  At the default clock of 32 MHz it is
    [floor((1024 * freqHz + 15625) / 31250)] and lies in
    [13107200, 16711680], so it is never a 20-bit value. *)
Theorem tuning_word_24_bits s w freqHz :
  ready s -> quiet w ->
  31875001 <= SX1255Controller.clockFreq s < 2 ^ 32 ->
  400000000 <= freqHz <= 510000000 ->
  exists frf,
    frf_word (SX1255Controller.clockFreq s) freqHz = float64_of_Z frf /\
    - SX1255Controller.clockFreq s
      <= 2 * (frf * SX1255Controller.clockFreq s - freqHz * 2 ^ 20)
      <= SX1255Controller.clockFreq s /\
    0 < frf < 2 ^ 24 /\
    SX1255Controller.SetRxFrequency s freqHz w
    = (Ok tt, written RegFrflRx (frf mod 2 ^ 8)
                (written RegFrfmRx ((frf / 2 ^ 8) mod 2 ^ 8)
                   (written RegFrfhRx (frf / 2 ^ 16) w))) /\
    SX1255Controller.SetTxFrequency s freqHz w
    = (Ok tt, written RegFrflTx (frf mod 2 ^ 8)
                (written RegFrfmTx ((frf / 2 ^ 8) mod 2 ^ 8)
                   (written RegFrfhTx (frf / 2 ^ 16) w))) /\
    Z.lor (Z.lor (uint32 (Z.shiftl (frf / 2 ^ 16) 16))
                 (uint32 (Z.shiftl ((frf / 2 ^ 8) mod 2 ^ 8) 8)))
          (frf mod 2 ^ 8) = frf /\
    (SX1255Controller.clockFreq s = 32000000 ->
     frf = (1024 * freqHz + 15625) / 31250 /\ 13107200 <= frf <= 16711680).
Proof.
  intros (Hi & d & Hs & Hd) Hq Hc Hf.
  set (c := SX1255Controller.clockFreq s) in *.
  destruct (frf_word_spec c freqHz) as (n & Hw & Hn); [lia|exact Hf|].
  pose proof (frf_24_bits c freqHz n Hc Hf Hn) as H24.
  exists n. split; [exact Hw|]. split; [exact Hn|]. split; [exact H24|].
  split. { apply (SetRxFrequency_writes s d); auto. fold c. lia. }
  split. { apply (SetTxFrequency_writes s d); auto. fold c. lia. }
  split. { apply frf_recombine. lia. }
  intros E. rewrite E in Hn. change (2 ^ 20) with 1048576 in Hn.
  assert (En : n = (1024 * freqHz + 15625) / 31250).
  { apply (Z.div_unique _ _ _ (1024 * freqHz + 15625 - 31250 * n)); lia. }
  split; [exact En|].
  pose proof (Z.div_mod (1024 * freqHz + 15625) 31250 ltac:(lia)).
  pose proof (Z.mod_pos_bound (1024 * freqHz + 15625) 31250 ltac:(lia)).
  lia.
Qed.

Lemma tuning_word_24_bits_witness :
  exists frf,
    frf_word 32000000 434000000 = float64_of_Z frf /\
    - 32000000 <= 2 * (frf * 32000000 - 434000000 * 2 ^ 20) <= 32000000 /\
    0 < frf < 2 ^ 24 /\
    SX1255Controller.SetRxFrequency (open_controller 32000000) 434000000 still_world
    = (Ok tt, written RegFrflRx (frf mod 2 ^ 8)
                (written RegFrfmRx ((frf / 2 ^ 8) mod 2 ^ 8)
                   (written RegFrfhRx (frf / 2 ^ 16) still_world))) /\
    SX1255Controller.SetTxFrequency (open_controller 32000000) 434000000 still_world
    = (Ok tt, written RegFrflTx (frf mod 2 ^ 8)
                (written RegFrfmTx ((frf / 2 ^ 8) mod 2 ^ 8)
                   (written RegFrfhTx (frf / 2 ^ 16) still_world))) /\
    Z.lor (Z.lor (uint32 (Z.shiftl (frf / 2 ^ 16) 16))
                 (uint32 (Z.shiftl ((frf / 2 ^ 8) mod 2 ^ 8) 8)))
          (frf mod 2 ^ 8) = frf /\
    (32000000 = 32000000 ->
     frf = (1024 * 434000000 + 15625) / 31250 /\ 13107200 <= frf <= 16711680).
Proof.
  apply (tuning_word_24_bits (open_controller 32000000) still_world 434000000).
  - apply ready_open_controller.
  - apply quiet_still_world.
  - cbn. lia.
  - lia.
Defined.

(** C8, the claim as stated, fails: at the default clock the tuning word
    of 400 MHz, the lowest frequency of the band, is 13107200, which is not
    below 2^20. *)
Lemma tuning_word_not_20_bits :
  frf_word 32000000 400000000 = float64_of_Z 13107200
  /\ uint32_of_float64 (frf_word 32000000 400000000) = Some 13107200
  /\ ~ 13107200 < 2 ^ 20.
Proof.
  split; [vm_compute; reflexivity|]. split; [vm_compute; reflexivity|].
  vm_compute. discriminate.
Qed.

(** The bound on the clock is the least one: at 31875000 Hz the tuning
    word of 510 MHz is 2^24 exactly, the registers receive three zero bytes
    and the frequency read back is 0. *)
Example rx_frequency_roundtrip_threshold :
  uint32_of_float64 (frf_word 31875000 510000000) = Some (2 ^ 24)
  /\ fst ((SX1255Controller.SetRxFrequency (open_controller 31875000) 510000000 ;;;
           SX1255Controller.GetRxFrequency (open_controller 31875000)) still_world)
     = Ok 0.
Proof. split; vm_compute; reflexivity. Qed.

(** ** The transport: frames on the bus *)

Section Transport.

Lemma frames_app t1 t2 : frames (t1 ++ t2) = frames t1 ++ frames t2.
Proof.
  induction t1 as [|ev t1 IH]; [reflexivity|].
  destruct ev; cbn [app frames]; rewrite IH; reflexivity.
Qed.

Lemma register_writes_app t1 t2 :
  register_writes (t1 ++ t2) = register_writes t1 ++ register_writes t2.
Proof. apply filter_app. Qed.

(** One register write is one exchange, whatever the bus does. *)
Lemma WriteRegister_step d a v w :
  SPIDevice.conn d <> None ->
  SPIDevice.WriteRegister d a v w
  = if failing w
    then (Err (Wrap "failed to write register"
                 (Wrap "SPI transfer failed" (ErrExternal "conn.Tx"))),
          log (EvTx [Z.lor a 0x80; v] None) w)
    else (Ok tt, written a v w).
Proof.
  intros Hd. unfold SPIDevice.WriteRegister, SPIDevice.Transfer.
  destruct (SPIDevice.conn d) as [c|]; [|contradiction]. cbn [List.length Nat.eqb negb].
  unfold bind, wrapping, conn_Tx. destruct (failing w) eqn:F; [reflexivity|].
  unfold chip_exchange. rewrite write_address_bit.
  cbn [map write_burst]. rewrite land_7F_idem, write_address_low.
  reflexivity.
Qed.

Lemma ReadRegister_step d a w :
  SPIDevice.conn d <> None ->
  SPIDevice.ReadRegister d a w
  = if failing w
    then (Err (Wrap "failed to read register"
                 (Wrap "SPI transfer failed" (ErrExternal "conn.Tx"))),
          log (EvTx [Z.land a 0x7F; 0x00] None) w)
    else (Ok (nth 1 [0; read_value a w] 0), read_back a w).
Proof.
  intros Hd. unfold SPIDevice.ReadRegister, SPIDevice.Transfer.
  destruct (SPIDevice.conn d) as [c|]; [|contradiction]. cbn [List.length Nat.eqb negb].
  unfold bind, wrapping, conn_Tx. destruct (failing w) eqn:F; [reflexivity|].
  unfold chip_exchange. rewrite read_address_bit.
  cbn [read_burst]. rewrite land_7F_idem.
  reflexivity.
Qed.

End Transport.

(** C7.  On an open transport, for every address and value:
    [WriteRegister] shifts out exactly one frame, the two bytes
    [addr | 0x80, value]; [ReadRegister] shifts out exactly one frame, the
    two bytes [addr & 0x7F, 0x00], and when the exchange succeeds it returns
    the second byte of the response. *)
Theorem spi_register_frames d addr value w :
  SPIDevice.conn d <> None ->
  frames (trace (snd (SPIDevice.WriteRegister d addr value w)))
  = frames (trace w) ++ [[Z.lor addr 0x80; value]]
  /\ frames (trace (snd (SPIDevice.ReadRegister d addr w)))
     = frames (trace w) ++ [[Z.land addr 0x7F; 0x00]]
  /\ (forall got w', SPIDevice.ReadRegister d addr w = (Ok got, w') ->
      exists rx,
        trace w' = trace w ++ [EvTx [Z.land addr 0x7F; 0x00] (Some rx); EvSleep 10]
        /\ got = nth 1 rx 0).
Proof.
  intros Hd. rewrite WriteRegister_step, ReadRegister_step by assumption.
  destruct (failing w); cbn [snd].
  - split; [|split].
    + cbn [log trace]. now rewrite frames_app.
    + cbn [log trace]. now rewrite frames_app.
    + discriminate.
  - split; [|split].
    + rewrite trace_written, frames_app. reflexivity.
    + rewrite trace_read_back, frames_app. reflexivity.
    + intros got w' H. inversion H; subst.
      exists [0; read_value addr w]. split; [apply trace_read_back|reflexivity].
Qed.

Lemma spi_register_frames_witness :
  frames (trace (snd (SPIDevice.WriteRegister open_transport RegMode 0x0F still_world)))
  = frames (trace still_world) ++ [[Z.lor RegMode 0x80; 0x0F]]
  /\ frames (trace (snd (SPIDevice.ReadRegister open_transport RegMode still_world)))
     = frames (trace still_world) ++ [[Z.land RegMode 0x7F; 0x00]]
  /\ (forall got w', SPIDevice.ReadRegister open_transport RegMode still_world = (Ok got, w') ->
      exists rx,
        trace w' = trace still_world
                   ++ [EvTx [Z.land RegMode 0x7F; 0x00] (Some rx); EvSleep 10]
        /\ got = nth 1 rx 0).
Proof.
  apply (spi_register_frames open_transport RegMode 0x0F still_world).
  discriminate.
Defined.

(** C2.  For every [freqHz] outside [400000000, 510000000],
    [SetRxFrequency] fails and leaves the world as it was: no register is
    written, nothing at all is sent.  On an initialized controller the error
    is the out-of-range error of the frequency check, of class
    [InvalidArgument]. *)
Theorem rx_frequency_out_of_range s w freqHz :
  freqHz < 400000000 \/ 510000000 < freqHz ->
  exists e,
    SX1255Controller.SetRxFrequency s freqHz w = (Err e, w)
    /\ register_writes (trace (snd (SX1255Controller.SetRxFrequency s freqHz w)))
       = register_writes (trace w)
    /\ (SX1255Controller.initialized s = true ->
        e = ErrFrequencyRange freqHz /\ is_InvalidArgument e = true).
Proof.
  intros Hf. unfold SX1255Controller.SetRxFrequency.
  destruct (SX1255Controller.initialized s); cbn [negb].
  - rewrite out_of_band_check by assumption.
    exists (ErrFrequencyRange freqHz). repeat split; reflexivity.
  - exists ErrNotInitialized. repeat split; try reflexivity; discriminate.
Qed.

Lemma rx_frequency_out_of_range_witness :
  (exists e,
    SX1255Controller.SetRxFrequency (open_controller 32000000) 399999999 still_world
    = (Err e, still_world)
    /\ register_writes
         (trace (snd (SX1255Controller.SetRxFrequency (open_controller 32000000)
                        399999999 still_world)))
       = register_writes (trace still_world)
    /\ (SX1255Controller.initialized (open_controller 32000000) = true ->
        e = ErrFrequencyRange 399999999 /\ is_InvalidArgument e = true))
  /\
  (exists e,
    SX1255Controller.SetRxFrequency (open_controller 32000000) 510000001 still_world
    = (Err e, still_world)
    /\ register_writes
         (trace (snd (SX1255Controller.SetRxFrequency (open_controller 32000000)
                        510000001 still_world)))
       = register_writes (trace still_world)
    /\ (SX1255Controller.initialized (open_controller 32000000) = true ->
        e = ErrFrequencyRange 510000001 /\ is_InvalidArgument e = true)).
Proof.
  split.
  - apply (rx_frequency_out_of_range (open_controller 32000000) still_world 399999999).
    left. lia.
  - apply (rx_frequency_out_of_range (open_controller 32000000) still_world 510000001).
    right. lia.
Defined.

(** ** Bit fields of a register byte *)

Section BitFields.

Lemma testbit_uint8 x i :
  0 <= i -> Z.testbit (uint8 x) i = (i <? 8) && Z.testbit x i.
Proof.
  intros Hi. unfold uint8. destruct (Z.ltb_spec i 8).
  - rewrite Z.mod_pow2_bits_low by lia. reflexivity.
  - rewrite Z.mod_pow2_bits_high by lia. reflexivity.
Qed.

Lemma testbit_read_value a w i :
  0 <= i -> Z.testbit (read_value a w) i = (i <? 8) && Z.testbit (read_value a w) i.
Proof.
  intros Hi. unfold read_value at 1. rewrite testbit_uint8 by assumption.
  fold (read_value a w). unfold read_value. rewrite testbit_uint8 by assumption.
  now rewrite andb_assoc, andb_diag.
Qed.

(** Setting or clearing bit [k] of a byte: bit [k] takes the value asked
    for, every other bit keeps its value. *)
Lemma set_or_clear_bits enable m k i :
  0 <= i -> 0 <= k ->
  (forall j, 0 <= j -> Z.testbit m j = (j <? 8) && Z.testbit m j) ->
  Z.testbit (uint8 (SX1255Controller.set_or_clear enable m (2 ^ k))) i
  = if i =? k then (i <? 8) && enable else Z.testbit m i.
Proof.
  intros Hi Hk Hm. rewrite testbit_uint8 by assumption.
  unfold SX1255Controller.set_or_clear. destruct enable.
  - rewrite Z.lor_spec, Z.pow2_bits_eqb by assumption.
    rewrite (Z.eqb_sym k i). destruct (i =? k).
    + now rewrite orb_true_r.
    + rewrite orb_false_r. symmetry. apply Hm. assumption.
  - rewrite Z.land_spec, testbit_uint8, Z.lnot_spec, Z.pow2_bits_eqb by assumption.
    rewrite (Z.eqb_sym k i). destruct (i =? k); cbn [negb].
    + now rewrite !andb_false_r.
    + pose proof (Hm i Hi) as Hmi.
      destruct (i <? 8), (Z.testbit m i); cbn in *; congruence.
Qed.

End BitFields.

(** ** Mode bits *)

Section ModeBits.

Lemma EnableRx_quiet s w enable :
  ready s -> quiet w ->
  SX1255Controller.EnableRx s enable w
  = (Ok tt, written RegMode
              (SX1255Controller.set_or_clear enable (read_value RegMode w) ModeBitRxEnable)
              (read_back RegMode w)).
Proof.
  intros (Hi & d & Hs & Hd) Hq. unfold SX1255Controller.EnableRx.
  rewrite Hi. cbn [negb]. unfold SX1255Controller.via_spi. rewrite Hs.
  erewrite bind_ok by (apply ReadRegister_quiet; auto).
  apply WriteRegister_quiet; auto using quiet_read_back.
Qed.

Lemma EnableTx_quiet s w enable :
  ready s -> quiet w ->
  SX1255Controller.EnableTx s enable w
  = (Ok tt, written RegMode
              (SX1255Controller.set_or_clear enable (read_value RegMode w) ModeBitTxEnable)
              (read_back RegMode w)).
Proof.
  intros (Hi & d & Hs & Hd) Hq. unfold SX1255Controller.EnableTx.
  rewrite Hi. cbn [negb]. unfold SX1255Controller.via_spi. rewrite Hs.
  erewrite bind_ok by (apply ReadRegister_quiet; auto).
  apply WriteRegister_quiet; auto using quiet_read_back.
Qed.

(** The MODE register after a read-modify-write of bit [k]. *)
Lemma mode_after_rmw enable k w i :
  0 <= i -> 0 <= k < 8 ->
  Z.testbit (read_value RegMode
               (written RegMode
                  (SX1255Controller.set_or_clear enable (read_value RegMode w) (2 ^ k))
                  (read_back RegMode w))) i
  = if i =? k then enable else Z.testbit (read_value RegMode w) i.
Proof.
  intros Hi Hk. rewrite read_value_written_same.
  rewrite set_or_clear_bits; try lia.
  - destruct (Z.eqb_spec i k); [|reflexivity].
    replace (i <? 8) with true by (symmetry; apply Z.ltb_lt; lia). reflexivity.
  - intros j Hj. apply testbit_read_value. assumption.
Qed.

End ModeBits.

(** C3, as amended.  For every initial value of the MODE register,
    [EnableRx(true)] then [EnableTx(true)] leaves the RX and TX bits set and
    every other bit, the DRIVER bit and the REF bit among them, equal to its
    value before either call: REF is set afterwards exactly when it was set
    before.  Each enable call, for either value of its flag, is a
    read-modify-write that gives one bit the value asked for and preserves
    all the others. *)
Theorem enable_rx_then_tx s w enable :
  ready s -> quiet w ->
  exists w1 w2,
    SX1255Controller.EnableRx s true w = (Ok tt, w1) /\
    SX1255Controller.EnableTx s true w1 = (Ok tt, w2) /\
    Z.testbit (read_value RegMode w2) (Z.log2 ModeBitRxEnable) = true /\
    Z.testbit (read_value RegMode w2) (Z.log2 ModeBitTxEnable) = true /\
    Z.testbit (read_value RegMode w2) (Z.log2 ModeBitDriverEnable)
      = Z.testbit (read_value RegMode w) (Z.log2 ModeBitDriverEnable) /\
    Z.testbit (read_value RegMode w2) (Z.log2 ModeBitRefEnable)
      = Z.testbit (read_value RegMode w) (Z.log2 ModeBitRefEnable) /\
    (forall i, 0 <= i -> i <> Z.log2 ModeBitRxEnable -> i <> Z.log2 ModeBitTxEnable ->
       Z.testbit (read_value RegMode w2) i = Z.testbit (read_value RegMode w) i) /\
    (forall i, 0 <= i ->
       Z.testbit (read_value RegMode (snd (SX1255Controller.EnableRx s enable w))) i
       = if i =? Z.log2 ModeBitRxEnable then enable
         else Z.testbit (read_value RegMode w) i) /\
    (forall i, 0 <= i ->
       Z.testbit (read_value RegMode (snd (SX1255Controller.EnableTx s enable w))) i
       = if i =? Z.log2 ModeBitTxEnable then enable
         else Z.testbit (read_value RegMode w) i).
Proof.
  intros Hs Hq.
  set (w1 := written RegMode
               (SX1255Controller.set_or_clear true (read_value RegMode w) ModeBitRxEnable)
               (read_back RegMode w)).
  set (w2 := written RegMode
               (SX1255Controller.set_or_clear true (read_value RegMode w1) ModeBitTxEnable)
               (read_back RegMode w1)).
  assert (Q1 : quiet w1) by (apply quiet_written, quiet_read_back, Hq).
  assert (B1 : forall i, 0 <= i ->
            Z.testbit (read_value RegMode w1) i
            = if i =? 1 then true else Z.testbit (read_value RegMode w) i).
  { intros i Hi. unfold w1. change ModeBitRxEnable with (2 ^ 1).
    apply mode_after_rmw; lia. }
  assert (B2 : forall i, 0 <= i ->
            Z.testbit (read_value RegMode w2) i
            = if i =? 2 then true else Z.testbit (read_value RegMode w1) i).
  { intros i Hi. unfold w2. change ModeBitTxEnable with (2 ^ 2).
    apply mode_after_rmw; lia. }
  change (Z.log2 ModeBitRxEnable) with 1. change (Z.log2 ModeBitTxEnable) with 2.
  change (Z.log2 ModeBitDriverEnable) with 3. change (Z.log2 ModeBitRefEnable) with 0.
  exists w1, w2.
  split; [apply EnableRx_quiet; assumption|].
  split; [apply EnableTx_quiet; assumption|].
  split; [rewrite B2, B1 by lia; reflexivity|].
  split; [rewrite B2 by lia; reflexivity|].
  split; [rewrite B2, B1 by lia; reflexivity|].
  split; [rewrite B2, B1 by lia; reflexivity|].
  split.
  { intros i Hi H1 H2. rewrite B2, B1 by lia.
    rewrite (proj2 (Z.eqb_neq i 2) H2), (proj2 (Z.eqb_neq i 1) H1). reflexivity. }
  split.
  - intros i Hi. rewrite EnableRx_quiet by assumption. cbn [snd].
    change ModeBitRxEnable with (2 ^ 1). apply mode_after_rmw; lia.
  - intros i Hi. rewrite EnableTx_quiet by assumption. cbn [snd].
    change ModeBitTxEnable with (2 ^ 2). apply mode_after_rmw; lia.
Qed.

Lemma enable_rx_then_tx_witness :
  exists w1 w2,
    SX1255Controller.EnableRx (open_controller 32000000) true still_world = (Ok tt, w1) /\
    SX1255Controller.EnableTx (open_controller 32000000) true w1 = (Ok tt, w2) /\
    Z.testbit (read_value RegMode w2) (Z.log2 ModeBitRxEnable) = true /\
    Z.testbit (read_value RegMode w2) (Z.log2 ModeBitTxEnable) = true /\
    Z.testbit (read_value RegMode w2) (Z.log2 ModeBitDriverEnable)
      = Z.testbit (read_value RegMode still_world) (Z.log2 ModeBitDriverEnable) /\
    Z.testbit (read_value RegMode w2) (Z.log2 ModeBitRefEnable)
      = Z.testbit (read_value RegMode still_world) (Z.log2 ModeBitRefEnable) /\
    (forall i, 0 <= i -> i <> Z.log2 ModeBitRxEnable -> i <> Z.log2 ModeBitTxEnable ->
       Z.testbit (read_value RegMode w2) i = Z.testbit (read_value RegMode still_world) i) /\
    (forall i, 0 <= i ->
       Z.testbit (read_value RegMode
                    (snd (SX1255Controller.EnableRx (open_controller 32000000) false still_world))) i
       = if i =? Z.log2 ModeBitRxEnable then false
         else Z.testbit (read_value RegMode still_world) i) /\
    (forall i, 0 <= i ->
       Z.testbit (read_value RegMode
                    (snd (SX1255Controller.EnableTx (open_controller 32000000) false still_world))) i
       = if i =? Z.log2 ModeBitTxEnable then false
         else Z.testbit (read_value RegMode still_world) i).
Proof.
  apply (enable_rx_then_tx (open_controller 32000000) still_world false).
  - apply ready_open_controller.
  - apply quiet_still_world.
Defined.

(** C3, the claim as stated, fails on a chip that is asleep: from MODE =
    0x00 the two calls succeed and leave MODE = 0x06, RX and TX set and REF
    clear. *)
Lemma enable_rx_then_tx_from_sleep :
  read_value RegMode still_world = ModeSleep
  /\ fst ((SX1255Controller.EnableRx (open_controller 32000000) true ;;;
           SX1255Controller.EnableTx (open_controller 32000000) true) still_world)
     = Ok tt
  /\ read_value RegMode
       (snd ((SX1255Controller.EnableRx (open_controller 32000000) true ;;;
              SX1255Controller.EnableTx (open_controller 32000000) true) still_world))
     = 0x06
  /\ Z.land 0x06 ModeBitRefEnable = 0
  /\ Z.testbit 0x06 (Z.log2 ModeBitRefEnable) = false.
Proof. repeat split; vm_compute; reflexivity. Qed.

(** ** LNA gain *)

Section LnaGain.

Lemma SetLNAGain_quiet s w gainDb :
  ready s -> quiet w ->
  SX1255Controller.SetLNAGain s gainDb w
  = (Ok tt, written RegRxfe1
              (Z.lor (Z.land (read_value RegRxfe1 w) 0x1F)
                     (uint8 (Z.shiftl (SX1255Controller.lnaGainSetting gainDb) 5)))
              (read_back RegRxfe1 w)).
Proof.
  intros (Hi & d & Hs & Hd) Hq. unfold SX1255Controller.SetLNAGain.
  rewrite Hi. cbn [negb]. unfold SX1255Controller.via_spi. rewrite Hs.
  erewrite bind_ok by (apply wrapping_ok, ReadRegister_quiet; auto).
  apply WriteRegister_quiet; auto using quiet_read_back.
Qed.

Lemma lnaGainSetting_range gainDb : 1 <= SX1255Controller.lnaGainSetting gainDb <= 6.
Proof.
  unfold SX1255Controller.lnaGainSetting.
  repeat match goal with |- context [if ?b then _ else _] => destruct b end;
    cbv; split; discriminate.
Qed.

(** A field of three bits above five bits that stay. *)
Lemma lna_field_packed r0 code :
  1 <= code <= 6 ->
  let r := uint8 (Z.lor (Z.land r0 0x1F) (uint8 (Z.shiftl code 5))) in
  Z.shiftr r 5 = code /\ Z.land r 0x1F = Z.land r0 0x1F.
Proof.
  intros Hc. cbv zeta.
  pose proof (Z.mod_pos_bound r0 32 ltac:(lia)) as B.
  assert (L : Z.land r0 0x1F = r0 mod 32).
  { change 0x1F with (Z.ones 5). now rewrite Z.land_ones by lia. }
  assert (E : uint8 (Z.lor (Z.land r0 0x1F) (uint8 (Z.shiftl code 5)))
              = code * 32 + r0 mod 32).
  { rewrite L, Z.shiftl_mul_pow2 by lia.
    rewrite (uint8_small (code * 2 ^ 5)) by (change (2 ^ 5) with 32; lia).
    rewrite Z.lor_comm, lor_disjoint by (change (2 ^ 5) with 32; lia).
    change (2 ^ 5) with 32. apply uint8_small. lia. }
  rewrite E, L.
  change 0x1F with (Z.ones 5). rewrite Z.land_ones, Z.shiftr_div_pow2 by lia.
  change (2 ^ 5) with 32.
  split.
  - symmetry. apply (Z.div_unique _ _ _ (r0 mod 32)); lia.
  - symmetry. apply (Z.mod_unique _ _ code); lia.
Qed.

End LnaGain.

(** C6.  For every [gainDb] and every initial value of RXFE1, [SetLNAGain]
    leaves in bits 7:5 of RXFE1 the code of the threshold ladder (above 45:
    code 1, 0 dB; above 39: code 2, -6 dB; above 30: code 3, -12 dB; above
    18: code 4, -24 dB; above 6: code 5, -36 dB; otherwise code 6, -48 dB)
    and leaves bits 4:0 as they were. *)
Theorem lna_gain_ladder s w gainDb :
  ready s -> quiet w ->
  exists w',
    SX1255Controller.SetLNAGain s gainDb w = (Ok tt, w') /\
    Z.shiftr (read_value RegRxfe1 w') 5 = SX1255Controller.lnaGainSetting gainDb /\
    Z.land (read_value RegRxfe1 w') 0x1F = Z.land (read_value RegRxfe1 w) 0x1F /\
    (45 < gainDb -> SX1255Controller.lnaGainSetting gainDb = 1) /\
    (39 < gainDb <= 45 -> SX1255Controller.lnaGainSetting gainDb = 2) /\
    (30 < gainDb <= 39 -> SX1255Controller.lnaGainSetting gainDb = 3) /\
    (18 < gainDb <= 30 -> SX1255Controller.lnaGainSetting gainDb = 4) /\
    (6 < gainDb <= 18 -> SX1255Controller.lnaGainSetting gainDb = 5) /\
    (gainDb <= 6 -> SX1255Controller.lnaGainSetting gainDb = 6).
Proof.
  intros Hs Hq. eexists. split; [apply SetLNAGain_quiet; assumption|].
  rewrite read_value_written_same.
  replace (read_value RegRxfe1 (read_back RegRxfe1 w)) with (read_value RegRxfe1 w)
    by reflexivity.
  pose proof (lna_field_packed (read_value RegRxfe1 w)
                (SX1255Controller.lnaGainSetting gainDb)
                (lnaGainSetting_range gainDb)) as [F1 F2].
  split; [exact F1|]. split; [exact F2|].
  unfold SX1255Controller.lnaGainSetting.
  repeat split; intros H;
    repeat match goal with
           | |- context [?a >? ?b] =>
               rewrite (Z.gtb_ltb a b);
               destruct (Z.ltb_spec b a); try lia
           end; reflexivity.
Qed.

Lemma lna_gain_ladder_witness :
  exists w',
    SX1255Controller.SetLNAGain (open_controller 32000000) 46 still_world = (Ok tt, w') /\
    Z.shiftr (read_value RegRxfe1 w') 5 = SX1255Controller.lnaGainSetting 46 /\
    Z.land (read_value RegRxfe1 w') 0x1F = Z.land (read_value RegRxfe1 still_world) 0x1F /\
    (45 < 46 -> SX1255Controller.lnaGainSetting 46 = 1) /\
    (39 < 46 <= 45 -> SX1255Controller.lnaGainSetting 46 = 2) /\
    (30 < 46 <= 39 -> SX1255Controller.lnaGainSetting 46 = 3) /\
    (18 < 46 <= 30 -> SX1255Controller.lnaGainSetting 46 = 4) /\
    (6 < 46 <= 18 -> SX1255Controller.lnaGainSetting 46 = 5) /\
    (46 <= 6 -> SX1255Controller.lnaGainSetting 46 = 6).
Proof.
  apply (lna_gain_ladder (open_controller 32000000) still_world 46).
  - apply ready_open_controller.
  - apply quiet_still_world.
Defined.

(** The three buckets the specification tests. *)
Example lna_gain_buckets :
  SX1255Controller.lnaGainSetting 46 = LnaGainMax
  /\ SX1255Controller.lnaGainSetting 40 = LnaGainMinus6
  /\ SX1255Controller.lnaGainSetting 5 = LnaGainMinus48.
Proof. repeat split. Qed.

(** ** Initialization *)

Section Initialization.

Lemma write_defaults_quiet d entries : forall w,
  SPIDevice.conn d <> None -> quiet w ->
  SX1255Controller.write_defaults d entries w = (Ok tt, write_all entries w).
Proof.
  induction entries as [|[a v] rest IH]; intros w Hd Hq; [reflexivity|].
  cbn [SX1255Controller.write_defaults].
  erewrite bind_ok by (apply wrapping_ok, WriteRegister_quiet; auto).
  rewrite IH by auto using quiet_written. reflexivity.
Qed.

Lemma write_all_trace entries : forall w,
  trace (write_all entries w)
  = trace w ++ flat_map (fun e => [write_event e; EvSleep 10]) entries.
Proof.
  induction entries as [|[a v] rest IH]; intros w.
  - cbn. now rewrite app_nil_r.
  - cbn [write_all fold_left flat_map]. fold (write_all rest (written a v w)).
    rewrite IH, trace_written, <- app_assoc. reflexivity.
Qed.

Lemma register_writes_write_all entries :
  register_writes (flat_map (fun e => [write_event e; EvSleep 10]) entries)
  = map write_event entries.
Proof.
  induction entries as [|[a v] rest IH]; [reflexivity|].
  cbn [flat_map map app]. unfold register_writes in *. cbn [filter].
  unfold write_event at 1. cbn [is_write_frame fst snd].
  rewrite write_address_bit. rewrite IH. reflexivity.
Qed.

Lemma write_all_read_other a entries : forall w,
  ~ In (Z.land a 0x7F) (map key entries) ->
  read_value a (write_all entries w) = read_value a w.
Proof.
  induction entries as [|[b v] rest IH]; intros w H; [reflexivity|].
  cbn [write_all fold_left]. fold (write_all rest (written b v w)).
  cbn [map In] in H. rewrite IH by tauto.
  apply read_value_written_other. unfold key in H. cbn [fst] in H. intros E. apply H.
  left. now symmetry.
Qed.

Lemma write_all_read_in a v entries : forall w,
  NoDup (map key entries) -> In (a, v) entries ->
  read_value a (write_all entries w) = uint8 v.
Proof.
  induction entries as [|[b u] rest IH]; intros w Hnd Hin; [contradiction|].
  cbn [write_all fold_left]. fold (write_all rest (written b u w)).
  cbn [map] in Hnd. inversion Hnd as [|k ks Hk Hrest]; subst.
  destruct Hin as [E|Hin].
  - inversion E; subst. rewrite write_all_read_other by exact Hk.
    apply read_value_written_same.
  - apply IH; assumption.
Qed.

Lemma default_keys_distinct : NoDup (map key DefaultRegisterValues).
Proof.
  repeat (constructor; [cbv; intuition discriminate|]). constructor.
Qed.

Lemma default_values_bytes :
  Forall (fun e => 0 <= snd e < 256) DefaultRegisterValues.
Proof. repeat constructor; cbv; discriminate. Qed.

Lemma Initialize_quiet s w :
  ready s -> quiet w ->
  SX1255Controller.Initialize s w = (Ok tt, read_back RegVersion w).
Proof.
  intros (Hi & d & Hs & Hd) Hq.
  unfold SX1255Controller.Initialize, SX1255Controller.GetVersion.
  rewrite Hi. cbn [negb]. unfold SX1255Controller.via_spi. rewrite Hs.
  erewrite bind_ok by (apply wrapping_ok, ReadRegister_quiet; auto).
  reflexivity.
Qed.

(** Plain initialization sends at most the read of VERSION. *)
Lemma Initialize_writes_nothing s w :
  register_writes (trace (snd (SX1255Controller.Initialize s w)))
  = register_writes (trace w).
Proof.
  unfold SX1255Controller.Initialize, SX1255Controller.GetVersion.
  destruct (SX1255Controller.initialized s); cbn [negb]; [|reflexivity].
  unfold SX1255Controller.via_spi.
  destruct (SX1255Controller.spi s) as [d|]; [|reflexivity].
  destruct (SPIDevice.conn d) as [c|] eqn:Hc.
  - unfold bind, wrapping.
    rewrite ReadRegister_step by (rewrite Hc; discriminate).
    destruct (failing w); cbn [snd ret].
    + cbn [log trace]. rewrite register_writes_app. cbn. apply app_nil_r.
    + rewrite trace_read_back, register_writes_app. cbn. apply app_nil_r.
  - unfold bind, wrapping, SPIDevice.ReadRegister, SPIDevice.Transfer.
    rewrite Hc. reflexivity.
Qed.

End Initialization.

(** C4, as amended.  [InitializeWithDefaults] writes exactly 15 register
    values, one for each entry of the fixed default table (the RX and TX
    frequency bytes C0 E3 8E, default gains, PLL bandwidths, clock-out
    enabled), in the order in which the iteration over the table yields
    them, after which every register of the table holds its default; the
    plain [Initialize] never writes a register, it only reads VERSION. *)
Theorem initialize_with_defaults order s w s0 w0 :
  Permutation order DefaultRegisterValues -> ready s -> quiet w ->
  exists w',
    SX1255Controller.InitializeWithDefaults order s w = (Ok tt, w') /\
    register_writes (trace w') = register_writes (trace w) ++ map write_event order /\
    List.length (map write_event order) = 15%nat /\
    Permutation (map write_event order) (map write_event DefaultRegisterValues) /\
    (forall addr value, In (addr, value) DefaultRegisterValues ->
       read_value addr w' = value) /\
    register_writes (trace (snd (SX1255Controller.Initialize s0 w0)))
    = register_writes (trace w0) /\
    (ready s0 -> quiet w0 ->
     frames (trace (snd (SX1255Controller.Initialize s0 w0)))
     = frames (trace w0) ++ [[RegVersion; 0x00]]).
Proof.
  intros Hp Hs Hq. pose proof Hs as (Hi & d & Hd & Hc).
  exists (write_all order (read_back RegVersion w)).
  split.
  { unfold SX1255Controller.InitializeWithDefaults.
    erewrite bind_ok by (apply Initialize_quiet; assumption).
    unfold SX1255Controller.via_spi. rewrite Hd.
    apply write_defaults_quiet; auto using quiet_read_back. }
  split.
  { rewrite write_all_trace, trace_read_back, !register_writes_app.
    rewrite register_writes_write_all. cbn [register_writes filter is_write_frame].
    change (Z.testbit (Z.land RegVersion 0x7F) 7) with false. cbn.
    now rewrite app_nil_r. }
  split.
  { rewrite length_map, (Permutation_length Hp). reflexivity. }
  split.
  { apply Permutation_map. exact Hp. }
  split.
  { intros addr value Hin.
    rewrite (write_all_read_in addr value).
    - apply uint8_small.
      apply (proj1 (Forall_forall _ _) default_values_bytes (addr, value) Hin).
    - apply (Permutation_NoDup (l := map key DefaultRegisterValues)).
      + apply Permutation_map. symmetry. exact Hp.
      + apply default_keys_distinct.
    - apply (Permutation_in (l := DefaultRegisterValues)); [symmetry; exact Hp|exact Hin]. }
  split.
  { apply Initialize_writes_nothing. }
  intros Hs0 Hq0. rewrite Initialize_quiet by assumption. cbn [snd].
  rewrite trace_read_back, frames_app. reflexivity.
Qed.

Lemma initialize_with_defaults_witness :
  exists w',
    SX1255Controller.InitializeWithDefaults DefaultRegisterValues
      (open_controller 32000000) still_world = (Ok tt, w') /\
    register_writes (trace w')
    = register_writes (trace still_world) ++ map write_event DefaultRegisterValues /\
    List.length (map write_event DefaultRegisterValues) = 15%nat /\
    Permutation (map write_event DefaultRegisterValues)
                (map write_event DefaultRegisterValues) /\
    (forall addr value, In (addr, value) DefaultRegisterValues ->
       read_value addr w' = value) /\
    register_writes (trace (snd (SX1255Controller.Initialize (open_controller 32000000)
                                   still_world)))
    = register_writes (trace still_world) /\
    (ready (open_controller 32000000) -> quiet still_world ->
     frames (trace (snd (SX1255Controller.Initialize (open_controller 32000000)
                           still_world)))
     = frames (trace still_world) ++ [[RegVersion; 0x00]]).
Proof.
  apply (initialize_with_defaults DefaultRegisterValues (open_controller 32000000)
           still_world (open_controller 32000000) still_world).
  - apply Permutation_refl.
  - apply ready_open_controller.
  - apply quiet_still_world.
Defined.

(** C4, the claim as stated, fails on the count: the default table has 15
    entries and [InitializeWithDefaults] writes 15 registers, not 17. *)
Lemma initialize_with_defaults_count :
  List.length DefaultRegisterValues = 15%nat
  /\ fst (SX1255Controller.InitializeWithDefaults DefaultRegisterValues
            (open_controller 32000000) still_world) = Ok tt
  /\ List.length
       (register_writes
          (trace (snd (SX1255Controller.InitializeWithDefaults DefaultRegisterValues
                         (open_controller 32000000) still_world)))) = 15%nat
  /\ 15%nat <> 17%nat.
Proof. repeat split; try (vm_compute; reflexivity). discriminate. Qed.

(** ** Register access and its arguments *)

Section RegisterAccess.

Lemma controller_WriteRegister_quiet s addr value w :
  ready s -> quiet w ->
  SX1255Controller.WriteRegister s addr value w = (Ok tt, written addr value w).
Proof.
  intros (Hi & d & Hs & Hd) Hq. unfold SX1255Controller.WriteRegister.
  rewrite Hi. cbn [negb]. unfold SX1255Controller.via_spi. rewrite Hs.
  apply WriteRegister_quiet; assumption.
Qed.

Lemma controller_ReadRegister_quiet s addr w :
  ready s -> quiet w ->
  SX1255Controller.ReadRegister s addr w = (Ok (read_value addr w), read_back addr w).
Proof.
  intros (Hi & d & Hs & Hd) Hq. unfold SX1255Controller.ReadRegister.
  rewrite Hi. cbn [negb]. unfold SX1255Controller.via_spi. rewrite Hs.
  apply ReadRegister_quiet; assumption.
Qed.

(** No path through a single-register access rejects its address. *)
Lemma WriteRegister_never_rejects s addr value w e w' :
  SX1255Controller.WriteRegister s addr value w = (Err e, w') ->
  is_InvalidArgument e = false.
Proof.
  unfold SX1255Controller.WriteRegister, SX1255Controller.via_spi.
  destruct (SX1255Controller.initialized s); cbn [negb];
    [|intros H; inversion H; reflexivity].
  destruct (SX1255Controller.spi s) as [d|]; [|intros H; inversion H; reflexivity].
  destruct (SPIDevice.conn d) as [c|] eqn:Hc.
  - rewrite WriteRegister_step by (rewrite Hc; discriminate).
    destruct (failing w); intros H; inversion H; reflexivity.
  - unfold SPIDevice.WriteRegister, SPIDevice.Transfer, bind, wrapping.
    rewrite Hc. cbn. intros H; inversion H; reflexivity.
Qed.

Lemma ReadRegister_never_rejects s addr w e w' :
  SX1255Controller.ReadRegister s addr w = (Err e, w') ->
  is_InvalidArgument e = false.
Proof.
  unfold SX1255Controller.ReadRegister, SX1255Controller.via_spi.
  destruct (SX1255Controller.initialized s); cbn [negb];
    [|intros H; inversion H; reflexivity].
  destruct (SX1255Controller.spi s) as [d|]; [|intros H; inversion H; reflexivity].
  destruct (SPIDevice.conn d) as [c|] eqn:Hc.
  - rewrite ReadRegister_step by (rewrite Hc; discriminate).
    destruct (failing w); intros H; inversion H; reflexivity.
  - unfold SPIDevice.ReadRegister, SPIDevice.Transfer, bind, wrapping.
    rewrite Hc. cbn. intros H; inversion H; reflexivity.
Qed.

End RegisterAccess.

(** C5, as amended.  A register read or write is not checked against the
    register map: on a ready controller and a working bus, [WriteRegister]
    and [ReadRegister] succeed for every address, those outside [0x00, 0x13]
    included, sending the frames [addr | 0x80, value] and [addr & 0x7F, 0],
    and on no controller and no bus do they fail with [InvalidArgument].
    A burst read with a non-positive count and a burst write with no values
    fail with [InvalidArgument] before anything is sent. *)
Theorem register_access_arguments s d addr value startAddr count w s1 w1 :
  ready s -> quiet w -> count <= 0 ->
  SX1255Controller.WriteRegister s addr value w = (Ok tt, written addr value w) /\
  SX1255Controller.ReadRegister s addr w = (Ok (read_value addr w), read_back addr w) /\
  (forall e w', SX1255Controller.WriteRegister s1 addr value w1 = (Err e, w') ->
     is_InvalidArgument e = false) /\
  (forall e w', SX1255Controller.ReadRegister s1 addr w1 = (Err e, w') ->
     is_InvalidArgument e = false) /\
  SPIDevice.BurstRead d startAddr count w1 = (Err (ErrInvalidCount count), w1) /\
  is_InvalidArgument (ErrInvalidCount count) = true /\
  SPIDevice.BurstWrite d startAddr [] w1 = (Err ErrNoValues, w1) /\
  is_InvalidArgument ErrNoValues = true.
Proof.
  intros Hs Hq Hcount.
  split; [apply controller_WriteRegister_quiet; assumption|].
  split; [apply controller_ReadRegister_quiet; assumption|].
  split; [intros e w'; apply WriteRegister_never_rejects|].
  split; [intros e w'; apply ReadRegister_never_rejects|].
  split.
  { unfold SPIDevice.BurstRead.
    replace (count <=? 0) with true by (symmetry; apply Z.leb_le; exact Hcount).
    reflexivity. }
  repeat split.
Qed.

Lemma register_access_arguments_witness :
  SX1255Controller.WriteRegister (open_controller 32000000) 0x14 0xAB still_world
  = (Ok tt, written 0x14 0xAB still_world) /\
  SX1255Controller.ReadRegister (open_controller 32000000) 0x14 still_world
  = (Ok (read_value 0x14 still_world), read_back 0x14 still_world) /\
  (forall e w', SX1255Controller.WriteRegister (open_controller 32000000) 0x14 0xAB
                  still_world = (Err e, w') ->
     is_InvalidArgument e = false) /\
  (forall e w', SX1255Controller.ReadRegister (open_controller 32000000) 0x14
                  still_world = (Err e, w') ->
     is_InvalidArgument e = false) /\
  SPIDevice.BurstRead open_transport RegMode 0 still_world
  = (Err (ErrInvalidCount 0), still_world) /\
  is_InvalidArgument (ErrInvalidCount 0) = true /\
  SPIDevice.BurstWrite open_transport RegMode [] still_world
  = (Err ErrNoValues, still_world) /\
  is_InvalidArgument ErrNoValues = true.
Proof.
  apply (register_access_arguments (open_controller 32000000) open_transport
           0x14 0xAB RegMode 0 still_world (open_controller 32000000) still_world).
  - apply ready_open_controller.
  - apply quiet_still_world.
  - lia.
Defined.

(** C5, the claim as stated, fails: address 0x14, the first one past the
    register map, is written and read back without any error, and so is
    address 0xFF, whose read goes out as a read of address 0x7F. *)
Lemma register_access_past_the_map :
  fst (SX1255Controller.WriteRegister (open_controller 32000000) 0x14 0xAB still_world)
  = Ok tt
  /\ fst ((SX1255Controller.WriteRegister (open_controller 32000000) 0x14 0xAB ;;;
           SX1255Controller.ReadRegister (open_controller 32000000) 0x14) still_world)
     = Ok 0xAB
  /\ frames (trace (snd ((SX1255Controller.WriteRegister (open_controller 32000000) 0x14 0xAB ;;;
                          SX1255Controller.ReadRegister (open_controller 32000000) 0xFF)
                           still_world)))
     = [[0x94; 0xAB]; [0x7F; 0x00]]
  /\ fst (SX1255Controller.ReadRegister (open_controller 32000000) 0xFF still_world)
     = Ok 0.
Proof. repeat split; vm_compute; reflexivity. Qed.

(** ** Reset *)

(** C9, as amended.  Whenever [Reset] returns without an error it has, in
    this order and before returning, driven the reset line high, slept 100
    microseconds, driven the line low and slept 5 milliseconds, 5100
    microseconds of sleep in all; it returns an error, and only then
    earlier, when there is no reset line or when the line refuses one of
    the two writes: at once when there is no line or the first write is
    refused, and after the 100 microseconds, the line left high, when the
    second is; and on a line that takes the writes it does return without
    an error. *)
Theorem reset_sequence g w :
  match GPIOController.Reset g w with
  | (Ok _, w') =>
      exists line,
        GPIOController.resetLine g = Some line /\
        trace w' = trace w ++ [EvSetValue line 1 true; EvSleep 100;
                               EvSetValue line 0 true; EvSleep 5000] /\
        slept (trace w') = slept (trace w) + 5100
  | (Err e, w') =>
      (GPIOController.resetLine g = None /\ e = ErrResetLineNil /\ w' = w) \/
      (exists line,
         GPIOController.resetLine g = Some line /\
         (trace w' = trace w ++ [EvSetValue line 1 false] \/
          trace w' = trace w ++ [EvSetValue line 1 true; EvSleep 100;
                                 EvSetValue line 0 false]))
  end
  /\ (forall line, GPIOController.resetLine g = Some line -> quiet w ->
      fst (GPIOController.Reset g w) = Ok tt)
  /\ (forall s, SX1255Controller.initialized s = true ->
      SX1255Controller.gpio s = Some g ->
      SX1255Controller.Reset s w = GPIOController.Reset g w).
Proof.
  assert (slept_app : forall t1 t2, slept (t1 ++ t2) = slept t1 + slept t2).
  { induction t1 as [|ev t1 IH]; intros t2; [reflexivity|].
    destruct ev; cbn [app slept]; rewrite IH; lia. }
  split; [|split].
  - unfold GPIOController.Reset.
    destruct (GPIOController.resetLine g) as [line|]; [|left; repeat split].
    unfold bind, wrapping, line_SetValue, external, time_Sleep.
    destruct (failing w) eqn:F1.
    + right. exists line. split; [reflexivity|]. left. reflexivity.
    + destruct (failing (log (EvSleep 100) (log (EvSetValue line 1 true) w))) eqn:F2.
      * right. exists line. split; [reflexivity|]. right.
        cbn [log trace]. now rewrite <- !app_assoc.
      * exists line. split; [reflexivity|].
        assert (E : trace (log (EvSleep 5000)
                      (log (EvSetValue line 0 true)
                         (log (EvSleep 100) (log (EvSetValue line 1 true) w))))
                    = trace w ++ [EvSetValue line 1 true; EvSleep 100;
                                  EvSetValue line 0 true; EvSleep 5000]).
        { cbn [log trace]. now rewrite <- !app_assoc. }
        split; [exact E|]. rewrite E, slept_app. reflexivity.
  - intros line Hl Hq. unfold GPIOController.Reset. rewrite Hl.
    unfold bind, wrapping, line_SetValue, external, time_Sleep.
    rewrite (quiet_failing w Hq).
    replace (failing (log (EvSleep 100) (log (EvSetValue line 1 true) w))) with false
      by (symmetry; apply Hq).
    reflexivity.
  - intros s Hi Hg. unfold SX1255Controller.Reset, SX1255Controller.via_gpio.
    rewrite Hi, Hg. reflexivity.
Qed.

(** C9, the claim as stated, fails on a line that takes the first write
    and refuses the second: [Reset] returns, with the error of that write,
    when 100 of the 5100 microseconds have been slept, and the reset line,
    driven high, has not been driven low. *)
Lemma reset_sequence_refused_low :
  fst (GPIOController.Reset open_lines (faulty_world 2))
  = Err (Wrap "failed to set reset pin LOW" (ErrExternal "line.SetValue"))
  /\ trace (snd (GPIOController.Reset open_lines (faulty_world 2)))
     = [EvSetValue (GpioLine "gpiochip0" 5) 1 true; EvSleep 100;
        EvSetValue (GpioLine "gpiochip0" 5) 0 false]
  /\ slept (trace (snd (GPIOController.Reset open_lines (faulty_world 2)))) = 100
  /\ driven (trace (snd (GPIOController.Reset open_lines (faulty_world 2))))
     = [(GpioLine "gpiochip0" 5, 1)]
  /\ SX1255Controller.Reset (open_controller 32000000) (faulty_world 2)
     = GPIOController.Reset open_lines (faulty_world 2).
Proof. repeat split; vm_compute; reflexivity. Qed.

(** ** Construction and the handles it takes *)

Section Construction.

Lemma Resource_eqb_refl r : Resource_eqb r r = true.
Proof.
  destruct r; cbn; rewrite ?String.eqb_refl, ?Z.eqb_refl; reflexivity.
Qed.

Lemma release_acquire r h : release r (acquire r h) = h.
Proof. cbn. now rewrite Resource_eqb_refl. Qed.

Ltac open_paths :=
  repeat match goal with
         | |- context [if failing ?w then _ else _] => destruct (failing w)
         | |- context [if existsb ?f ?l then _ else _] => destruct (existsb f l)
         end.

Ltac show_segment :=
  cbn [trace log set_held set_regs]; rewrite <- ?app_assoc; cbn [app];
  eexists; split; [reflexivity|]; repeat split.

(** Opening the transport: on failure nothing is held that was not held
    before, and what was opened has been closed. *)
Lemma NewSPIDevice_handles device speed w :
  match SPIDevice.NewSPIDevice device speed w with
  | (Ok d, w') =>
      held w' = SpiPort device :: held w /\
      SPIDevice.port d = Some (SpiPort device) /\
      SPIDevice.conn d <> None /\
      exists seg, trace w' = trace w ++ seg /\
                  opened seg = [SpiPort device] /\ closed seg = []
  | (Err _, w') =>
      held w' = held w /\
      exists seg, trace w' = trace w ++ seg /\ closed seg = rev (opened seg)
  end.
Proof.
  unfold SPIDevice.NewSPIDevice, bind, wrapping, or_cleanup, ignoring, host_Init,
    open_resource, close_resource, external, ret.
  open_paths; cbn [snd held set_held log set_regs SPIDevice.port SPIDevice.conn];
    rewrite ?release_acquire;
    (split; [reflexivity|]); try (split; [reflexivity|split; [discriminate|]]);
    show_segment.
Qed.

Lemma NewGPIOController_handles chipPath resetPin txRxPin w :
  match GPIOController.NewGPIOController chipPath resetPin txRxPin w with
  | (Ok g, w') =>
      held w' = GpioLine chipPath txRxPin :: GpioLine chipPath resetPin
                  :: GpioChip chipPath :: held w /\
      GPIOController.resetLine g = Some (GpioLine chipPath resetPin) /\
      GPIOController.txRxLine g = Some (GpioLine chipPath txRxPin) /\
      exists seg, trace w' = trace w ++ seg /\
                  opened seg = [GpioChip chipPath; GpioLine chipPath resetPin;
                                GpioLine chipPath txRxPin] /\
                  closed seg = []
  | (Err _, w') =>
      held w' = held w /\
      exists seg, trace w' = trace w ++ seg /\ closed seg = rev (opened seg)
  end.
Proof.
  unfold GPIOController.NewGPIOController, bind, wrapping, or_cleanup, ignoring,
    chip_RequestLine, open_resource, close_resource, external, ret.
  open_paths;
    cbn [snd held set_held log set_regs GPIOController.resetLine GPIOController.txRxLine];
    rewrite ?release_acquire;
    (split; [reflexivity|]); try (split; [reflexivity|split; [reflexivity|]]);
    show_segment.
Qed.

Lemma opened_app t1 t2 : opened (t1 ++ t2) = opened t1 ++ opened t2.
Proof.
  induction t1 as [|ev t1 IH]; [reflexivity|].
  destruct ev as [| r [|] | | | | |]; cbn [app opened]; rewrite IH; reflexivity.
Qed.

Lemma closed_app t1 t2 : closed (t1 ++ t2) = closed t1 ++ closed t2.
Proof.
  induction t1 as [|ev t1 IH]; [reflexivity|].
  destruct ev; cbn [app closed]; rewrite IH; reflexivity.
Qed.

End Construction.

(** C10.  A constructor that fails leaves no handle behind: when
    [NewSX1255Controller] or [NewGPIOController] returns an error, the
    handles held afterwards are those held before, and the calls made in
    between closed what they had opened, in the reverse order (the SPI port
    when the GPIO controller cannot be opened; the reset line and then the
    chip when the TX/RX line cannot be requested).  When they succeed, the
    handles they took are held and the controller is ready. *)
Theorem failed_open_releases spiDevice spiSpeed gpioChip resetPin txRxPin clockFreq w :
  match SX1255Controller.NewSX1255Controller
          spiDevice spiSpeed gpioChip resetPin txRxPin clockFreq w with
  | (Ok c, w') =>
      ready c /\
      held w' = GpioLine gpioChip txRxPin :: GpioLine gpioChip resetPin
                  :: GpioChip gpioChip :: SpiPort spiDevice :: held w
  | (Err _, w') =>
      held w' = held w /\
      exists seg, trace w' = trace w ++ seg /\ closed seg = rev (opened seg)
  end
  /\
  match GPIOController.NewGPIOController gpioChip resetPin txRxPin w with
  | (Ok g, w') =>
      held w' = GpioLine gpioChip txRxPin :: GpioLine gpioChip resetPin
                  :: GpioChip gpioChip :: held w
  | (Err _, w') =>
      held w' = held w /\
      exists seg, trace w' = trace w ++ seg /\ closed seg = rev (opened seg)
  end.
Proof.
  split.
  - unfold SX1255Controller.NewSX1255Controller, bind, wrapping, or_cleanup.
    pose proof (NewSPIDevice_handles spiDevice spiSpeed w) as HS.
    destruct (SPIDevice.NewSPIDevice spiDevice spiSpeed w) as [[d|e] w1]; [|exact HS].
    destruct HS as (Hh1 & Hport & Hconn & seg1 & Ht1 & Ho1 & Hc1).
    pose proof (NewGPIOController_handles gpioChip resetPin txRxPin w1) as HG.
    destruct (GPIOController.NewGPIOController gpioChip resetPin txRxPin w1)
      as [[g|e] w2].
    + destruct HG as (Hh2 & _ & _ & _). cbn [ret]. split.
      * split; [reflexivity|]. exists d. split; [reflexivity|exact Hconn].
      * rewrite Hh2, Hh1. reflexivity.
    + destruct HG as (Hh2 & seg2 & Ht2 & Hc2).
      unfold ignoring, SPIDevice.Close. rewrite Hport. unfold close_resource.
      destruct (failing w2); cbn [snd held set_held log trace];
        rewrite Hh2, Hh1;
        (split; [apply release_acquire|]);
        rewrite Ht2, Ht1, <- !app_assoc;
        eexists; (split; [reflexivity|]);
        rewrite !closed_app, !opened_app, Hc1, Hc2, Ho1, !rev_app_distr;
        cbn; rewrite <- ?app_assoc; reflexivity.
  - pose proof (NewGPIOController_handles gpioChip resetPin txRxPin w) as HG.
    destruct (GPIOController.NewGPIOController gpioChip resetPin txRxPin w)
      as [[g|e] w2]; [|exact HG].
    destruct HG as (Hh2 & _). exact Hh2.
Qed.

(** A failed open, step by step: the same line given for reset and for
    TX/RX makes the second request fail as busy, after the first has driven
    the line low; the reset line, the chip and the SPI port are closed in
    that order and nothing stays held. *)
Example failed_open_same_pin :
  let '(r, w') := SX1255Controller.NewSX1255Controller
                    "/dev/spidev0.0" 500000 "gpiochip0" 5 5 32000000 still_world in
  (exists e, r = Err e)
  /\ held w' = []
  /\ trace w' = [EvHostInit true;
                 EvOpen (SpiPort "/dev/spidev0.0") true;
                 EvConnect (SpiPort "/dev/spidev0.0") true;
                 EvOpen (GpioChip "gpiochip0") true;
                 EvOpen (GpioLine "gpiochip0" 5) true;
                 EvSetValue (GpioLine "gpiochip0" 5) 0 true;
                 EvOpen (GpioLine "gpiochip0" 5) false;
                 EvClose (GpioLine "gpiochip0" 5) true;
                 EvClose (GpioChip "gpiochip0") true;
                 EvClose (SpiPort "/dev/spidev0.0") true].
Proof. cbn. split; [eexists; reflexivity|split; reflexivity]. Qed.

(** The default table, read back through the code's own conversion: the
    frequency bytes C0 E3 8E stand for 385777771 Hz at the default reference
    clock of 32 MHz and for 433999992 Hz at a reference of 36 MHz. *)
Example default_frequency_read_back :
  fst ((SX1255Controller.InitializeWithDefaults DefaultRegisterValues
          (open_controller 32000000) ;;;
        SX1255Controller.GetRxFrequency (open_controller 32000000)) still_world)
  = Ok 385777771
  /\ fst ((SX1255Controller.InitializeWithDefaults DefaultRegisterValues
             (open_controller 36000000) ;;;
           SX1255Controller.GetRxFrequency (open_controller 36000000)) still_world)
     = Ok 433999992.
Proof. split; vm_compute; reflexivity. Qed.

(* ================================================================= *)
(** * Part III: further properties of the transport and the controller *)
(* ================================================================= *)

(** ** Frequencies, continued *)

Section FrequencyWords.

(** Three bytes, most significant first, as the word the read-back forms. *)
Lemma bytes_word h m l :
  0 <= h < 256 -> 0 <= m < 256 -> 0 <= l < 256 ->
  Z.lor (Z.lor (uint32 (Z.shiftl h 16)) (uint32 (Z.shiftl m 8))) l
  = 65536 * h + 256 * m + l.
Proof.
  intros Hh Hm Hl. rewrite !Z.shiftl_mul_pow2 by lia. unfold uint32.
  rewrite (Z.mod_small (h * 2 ^ 16)) by (change (2 ^ 16) with 65536; lia).
  rewrite (Z.mod_small (m * 2 ^ 8)) by (change (2 ^ 8) with 256; lia).
  rewrite (lor_disjoint h (m * 2 ^ 8) 16)
    by (change (2 ^ 16) with 65536; change (2 ^ 8) with 256; lia).
  replace (h * 2 ^ 16 + m * 2 ^ 8) with ((h * 256 + m) * 2 ^ 8)
    by (change (2 ^ 16) with 65536; change (2 ^ 8) with 256; lia).
  rewrite lor_disjoint by (change (2 ^ 8) with 256; lia).
  change (2 ^ 8) with 256. lia.
Qed.

Lemma read_value_byte a w : 0 <= read_value a w < 256.
Proof. apply uint8_range. Qed.

Lemma rx_word_range w : 0 <= rx_word w < 2 ^ 24.
Proof.
  unfold rx_word. change (2 ^ 24) with 16777216.
  pose proof (read_value_byte RegFrfhRx w). pose proof (read_value_byte RegFrfmRx w).
  pose proof (read_value_byte RegFrflRx w). lia.
Qed.

Lemma tx_word_range w : 0 <= tx_word w < 2 ^ 24.
Proof.
  unfold tx_word. change (2 ^ 24) with 16777216.
  pose proof (read_value_byte RegFrfhTx w). pose proof (read_value_byte RegFrfmTx w).
  pose proof (read_value_byte RegFrflTx w). lia.
Qed.

Lemma to_uint32_converted x w : to_uint32 x w = (Ok (converted w x), w).
Proof. reflexivity. Qed.

(** What [GetRxFrequency] and [GetTxFrequency] do on a working bus. *)
Lemma GetRxFrequency_quiet s w :
  ready s -> quiet w ->
  SX1255Controller.GetRxFrequency s w
  = (Ok (converted w (frf_hz (SX1255Controller.clockFreq s) (rx_word w))),
     read_back RegFrflRx (read_back RegFrfmRx (read_back RegFrfhRx w))).
Proof.
  intros (Hi & d & Hs & Hd) Hq. unfold SX1255Controller.GetRxFrequency.
  rewrite Hi. cbn [negb]. unfold SX1255Controller.via_spi. rewrite Hs.
  erewrite bind_ok by (apply wrapping_ok, ReadRegister_quiet; auto).
  erewrite bind_ok
    by (apply wrapping_ok, ReadRegister_quiet; auto using quiet_read_back).
  erewrite bind_ok
    by (apply wrapping_ok, ReadRegister_quiet; auto using quiet_read_back).
  replace (read_value RegFrfmRx (read_back RegFrfhRx w))
    with (read_value RegFrfmRx w) by reflexivity.
  replace (read_value RegFrflRx (read_back RegFrfmRx (read_back RegFrfhRx w)))
    with (read_value RegFrflRx w) by reflexivity.
  rewrite bytes_word by apply read_value_byte.
  reflexivity.
Qed.

Lemma GetTxFrequency_quiet s w :
  ready s -> quiet w ->
  SX1255Controller.GetTxFrequency s w
  = (Ok (converted w (frf_hz (SX1255Controller.clockFreq s) (tx_word w))),
     read_back RegFrflTx (read_back RegFrfmTx (read_back RegFrfhTx w))).
Proof.
  intros (Hi & d & Hs & Hd) Hq. unfold SX1255Controller.GetTxFrequency.
  rewrite Hi. cbn [negb]. unfold SX1255Controller.via_spi. rewrite Hs.
  erewrite bind_ok by (apply wrapping_ok, ReadRegister_quiet; auto).
  erewrite bind_ok
    by (apply wrapping_ok, ReadRegister_quiet; auto using quiet_read_back).
  erewrite bind_ok
    by (apply wrapping_ok, ReadRegister_quiet; auto using quiet_read_back).
  replace (read_value RegFrfmTx (read_back RegFrfhTx w))
    with (read_value RegFrfmTx w) by reflexivity.
  replace (read_value RegFrflTx (read_back RegFrfmTx (read_back RegFrfhTx w)))
    with (read_value RegFrflTx w) by reflexivity.
  rewrite bytes_word by apply read_value_byte.
  reflexivity.
Qed.

(** Reading back, for any content of the registers. *)
Lemma frf_hz_any c n :
  0 < c < 2 ^ 32 -> 0 <= n -> c * n < 2 ^ 53 ->
  frf_hz c n = float64_of_Z ((c * n + 2 ^ 19) / 2 ^ 20).
Proof.
  intros Hc Hn Hcn. destruct (Z.eq_dec n 0) as [->|Hz].
  - rewrite Z.mul_0_r. change ((0 + 2 ^ 19) / 2 ^ 20) with 0.
    unfold frf_hz.
    assert (P : 0 < c) by lia.
    pose proof (digits_exists c P) as D. set (d := Z.log2 c + 1) in *.
    assert (1 <= d) by (pose proof (Z.log2_nonneg c); lia).
    assert (d <= 32) by (apply (digits_le c); lia).
    destruct (float64_of_Z_normal c d) as [E _]; auto; [lia|].
    rewrite E. reflexivity.
  - apply frf_hz_spec; lia.
Qed.

Lemma word_of_written_rx n w :
  0 <= n < 2 ^ 24 ->
  rx_word (written RegFrflRx (n mod 2 ^ 8)
             (written RegFrfmRx ((n / 2 ^ 8) mod 2 ^ 8)
                (written RegFrfhRx (n / 2 ^ 16) w))) = n.
Proof.
  intros Hn. unfold rx_word.
  rewrite !(read_value_written_other RegFrfhRx) by discriminate.
  rewrite (read_value_written_other RegFrfmRx RegFrflRx) by discriminate.
  rewrite !read_value_written_same.
  change (2 ^ 24) with 16777216 in Hn. change (2 ^ 8) with 256. change (2 ^ 16) with 65536.
  assert (0 <= n / 65536 < 256)
    by (split; [apply Z.div_pos; lia|apply Z.div_lt_upper_bound; lia]).
  pose proof (Z.mod_pos_bound n 256 ltac:(lia)).
  pose proof (Z.mod_pos_bound (n / 256) 256 ltac:(lia)).
  rewrite !uint8_small by lia.
  pose proof (Z.div_mod n 256 ltac:(lia)).
  pose proof (Z.div_mod (n / 256) 256 ltac:(lia)).
  assert (n / 256 / 256 = n / 65536) by (rewrite Z.div_div by lia; reflexivity).
  lia.
Qed.

Lemma word_of_written_tx n w :
  0 <= n < 2 ^ 24 ->
  tx_word (written RegFrflTx (n mod 2 ^ 8)
             (written RegFrfmTx ((n / 2 ^ 8) mod 2 ^ 8)
                (written RegFrfhTx (n / 2 ^ 16) w))) = n.
Proof.
  intros Hn. unfold tx_word.
  rewrite !(read_value_written_other RegFrfhTx) by discriminate.
  rewrite (read_value_written_other RegFrfmTx RegFrflTx) by discriminate.
  rewrite !read_value_written_same.
  change (2 ^ 24) with 16777216 in Hn. change (2 ^ 8) with 256. change (2 ^ 16) with 65536.
  assert (0 <= n / 65536 < 256)
    by (split; [apply Z.div_pos; lia|apply Z.div_lt_upper_bound; lia]).
  pose proof (Z.mod_pos_bound n 256 ltac:(lia)).
  pose proof (Z.mod_pos_bound (n / 256) 256 ltac:(lia)).
  rewrite !uint8_small by lia.
  pose proof (Z.div_mod n 256 ltac:(lia)).
  pose proof (Z.div_mod (n / 256) 256 ltac:(lia)).
  assert (n / 256 / 256 = n / 65536) by (rewrite Z.div_div by lia; reflexivity).
  lia.
Qed.

Lemma converted_of_Z w n : 0 <= n < 2 ^ 32 -> converted w (float64_of_Z n) = n.
Proof. intros H. unfold converted. now rewrite uint32_of_float64_of_Z. Qed.

End FrequencyWords.

Section FrequencyPairs.

Lemma appended_app w w' l : trace w' = trace w ++ l -> appended w w' = l.
Proof.
  intros H. unfold appended. rewrite H, skipn_app, skipn_all, Nat.sub_diag. reflexivity.
Qed.

Lemma SetRxFrequency_quiet s w f :
  ready s -> quiet w -> 400000000 <= f <= 510000000 ->
  exists h m l,
    SX1255Controller.SetRxFrequency s f w
    = (Ok tt, written RegFrflRx l (written RegFrfmRx m (written RegFrfhRx h w))).
Proof.
  intros (Hi & d & Hs & Hd) Hq Hf. unfold SX1255Controller.SetRxFrequency.
  rewrite Hi, in_band_check by assumption. cbn [negb].
  erewrite bind_ok by apply to_uint32_converted.
  unfold SX1255Controller.via_spi. rewrite Hs.
  do 3 eexists.
  erewrite bind_ok by (apply wrapping_ok, WriteRegister_quiet; auto).
  erewrite bind_ok
    by (apply wrapping_ok, WriteRegister_quiet; auto using quiet_written).
  apply wrapping_ok, WriteRegister_quiet; auto using quiet_written.
Qed.

Lemma SetTxFrequency_quiet s w f :
  ready s -> quiet w -> 400000000 <= f <= 510000000 ->
  exists h m l,
    SX1255Controller.SetTxFrequency s f w
    = (Ok tt, written RegFrflTx l (written RegFrfmTx m (written RegFrfhTx h w))).
Proof.
  intros (Hi & d & Hs & Hd) Hq Hf. unfold SX1255Controller.SetTxFrequency.
  rewrite Hi, in_band_check by assumption. cbn [negb].
  erewrite bind_ok by apply to_uint32_converted.
  unfold SX1255Controller.via_spi. rewrite Hs.
  do 3 eexists.
  erewrite bind_ok by (apply wrapping_ok, WriteRegister_quiet; auto).
  erewrite bind_ok
    by (apply wrapping_ok, WriteRegister_quiet; auto using quiet_written).
  apply wrapping_ok, WriteRegister_quiet; auto using quiet_written.
Qed.

Lemma SetRxFrequency_out_of_band s w f :
  ready s -> f < 400000000 \/ 510000000 < f ->
  SX1255Controller.SetRxFrequency s f w = (Err (ErrFrequencyRange f), w).
Proof.
  intros (Hi & _) Hf. unfold SX1255Controller.SetRxFrequency.
  rewrite Hi, out_of_band_check by assumption. reflexivity.
Qed.

Lemma SetTxFrequency_out_of_band s w f :
  ready s -> f < 400000000 \/ 510000000 < f ->
  SX1255Controller.SetTxFrequency s f w = (Err (ErrFrequencyRange f), w).
Proof.
  intros (Hi & _) Hf. unfold SX1255Controller.SetTxFrequency.
  rewrite Hi, out_of_band_check by assumption. reflexivity.
Qed.

Lemma rx_word_written_tx h m l w :
  rx_word (written RegFrflTx l (written RegFrfmTx m (written RegFrfhTx h w)))
  = rx_word w.
Proof.
  unfold rx_word. now rewrite !read_value_written_other by discriminate.
Qed.

Lemma tx_word_written_rx h m l w :
  tx_word (written RegFrflRx l (written RegFrfmRx m (written RegFrfhRx h w)))
  = tx_word w.
Proof.
  unfold tx_word. now rewrite !read_value_written_other by discriminate.
Qed.

Lemma roundtrip_bound_le c : 0 < c < 2 ^ 32 -> roundtrip_bound c <= 4096.
Proof.
  intros Hc. unfold roundtrip_bound. change (2 ^ 20) with 1048576.
  change (2 ^ 32) with 4294967296 in Hc.
  apply Z.lt_succ_r, Z.div_lt_upper_bound; lia.
Qed.

(** The word read back, re-tuned, is the same word. *)
Lemma retune_same_word c n n' got :
  2 ^ 20 < c -> got = (c * n + 2 ^ 19) / 2 ^ 20 ->
  - c <= 2 * (n' * c - got * 2 ^ 20) <= c ->
  n' = n.
Proof.
  intros Hc Hg Hn'. change (2 ^ 20) with 1048576 in *. change (2 ^ 19) with 524288 in *.
  pose proof (Z.div_mod (c * n + 524288) 1048576 ltac:(lia)).
  pose proof (Z.mod_pos_bound (c * n + 524288) 1048576 ltac:(lia)).
  destruct (Z_lt_ge_dec n' n) as [L|G].
  - exfalso. assert (c * (n' + 1) <= c * n) by (apply Z.mul_le_mono_nonneg_l; lia). lia.
  - destruct (Z_le_gt_dec n' n) as [L|G']; [lia|].
    exfalso. assert (c * (n + 1) <= c * n') by (apply Z.mul_le_mono_nonneg_l; lia). lia.
Qed.

End FrequencyPairs.

(** X1.  The TX frequency round trip: for every reference clock of at
    least 31875001 Hz and every frequency of the band, [SetTxFrequency]
    followed by [GetTxFrequency] returns [round(FXOSC * frf / 2^20)] for the
    tuning word [frf] now in the three TX registers, at most
    [ceil(FXOSC / 2^20)] Hz from the frequency asked for. *)
Theorem tx_frequency_roundtrip s w freqHz :
  ready s -> quiet w ->
  31875001 <= SX1255Controller.clockFreq s < 2 ^ 32 ->
  400000000 <= freqHz <= 510000000 ->
  exists w1 got w2,
    SX1255Controller.SetTxFrequency s freqHz w = (Ok tt, w1) /\
    0 < tx_word w1 < 2 ^ 24 /\
    - SX1255Controller.clockFreq s
      <= 2 * (tx_word w1 * SX1255Controller.clockFreq s - freqHz * 2 ^ 20)
      <= SX1255Controller.clockFreq s /\
    SX1255Controller.GetTxFrequency s w1 = (Ok got, w2) /\
    got = (SX1255Controller.clockFreq s * tx_word w1 + 2 ^ 19) / 2 ^ 20 /\
    Z.abs (got - freqHz) <= roundtrip_bound (SX1255Controller.clockFreq s).
Proof.
  intros Hr Hq Hc Hf. pose proof Hr as (Hi & d & Hs & Hd).
  set (c := SX1255Controller.clockFreq s) in *.
  destruct (frf_word_spec c freqHz) as (n & Hw & Hn); [lia|exact Hf|].
  pose proof (frf_24_bits c freqHz n Hc Hf Hn) as H24.
  pose proof (roundtrip_distance c freqHz n ltac:(lia) Hn) as Hdist.
  pose proof (roundtrip_bound_le c ltac:(lia)) as Hbound.
  set (w1 := written RegFrflTx (n mod 2 ^ 8)
               (written RegFrfmTx ((n / 2 ^ 8) mod 2 ^ 8)
                  (written RegFrfhTx (n / 2 ^ 16) w))).
  assert (Hword : tx_word w1 = n) by (apply word_of_written_tx; lia).
  assert (Hcn : c * n < 2 ^ 53).
  { change (2 ^ 53) with 9007199254740992. change (2 ^ 20) with 1048576 in Hn.
    change (2 ^ 32) with 4294967296 in Hc. lia. }
  exists w1, ((c * n + 2 ^ 19) / 2 ^ 20),
    (read_back RegFrflTx (read_back RegFrfmTx (read_back RegFrfhTx w1))).
  rewrite Hword. repeat split; try lia.
  - apply (SetTxFrequency_writes s d); auto. lia.
  - rewrite GetTxFrequency_quiet; auto using quiet_written.
    fold c. rewrite Hword, frf_hz_any by lia.
    rewrite converted_of_Z; [reflexivity|].
    change (2 ^ 32) with 4294967296 in *. lia.
Qed.

Lemma tx_frequency_roundtrip_witness :
  exists w1 got w2,
    SX1255Controller.SetTxFrequency (open_controller 32000000) 434000000 still_world
    = (Ok tt, w1) /\
    0 < tx_word w1 < 2 ^ 24 /\
    - 32000000 <= 2 * (tx_word w1 * 32000000 - 434000000 * 2 ^ 20) <= 32000000 /\
    SX1255Controller.GetTxFrequency (open_controller 32000000) w1 = (Ok got, w2) /\
    got = (32000000 * tx_word w1 + 2 ^ 19) / 2 ^ 20 /\
    Z.abs (got - 434000000) <= roundtrip_bound 32000000.
Proof.
  apply (tx_frequency_roundtrip (open_controller 32000000) still_world 434000000).
  - apply ready_open_controller.
  - apply quiet_still_world.
  - cbn. lia.
  - lia.
Defined.

(** X2.  The two synthesizers are tuned apart: setting the TX frequency,
    to any value and whether or not the call is refused, leaves what
    [GetRxFrequency] returns as it was, and setting the RX frequency leaves
    what [GetTxFrequency] returns. *)
Theorem rx_tx_frequencies_independent s w freqHz :
  ready s -> quiet w ->
  fst (SX1255Controller.GetRxFrequency s
         (snd (SX1255Controller.SetTxFrequency s freqHz w)))
  = fst (SX1255Controller.GetRxFrequency s w) /\
  fst (SX1255Controller.GetTxFrequency s
         (snd (SX1255Controller.SetRxFrequency s freqHz w)))
  = fst (SX1255Controller.GetTxFrequency s w).
Proof.
  intros Hr Hq.
  destruct (Z_lt_ge_dec freqHz 400000000) as [L|G].
  { rewrite SetTxFrequency_out_of_band, SetRxFrequency_out_of_band by (auto; lia).
    split; reflexivity. }
  destruct (Z_lt_ge_dec 510000000 freqHz) as [L|G'].
  { rewrite SetTxFrequency_out_of_band, SetRxFrequency_out_of_band by (auto; lia).
    split; reflexivity. }
  destruct (SetTxFrequency_quiet s w freqHz) as (h & m & l & E); auto; [lia|].
  destruct (SetRxFrequency_quiet s w freqHz) as (h' & m' & l' & E'); auto; [lia|].
  rewrite E, E'. cbn [snd].
  rewrite !GetRxFrequency_quiet, !GetTxFrequency_quiet by auto using quiet_written.
  cbn [fst]. rewrite rx_word_written_tx, tx_word_written_rx. split; reflexivity.
Qed.

Lemma rx_tx_frequencies_independent_witness :
  fst (SX1255Controller.GetRxFrequency (open_controller 32000000)
         (snd (SX1255Controller.SetTxFrequency (open_controller 32000000) 434000000
                 still_world)))
  = fst (SX1255Controller.GetRxFrequency (open_controller 32000000) still_world) /\
  fst (SX1255Controller.GetTxFrequency (open_controller 32000000)
         (snd (SX1255Controller.SetRxFrequency (open_controller 32000000) 434000000
                 still_world)))
  = fst (SX1255Controller.GetTxFrequency (open_controller 32000000) still_world).
Proof.
  apply (rx_tx_frequencies_independent (open_controller 32000000) still_world 434000000).
  - apply ready_open_controller.
  - apply quiet_still_world.
Defined.

(** X3.  Reading a frequency back and setting it again: for a reference
    clock of at least 31875001 Hz, when the value read back lies in the band
    it is accepted, it is tuned to the word already in the registers, and it
    is read back as itself.  At the default clock of 32 MHz the value read
    back always lies in the band. *)
Theorem rx_frequency_settles s w freqHz :
  ready s -> quiet w ->
  31875001 <= SX1255Controller.clockFreq s < 2 ^ 32 ->
  400000000 <= freqHz <= 510000000 ->
  exists w1 got w2,
    SX1255Controller.SetRxFrequency s freqHz w = (Ok tt, w1) /\
    SX1255Controller.GetRxFrequency s w1 = (Ok got, w2) /\
    (400000000 <= got <= 510000000 ->
     exists w3,
       SX1255Controller.SetRxFrequency s got w2 = (Ok tt, w3) /\
       rx_word w3 = rx_word w1 /\
       fst (SX1255Controller.GetRxFrequency s w3) = Ok got) /\
    (SX1255Controller.clockFreq s = 32000000 -> 400000000 <= got <= 510000000).
Proof.
  intros Hr Hq Hc Hf. pose proof Hr as (Hi & d & Hs & Hd).
  set (c := SX1255Controller.clockFreq s) in *.
  destruct (frf_word_spec c freqHz) as (n & Hw & Hn); [lia|exact Hf|].
  pose proof (frf_24_bits c freqHz n Hc Hf Hn) as H24.
  pose proof (roundtrip_distance c freqHz n ltac:(lia) Hn) as Hdist.
  pose proof (roundtrip_bound_le c ltac:(lia)) as Hbound.
  set (w1 := written RegFrflRx (n mod 2 ^ 8)
               (written RegFrfmRx ((n / 2 ^ 8) mod 2 ^ 8)
                  (written RegFrfhRx (n / 2 ^ 16) w))).
  assert (Hword : rx_word w1 = n) by (apply word_of_written_rx; lia).
  assert (Hcn : c * n < 2 ^ 53).
  { change (2 ^ 53) with 9007199254740992. change (2 ^ 20) with 1048576 in Hn.
    change (2 ^ 32) with 4294967296 in Hc. lia. }
  set (got := (c * n + 2 ^ 19) / 2 ^ 20) in *.
  assert (Hgot : 0 <= got < 2 ^ 32) by (change (2 ^ 32) with 4294967296 in *; lia).
  set (w2 := read_back RegFrflRx (read_back RegFrfmRx (read_back RegFrfhRx w1))).
  assert (Hq1 : quiet w1) by (unfold w1; auto using quiet_written).
  assert (Hq2 : quiet w2) by (unfold w2; auto using quiet_read_back).
  assert (Hget : forall w', quiet w' -> rx_word w' = n ->
                 fst (SX1255Controller.GetRxFrequency s w') = Ok got).
  { intros w' Hq' Hw'. rewrite GetRxFrequency_quiet by auto. cbn [fst].
    fold c. rewrite Hw', frf_hz_any by lia. now rewrite converted_of_Z. }
  exists w1, got, w2. split; [|split; [|split]].
  - apply (SetRxFrequency_writes s d); auto. lia.
  - rewrite GetRxFrequency_quiet by auto. fold c w2.
    rewrite Hword, frf_hz_any by lia. now rewrite converted_of_Z.
  - intros Hband.
    destruct (frf_word_spec c got) as (n' & Hw' & Hn'); [lia|exact Hband|].
    assert (n' = n).
    { apply (retune_same_word c n n' got); auto.
      change (2 ^ 20) with 1048576. lia. }
    subst n'.
    set (w3 := written RegFrflRx (n mod 2 ^ 8)
                 (written RegFrfmRx ((n / 2 ^ 8) mod 2 ^ 8)
                    (written RegFrfhRx (n / 2 ^ 16) w2))).
    assert (Hword3 : rx_word w3 = n) by (apply word_of_written_rx; lia).
    exists w3. split; [|split].
    + apply (SetRxFrequency_writes s d); auto. lia.
    + congruence.
    + apply Hget; [unfold w3; auto using quiet_written|assumption].
  - intros E. unfold got. rewrite E in *.
    change (2 ^ 20) with 1048576 in *. change (2 ^ 19) with 524288.
    pose proof (Z.div_mod (32000000 * n + 524288) 1048576 ltac:(lia)).
    pose proof (Z.mod_pos_bound (32000000 * n + 524288) 1048576 ltac:(lia)).
    lia.
Qed.

Lemma rx_frequency_settles_witness :
  exists w1 got w2,
    SX1255Controller.SetRxFrequency (open_controller 32000000) 434000000 still_world
    = (Ok tt, w1) /\
    SX1255Controller.GetRxFrequency (open_controller 32000000) w1 = (Ok got, w2) /\
    (400000000 <= got <= 510000000 ->
     exists w3,
       SX1255Controller.SetRxFrequency (open_controller 32000000) got w2 = (Ok tt, w3) /\
       rx_word w3 = rx_word w1 /\
       fst (SX1255Controller.GetRxFrequency (open_controller 32000000) w3) = Ok got) /\
    (32000000 = 32000000 -> 400000000 <= got <= 510000000).
Proof.
  apply (rx_frequency_settles (open_controller 32000000) still_world 434000000).
  - apply ready_open_controller.
  - apply quiet_still_world.
  - cbn. lia.
  - lia.
Defined.

(** At 36 MHz the value read back after setting 400 MHz lies below the
    band, and setting it again is refused. *)
Example read_back_below_the_band :
  fst ((SX1255Controller.SetRxFrequency (open_controller 36000000) 400000000 ;;;
        SX1255Controller.GetRxFrequency (open_controller 36000000)) still_world)
  = Ok 399999985
  /\ fst (SX1255Controller.SetRxFrequency (open_controller 36000000) 399999985 still_world)
     = Err (ErrFrequencyRange 399999985).
Proof. split; vm_compute; reflexivity. Qed.

(** X4.  What the frequency getters return for any content of the
    registers: with the 24-bit word [frf] that the three registers hold, most
    significant byte first, and a reference clock of at most [2^28] Hz, the
    result is the integer [floor((FXOSC * frf + 2^19) / 2^20)], the rounding
    of [FXOSC * frf / 2^20] half up; the float64 computation is exact. *)
Theorem frequency_read_back_exact s w :
  ready s -> quiet w ->
  0 < SX1255Controller.clockFreq s <= 2 ^ 28 ->
  SX1255Controller.GetRxFrequency s w
  = (Ok ((SX1255Controller.clockFreq s * rx_word w + 2 ^ 19) / 2 ^ 20),
     read_back RegFrflRx (read_back RegFrfmRx (read_back RegFrfhRx w))) /\
  SX1255Controller.GetTxFrequency s w
  = (Ok ((SX1255Controller.clockFreq s * tx_word w + 2 ^ 19) / 2 ^ 20),
     read_back RegFrflTx (read_back RegFrfmTx (read_back RegFrfhTx w))).
Proof.
  intros Hr Hq Hc. set (c := SX1255Controller.clockFreq s) in *.
  assert (B : forall n, 0 <= n < 2 ^ 24 ->
              c * n < 2 ^ 53 /\ 0 <= (c * n + 2 ^ 19) / 2 ^ 20 < 2 ^ 32).
  { intros n Hn. change (2 ^ 24) with 16777216 in Hn. change (2 ^ 28) with 268435456 in Hc.
    assert (0 <= c * n) by (apply Z.mul_nonneg_nonneg; lia).
    assert (c * n <= 268435456 * n) by (apply Z.mul_le_mono_nonneg_r; lia).
    change (2 ^ 53) with 9007199254740992. change (2 ^ 32) with 4294967296.
    change (2 ^ 19) with 524288. change (2 ^ 20) with 1048576.
    split; [lia|]. split; [apply Z.div_pos; lia|apply Z.div_lt_upper_bound; lia]. }
  assert (Hc32 : 0 < c < 2 ^ 32)
    by (change (2 ^ 28) with 268435456 in Hc; change (2 ^ 32) with 4294967296; lia).
  split.
  - rewrite GetRxFrequency_quiet by auto. fold c.
    destruct (B (rx_word w) (rx_word_range w)) as [B1 B2].
    pose proof (rx_word_range w).
    rewrite frf_hz_any, converted_of_Z by (auto; lia). reflexivity.
  - rewrite GetTxFrequency_quiet by auto. fold c.
    destruct (B (tx_word w) (tx_word_range w)) as [B1 B2].
    pose proof (tx_word_range w).
    rewrite frf_hz_any, converted_of_Z by (auto; lia). reflexivity.
Qed.

Lemma frequency_read_back_exact_witness :
  SX1255Controller.GetRxFrequency (open_controller 32000000) still_world
  = (Ok ((32000000 * rx_word still_world + 2 ^ 19) / 2 ^ 20),
     read_back RegFrflRx (read_back RegFrfmRx (read_back RegFrfhRx still_world))) /\
  SX1255Controller.GetTxFrequency (open_controller 32000000) still_world
  = (Ok ((32000000 * tx_word still_world + 2 ^ 19) / 2 ^ 20),
     read_back RegFrflTx (read_back RegFrfmTx (read_back RegFrfhTx still_world))).
Proof.
  apply (frequency_read_back_exact (open_controller 32000000) still_world).
  - apply ready_open_controller.
  - apply quiet_still_world.
  - cbn. lia.
Defined.

Section TornWrite.

Lemma failing_written a v w :
  failing (written a v w) = fault w (List.length (trace w) + 2).
Proof. unfold failing. rewrite trace_written, length_app. reflexivity. Qed.

Lemma read_value_log a ev w : read_value a (log ev w) = read_value a w.
Proof. reflexivity. Qed.

End TornWrite.

(** X5.  [SetRxFrequency] is three separate register writes, with no
    rollback: when the first goes through and the bus fails on the second,
    the call returns the error of the middle byte, the MSB register holds
    the byte of the new tuning word, and the MID and LSB registers hold what
    they held before; two frames have been shifted out. *)
Theorem rx_frequency_torn_write s w freqHz :
  ready s ->
  31875001 <= SX1255Controller.clockFreq s < 2 ^ 32 ->
  400000000 <= freqHz <= 510000000 ->
  fault w (List.length (trace w)) = false ->
  fault w (List.length (trace w) + 2) = true ->
  exists frf w',
    SX1255Controller.SetRxFrequency s freqHz w
    = (Err (Wrap "failed to write RX frequency mid"
              (Wrap "failed to write register"
                 (Wrap "SPI transfer failed" (ErrExternal "conn.Tx")))), w') /\
    - SX1255Controller.clockFreq s
      <= 2 * (frf * SX1255Controller.clockFreq s - freqHz * 2 ^ 20)
      <= SX1255Controller.clockFreq s /\
    read_value RegFrfhRx w' = frf / 2 ^ 16 /\
    read_value RegFrfmRx w' = read_value RegFrfmRx w /\
    read_value RegFrflRx w' = read_value RegFrflRx w /\
    frames (appended w w')
    = [[Z.lor RegFrfhRx 0x80; frf / 2 ^ 16];
       [Z.lor RegFrfmRx 0x80; (frf / 2 ^ 8) mod 2 ^ 8]].
Proof.
  intros (Hi & d & Hs & Hd) Hc Hf F0 F2.
  set (c := SX1255Controller.clockFreq s) in *.
  destruct (frf_word_spec c freqHz) as (n & Hw & Hn); [lia|exact Hf|].
  pose proof (frf_24_bits c freqHz n Hc Hf Hn) as H24.
  exists n, (log (EvTx [Z.lor RegFrfmRx 0x80; (n / 2 ^ 8) mod 2 ^ 8] None)
               (written RegFrfhRx (n / 2 ^ 16) w)).
  split; [|split; [exact Hn|split; [|split; [|split]]]].
  - unfold SX1255Controller.SetRxFrequency.
    rewrite Hi, in_band_check by assumption. cbn [negb]. fold c. rewrite Hw.
    erewrite bind_ok by (apply to_uint32_of_Z; change (2 ^ 24) with 16777216 in H24;
                         change (2 ^ 32) with 4294967296; lia).
    rewrite byte_msb, byte_mid, byte_lsb by lia.
    unfold SX1255Controller.via_spi. rewrite Hs.
    unfold bind at 1. unfold wrapping at 1.
    rewrite WriteRegister_step by assumption. unfold failing at 1. rewrite F0.
    unfold bind at 1. unfold wrapping at 1.
    rewrite WriteRegister_step by assumption. rewrite failing_written, F2.
    reflexivity.
  - rewrite read_value_log, read_value_written_same. apply uint8_small.
    change (2 ^ 24) with 16777216 in H24. change (2 ^ 16) with 65536.
    split; [apply Z.div_pos; lia|apply Z.div_lt_upper_bound; lia].
  - rewrite read_value_log. apply read_value_written_other. discriminate.
  - rewrite read_value_log. apply read_value_written_other. discriminate.
  - rewrite (appended_app _ _
               [EvTx [Z.lor RegFrfhRx 0x80; n / 2 ^ 16] (Some [0; 0]); EvSleep 10;
                EvTx [Z.lor RegFrfmRx 0x80; (n / 2 ^ 8) mod 2 ^ 8] None]);
      [reflexivity|].
    cbn [log trace]. rewrite trace_written, <- app_assoc. reflexivity.
Qed.

Lemma rx_frequency_torn_write_witness :
  exists frf w',
    SX1255Controller.SetRxFrequency (open_controller 32000000) 434000000 (faulty_world 2)
    = (Err (Wrap "failed to write RX frequency mid"
              (Wrap "failed to write register"
                 (Wrap "SPI transfer failed" (ErrExternal "conn.Tx")))), w') /\
    - 32000000 <= 2 * (frf * 32000000 - 434000000 * 2 ^ 20) <= 32000000 /\
    read_value RegFrfhRx w' = frf / 2 ^ 16 /\
    read_value RegFrfmRx w' = read_value RegFrfmRx (faulty_world 2) /\
    read_value RegFrflRx w' = read_value RegFrflRx (faulty_world 2) /\
    frames (appended (faulty_world 2) w')
    = [[Z.lor RegFrfhRx 0x80; frf / 2 ^ 16];
       [Z.lor RegFrfmRx 0x80; (frf / 2 ^ 8) mod 2 ^ 8]].
Proof.
  apply (rx_frequency_torn_write (open_controller 32000000) (faulty_world 2) 434000000).
  - apply ready_open_controller.
  - cbn. lia.
  - lia.
  - reflexivity.
  - reflexivity.
Defined.

(** ** Initialization, continued *)

Section InitializationAborted.

Lemma regs_write_all entries : forall w1 w2,
  regs w1 = regs w2 -> regs (write_all entries w1) = regs (write_all entries w2).
Proof.
  induction entries as [|[a v] rest IH]; intros w1 w2 H; [exact H|].
  cbn [write_all fold_left].
  fold (write_all rest (written a v w1)). fold (write_all rest (written a v w2)).
  apply IH. rewrite !regs_written. now rewrite H.
Qed.

Lemma fault_write_all entries w : fault (write_all entries w) = fault w.
Proof.
  revert w. induction entries as [|[a v] rest IH]; intros w; [reflexivity|].
  cbn [write_all fold_left]. fold (write_all rest (written a v w)). now rewrite IH.
Qed.

(** The loop stops at the first write the bus refuses. *)
Lemma write_defaults_abort d done e rest : forall w,
  SPIDevice.conn d <> None ->
  (forall j, (j < List.length done)%nat ->
             fault w (List.length (trace w) + 2 * j) = false) ->
  fault w (List.length (trace w) + 2 * List.length done) = true ->
  SX1255Controller.write_defaults d (done ++ e :: rest) w
  = (Err (Wrap "failed to write default value to register"
            (Wrap "failed to write register"
               (Wrap "SPI transfer failed" (ErrExternal "conn.Tx")))),
     log (EvTx [Z.lor (fst e) 0x80; snd e] None) (write_all done w)).
Proof.
  induction done as [|[a v] done IH]; intros w Hd Hq Hf.
  - destruct e as [a v]. cbn [app SX1255Controller.write_defaults].
    unfold bind, wrapping. rewrite WriteRegister_step by assumption.
    unfold failing. cbn [List.length] in Hf.
    rewrite Nat.mul_0_r, Nat.add_0_r in Hf. rewrite Hf. reflexivity.
  - cbn [app SX1255Controller.write_defaults].
    unfold bind at 1. unfold wrapping at 1.
    rewrite WriteRegister_step by assumption. unfold failing.
    pose proof (Hq 0%nat ltac:(cbn; lia)) as H0.
    rewrite Nat.mul_0_r, Nat.add_0_r in H0. rewrite H0.
    cbn [write_all fold_left]. fold (write_all done (written a v w)).
    apply IH; [assumption| |].
    + intros j Hj. rewrite trace_written, length_app. cbn [List.length fault written log set_regs].
      replace (List.length (trace w) + 2 + 2 * j)%nat
        with (List.length (trace w) + 2 * S j)%nat by lia.
      apply Hq. cbn [List.length]. lia.
    + rewrite trace_written, length_app. cbn [List.length fault written log set_regs].
      replace (List.length (trace w) + 2 + 2 * List.length done)%nat
        with (List.length (trace w) + 2 * List.length ((a, v) :: done))%nat
        by (cbn [List.length]; lia).
      exact Hf.
Qed.

End InitializationAborted.

(** X6.  [InitializeWithDefaults] stops at the first write that the bus
    refuses and undoes nothing: when the defaults come in the order
    [done ++ e :: rest] and the bus fails on the write of [e], the call
    returns the error of that write, the entries of [done] are in the
    registers, no entry of [rest] has been sent, and every register holds
    what the writes of [done] alone leave there. *)
Theorem initialize_with_defaults_aborts done e rest s w :
  ready s ->
  quiet_until (List.length (trace w) + 2 + 2 * List.length done) w ->
  fault w (List.length (trace w) + 2 + 2 * List.length done) = true ->
  exists w',
    SX1255Controller.InitializeWithDefaults (done ++ e :: rest) s w
    = (Err (Wrap "failed to write default value to register"
              (Wrap "failed to write register"
                 (Wrap "SPI transfer failed" (ErrExternal "conn.Tx")))), w') /\
    register_writes (appended w w')
    = map write_event done ++ [EvTx [Z.lor (fst e) 0x80; snd e] None] /\
    regs w' = regs (write_all done w).
Proof.
  intros Hr Hq Hf. pose proof Hr as (Hi & d & Hs & Hd).
  exists (log (EvTx [Z.lor (fst e) 0x80; snd e] None)
            (write_all done (read_back RegVersion w))).
  split; [|split].
  - unfold SX1255Controller.InitializeWithDefaults.
    assert (E : SX1255Controller.Initialize s w = (Ok tt, read_back RegVersion w)).
    { unfold SX1255Controller.Initialize, SX1255Controller.GetVersion.
      rewrite Hi. cbn [negb]. unfold SX1255Controller.via_spi. rewrite Hs.
      unfold bind, wrapping. rewrite ReadRegister_step by assumption.
      unfold failing. rewrite (Hq (List.length (trace w))) by lia. reflexivity. }
    erewrite bind_ok by exact E.
    unfold SX1255Controller.via_spi. rewrite Hs.
    apply write_defaults_abort; [assumption| |].
    + intros j Hj. rewrite trace_read_back, length_app. cbn [List.length].
      apply Hq. lia.
    + rewrite trace_read_back, length_app. cbn [List.length]. exact Hf.
  - rewrite (appended_app _ _
      ([EvTx [Z.land RegVersion 0x7F; 0x00] (Some [0; read_value RegVersion w]);
        EvSleep 10]
       ++ flat_map (fun e => [write_event e; EvSleep 10]) done
       ++ [EvTx [Z.lor (fst e) 0x80; snd e] None])).
    + rewrite !register_writes_app, register_writes_write_all.
      unfold register_writes. cbn [filter is_write_frame].
      rewrite write_address_bit. reflexivity.
    + cbn [log trace]. rewrite write_all_trace, trace_read_back.
      rewrite <- !app_assoc. reflexivity.
  - cbn [log regs]. apply regs_write_all. reflexivity.
Qed.

Lemma initialize_with_defaults_aborts_witness :
  exists w',
    SX1255Controller.InitializeWithDefaults
      (firstn 2 DefaultRegisterValues
       ++ nth 2 DefaultRegisterValues (0, 0) :: skipn 3 DefaultRegisterValues)
      (open_controller 32000000) (faulty_world 6)
    = (Err (Wrap "failed to write default value to register"
              (Wrap "failed to write register"
                 (Wrap "SPI transfer failed" (ErrExternal "conn.Tx")))), w') /\
    register_writes (appended (faulty_world 6) w')
    = map write_event (firstn 2 DefaultRegisterValues)
      ++ [EvTx [Z.lor (fst (nth 2 DefaultRegisterValues (0, 0))) 0x80;
                snd (nth 2 DefaultRegisterValues (0, 0))] None] /\
    regs w' = regs (write_all (firstn 2 DefaultRegisterValues) (faulty_world 6)).
Proof.
  apply (initialize_with_defaults_aborts
           (firstn 2 DefaultRegisterValues) (nth 2 DefaultRegisterValues (0, 0))
           (skipn 3 DefaultRegisterValues)
           (open_controller 32000000) (faulty_world 6)).
  - apply ready_open_controller.
  - intros i Hi. cbn in Hi. cbn [faulty_world fault].
    apply Nat.eqb_neq. lia.
  - reflexivity.
Defined.

(** ** Gains: the fields of RXFE1 and TXFE1 *)

Section GainFields.

Lemma below_spec n x : 0 <= x < Z.of_nat n -> In x (below n).
Proof.
  intros H. unfold below. apply in_map_iff. exists (Z.to_nat x).
  split; [lia|apply in_seq; lia].
Qed.

(** A check that holds on every element of [below n] holds below [n]. *)
Lemma forallb_below n (P : Z -> bool) x :
  forallb P (below n) = true -> 0 <= x < Z.of_nat n -> P x = true.
Proof.
  intros H Hx. rewrite forallb_forall in H. apply H, below_spec, Hx.
Qed.

Lemma read_value_read_back a b w : read_value a (read_back b w) = read_value a w.
Proof. reflexivity. Qed.

Lemma pga_clamp gainDb : (if gainDb >? 30 then 30 else gainDb) = Z.min gainDb 30.
Proof. rewrite Z.gtb_ltb. destruct (Z.ltb_spec 30 gainDb); lia. Qed.

Lemma SetPGAGain_quiet s w gainDb :
  ready s -> quiet w ->
  SX1255Controller.SetPGAGain s gainDb w
  = (Ok tt, written RegRxfe1
              (Z.lor (Z.land (read_value RegRxfe1 w) 0xE1)
                     (uint8 (Z.shiftl (Z.min gainDb 30 / 2) 1)))
              (read_back RegRxfe1 w)).
Proof.
  intros (Hi & d & Hs & Hd) Hq. unfold SX1255Controller.SetPGAGain.
  rewrite Hi. cbn [negb]. unfold SX1255Controller.via_spi. rewrite Hs, pga_clamp.
  erewrite bind_ok by (apply wrapping_ok, ReadRegister_quiet; auto).
  apply WriteRegister_quiet; auto using quiet_read_back.
Qed.

Lemma SetDACGain_quiet s w gainDb :
  ready s -> quiet w ->
  SX1255Controller.SetDACGain s gainDb w
  = (Ok tt, written RegTxfe1
              (Z.lor (Z.land (read_value RegTxfe1 w) 0x8F)
                     (uint8 (Z.shiftl (SX1255Controller.dacGainSetting gainDb) 4)))
              (read_back RegTxfe1 w)).
Proof.
  intros (Hi & d & Hs & Hd) Hq. unfold SX1255Controller.SetDACGain.
  rewrite Hi. cbn [negb]. unfold SX1255Controller.via_spi. rewrite Hs.
  erewrite bind_ok by (apply wrapping_ok, ReadRegister_quiet; auto).
  apply WriteRegister_quiet; auto using quiet_read_back.
Qed.

Lemma SetMixerGain_quiet s w gainDb :
  ready s -> quiet w ->
  SX1255Controller.SetMixerGain s gainDb w
  = (Ok tt, written RegTxfe1
              (Z.lor (Z.land (read_value RegTxfe1 w) 0xF0)
                     (Z.land (converted8 w (SX1255Controller.mixerGainRounded
                                              (SX1255Controller.clampMixerGain gainDb)))
                             0x0F))
              (read_back RegTxfe1 w)).
Proof.
  intros (Hi & d & Hs & Hd) Hq. unfold SX1255Controller.SetMixerGain.
  rewrite Hi. cbn [negb].
  erewrite bind_ok by reflexivity.
  unfold SX1255Controller.via_spi. rewrite Hs.
  erewrite bind_ok by (apply wrapping_ok, ReadRegister_quiet; auto).
  apply WriteRegister_quiet; auto using quiet_read_back.
Qed.

Lemma dacGainSetting_range gainDb : 0 <= SX1255Controller.dacGainSetting gainDb < 4.
Proof.
  unfold SX1255Controller.dacGainSetting.
  repeat match goal with |- context [if ?b then _ else _] => destruct b end;
    cbv; split; congruence.
Qed.

(** The fields of RXFE1, for every byte [r0], PGA setting [p] and LNA
    code [c]: each write keeps the bits of the other field and bit 0, and
    the two writes commute. *)
Lemma rxfe1_fields r0 p c :
  0 <= r0 < 256 -> 0 <= p < 16 -> 0 <= c < 7 ->
  let pga r := uint8 (Z.lor (Z.land r 0xE1) (uint8 (Z.shiftl p 1))) in
  let lna r := uint8 (Z.lor (Z.land r 0x1F) (uint8 (Z.shiftl c 5))) in
  Z.land (Z.shiftr (pga r0) 1) 0x0F = p /\
  Z.land (pga r0) 0xE1 = Z.land r0 0xE1 /\
  Z.shiftr (lna (pga r0)) 5 = c /\
  Z.land (Z.shiftr (lna (pga r0)) 1) 0x0F = p /\
  Z.testbit (lna (pga r0)) 0 = Z.testbit r0 0 /\
  pga (lna r0) = lna (pga r0).
Proof.
  intros Hr Hp Hc. cbv zeta.
  assert (T : forallb (fun r0 => forallb (fun p => forallb (fun c =>
    let pga r := uint8 (Z.lor (Z.land r 0xE1) (uint8 (Z.shiftl p 1))) in
    let lna r := uint8 (Z.lor (Z.land r 0x1F) (uint8 (Z.shiftl c 5))) in
    (Z.land (Z.shiftr (pga r0) 1) 0x0F =? p) &&
    (Z.land (pga r0) 0xE1 =? Z.land r0 0xE1) &&
    (Z.shiftr (lna (pga r0)) 5 =? c) &&
    (Z.land (Z.shiftr (lna (pga r0)) 1) 0x0F =? p) &&
    Bool.eqb (Z.testbit (lna (pga r0)) 0) (Z.testbit r0 0) &&
    (pga (lna r0) =? lna (pga r0))) (below 7)) (below 16)) (below 256) = true)
    by (vm_compute; reflexivity).
  pose proof (forallb_below _ _ r0 T ltac:(cbn; lia)) as T1. cbv beta in T1.
  pose proof (forallb_below _ _ p T1 ltac:(cbn; lia)) as T2. cbv beta in T2.
  pose proof (forallb_below _ _ c T2 ltac:(cbn; lia)) as T3. cbv beta zeta in T3.
  repeat rewrite andb_true_iff in T3.
  destruct T3 as (((((A & B) & C) & D) & E) & F).
  apply Z.eqb_eq in A, B, C, D, F. apply eqb_prop in E. auto 10.
Qed.

(** The fields of TXFE1, for every byte [r0], DAC code [c] and mixer
    setting [m]. *)
Lemma txfe1_fields r0 c m :
  0 <= r0 < 256 -> 0 <= c < 4 -> 0 <= m < 16 ->
  let dac r := uint8 (Z.lor (Z.land r 0x8F) (uint8 (Z.shiftl c 4))) in
  let mix r := uint8 (Z.lor (Z.land r 0xF0) m) in
  Z.land (Z.shiftr (dac r0) 4) 0x07 = c /\
  Z.land (dac r0) 0x8F = Z.land r0 0x8F /\
  Z.land (mix r0) 0x0F = m /\
  Z.land (mix r0) 0xF0 = Z.land r0 0xF0 /\
  Z.land (Z.shiftr (mix (dac r0)) 4) 0x07 = c /\
  Z.land (dac (mix r0)) 0x0F = m /\
  dac (mix r0) = mix (dac r0).
Proof.
  intros Hr Hc Hm. cbv zeta.
  assert (T : forallb (fun r0 => forallb (fun c => forallb (fun m =>
    let dac r := uint8 (Z.lor (Z.land r 0x8F) (uint8 (Z.shiftl c 4))) in
    let mix r := uint8 (Z.lor (Z.land r 0xF0) m) in
    (Z.land (Z.shiftr (dac r0) 4) 0x07 =? c) &&
    (Z.land (dac r0) 0x8F =? Z.land r0 0x8F) &&
    (Z.land (mix r0) 0x0F =? m) &&
    (Z.land (mix r0) 0xF0 =? Z.land r0 0xF0) &&
    (Z.land (Z.shiftr (mix (dac r0)) 4) 0x07 =? c) &&
    (Z.land (dac (mix r0)) 0x0F =? m) &&
    (dac (mix r0) =? mix (dac r0))) (below 16)) (below 4)) (below 256) = true)
    by (vm_compute; reflexivity).
  pose proof (forallb_below _ _ r0 T ltac:(cbn; lia)) as T1. cbv beta in T1.
  pose proof (forallb_below _ _ c T1 ltac:(cbn; lia)) as T2. cbv beta in T2.
  pose proof (forallb_below _ _ m T2 ltac:(cbn; lia)) as T3. cbv beta zeta in T3.
  repeat rewrite andb_true_iff in T3.
  destruct T3 as ((((((A & B) & C) & D) & E) & F) & G).
  apply Z.eqb_eq in A, B, C, D, E, F, G. auto 10.
Qed.

Lemma land_0F_range m : 0 <= Z.land m 0x0F < 16.
Proof.
  change 0x0F with (Z.ones 4). rewrite Z.land_ones by lia. apply Z.mod_pos_bound. lia.
Qed.

(** The mixer setting of every half-decibel step of the range. *)
Lemma mixer_steps h w :
  -75 <= h <= -15 ->
  converted8 w (SX1255Controller.mixerGainRounded
                  (SX1255Controller.clampMixerGain (float32_of_halves h)))
  = (h + 77) / 4.
Proof.
  intros Hh.
  assert (T : forallb (fun k =>
    match uint8_of_float64 (SX1255Controller.mixerGainRounded
            (SX1255Controller.clampMixerGain (float32_of_halves (k - 75)))) with
    | Some v => v =? (k - 75 + 77) / 4
    | None => false
    end) (below 61) = true) by (vm_compute; reflexivity).
  pose proof (forallb_below _ _ (h + 75) T ltac:(cbn; lia)) as T1. cbv beta in T1.
  replace (h + 75 - 75) with h in T1 by lia.
  unfold converted8.
  destruct (uint8_of_float64 _) as [v|]; [|discriminate].
  now apply Z.eqb_eq in T1.
Qed.

End GainFields.

(** X7.  The PGA gain: [SetPGAGain] clamps the gain to 30 dB, puts half
    of it in bits 4:1 of RXFE1 and keeps bits 7:5 and bit 0.  It composes
    with [SetLNAGain] on the same register: after both, in either order, the
    register holds the LNA code in bits 7:5, the PGA setting in bits 4:1 and
    its old bit 0. *)
Theorem pga_gain_field s w pgaDb lnaDb :
  ready s -> quiet w -> 0 <= pgaDb < 256 ->
  exists w1 w2,
    SX1255Controller.SetPGAGain s pgaDb w = (Ok tt, w1) /\
    Z.land (Z.shiftr (read_value RegRxfe1 w1) 1) 0x0F = Z.min pgaDb 30 / 2 /\
    Z.land (read_value RegRxfe1 w1) 0xE1 = Z.land (read_value RegRxfe1 w) 0xE1 /\
    SX1255Controller.SetLNAGain s lnaDb w1 = (Ok tt, w2) /\
    Z.shiftr (read_value RegRxfe1 w2) 5 = SX1255Controller.lnaGainSetting lnaDb /\
    Z.land (Z.shiftr (read_value RegRxfe1 w2) 1) 0x0F = Z.min pgaDb 30 / 2 /\
    Z.testbit (read_value RegRxfe1 w2) 0 = Z.testbit (read_value RegRxfe1 w) 0 /\
    read_value RegRxfe1
      (snd ((SX1255Controller.SetLNAGain s lnaDb ;;;
             SX1255Controller.SetPGAGain s pgaDb) w))
    = read_value RegRxfe1 w2.
Proof.
  intros Hr Hq Hg.
  set (r0 := read_value RegRxfe1 w).
  set (p := Z.min pgaDb 30 / 2).
  set (c := SX1255Controller.lnaGainSetting lnaDb).
  assert (Hp : 0 <= p < 16).
  { unfold p. split; [apply Z.div_pos; lia|apply Z.div_lt_upper_bound; lia]. }
  assert (Hc : 0 <= c < 7) by (pose proof (lnaGainSetting_range lnaDb); unfold c; lia).
  destruct (rxfe1_fields r0 p c (read_value_byte _ _) Hp Hc)
    as (A & B & C & D & E & F).
  set (w1 := written RegRxfe1 (Z.lor (Z.land r0 0xE1) (uint8 (Z.shiftl p 1)))
               (read_back RegRxfe1 w)).
  set (w2 := written RegRxfe1
               (Z.lor (Z.land (read_value RegRxfe1 w1) 0x1F) (uint8 (Z.shiftl c 5)))
               (read_back RegRxfe1 w1)).
  assert (R1 : read_value RegRxfe1 w1
               = uint8 (Z.lor (Z.land r0 0xE1) (uint8 (Z.shiftl p 1))))
    by apply read_value_written_same.
  assert (R2 : read_value RegRxfe1 w2
               = uint8 (Z.lor (Z.land (uint8 (Z.lor (Z.land r0 0xE1) (uint8 (Z.shiftl p 1))))
                                      0x1F) (uint8 (Z.shiftl c 5))))
    by (unfold w2; rewrite read_value_written_same, R1; reflexivity).
  assert (Hq1 : quiet w1) by (unfold w1; auto using quiet_written, quiet_read_back).
  exists w1, w2. rewrite R1, R2.
  split; [apply SetPGAGain_quiet; assumption|].
  split; [exact A|]. split; [exact B|].
  split; [apply SetLNAGain_quiet; assumption|].
  split; [exact C|]. split; [exact D|]. split; [exact E|].
  erewrite bind_ok by (apply SetLNAGain_quiet; assumption).
  rewrite SetPGAGain_quiet by (auto using quiet_written, quiet_read_back).
  cbn [snd]. rewrite !read_value_written_same. fold r0 c p. exact F.
Qed.

Lemma pga_gain_field_witness :
  exists w1 w2,
    SX1255Controller.SetPGAGain (open_controller 32000000) 31 still_world = (Ok tt, w1) /\
    Z.land (Z.shiftr (read_value RegRxfe1 w1) 1) 0x0F = Z.min 31 30 / 2 /\
    Z.land (read_value RegRxfe1 w1) 0xE1 = Z.land (read_value RegRxfe1 still_world) 0xE1 /\
    SX1255Controller.SetLNAGain (open_controller 32000000) 40 w1 = (Ok tt, w2) /\
    Z.shiftr (read_value RegRxfe1 w2) 5 = SX1255Controller.lnaGainSetting 40 /\
    Z.land (Z.shiftr (read_value RegRxfe1 w2) 1) 0x0F = Z.min 31 30 / 2 /\
    Z.testbit (read_value RegRxfe1 w2) 0 = Z.testbit (read_value RegRxfe1 still_world) 0 /\
    read_value RegRxfe1
      (snd ((SX1255Controller.SetLNAGain (open_controller 32000000) 40 ;;;
             SX1255Controller.SetPGAGain (open_controller 32000000) 31) still_world))
    = read_value RegRxfe1 w2.
Proof.
  apply (pga_gain_field (open_controller 32000000) still_world 31 40).
  - apply ready_open_controller.
  - apply quiet_still_world.
  - lia.
Defined.

(** X8.  The DAC gain: [SetDACGain] puts the code of the gain in bits 6:4
    of TXFE1 and keeps bit 7 and bits 3:0; 0, -3, -6 and -9 dB have the codes
    3, 2, 1 and 0, and every other value is taken as -3 dB, without an
    error. *)
Theorem dac_gain_field s w gainDb :
  ready s -> quiet w ->
  exists w1,
    SX1255Controller.SetDACGain s gainDb w = (Ok tt, w1) /\
    Z.land (Z.shiftr (read_value RegTxfe1 w1) 4) 0x07
    = SX1255Controller.dacGainSetting gainDb /\
    Z.land (read_value RegTxfe1 w1) 0x8F = Z.land (read_value RegTxfe1 w) 0x8F /\
    (gainDb <> 0 -> gainDb <> -6 -> gainDb <> -9 ->
     SX1255Controller.dacGainSetting gainDb = DacGainMinus3) /\
    SX1255Controller.dacGainSetting 0 = 3 /\
    SX1255Controller.dacGainSetting (-3) = 2 /\
    SX1255Controller.dacGainSetting (-6) = 1 /\
    SX1255Controller.dacGainSetting (-9) = 0.
Proof.
  intros Hr Hq.
  destruct (txfe1_fields (read_value RegTxfe1 w) (SX1255Controller.dacGainSetting gainDb) 0
              (read_value_byte _ _) (dacGainSetting_range gainDb) ltac:(lia))
    as (A & B & _).
  eexists. split; [apply SetDACGain_quiet; assumption|].
  rewrite read_value_written_same.
  split; [exact A|]. split; [exact B|].
  split; [|repeat split].
  intros H0 H6 H9. unfold SX1255Controller.dacGainSetting.
  rewrite (proj2 (Z.eqb_neq _ _) H0), (proj2 (Z.eqb_neq _ _) H6),
    (proj2 (Z.eqb_neq _ _) H9).
  destruct (gainDb =? -3); reflexivity.
Qed.

Lemma dac_gain_field_witness :
  exists w1,
    SX1255Controller.SetDACGain (open_controller 32000000) (-12) still_world = (Ok tt, w1) /\
    Z.land (Z.shiftr (read_value RegTxfe1 w1) 4) 0x07
    = SX1255Controller.dacGainSetting (-12) /\
    Z.land (read_value RegTxfe1 w1) 0x8F = Z.land (read_value RegTxfe1 still_world) 0x8F /\
    (-12 <> 0 -> -12 <> -6 -> -12 <> -9 ->
     SX1255Controller.dacGainSetting (-12) = DacGainMinus3) /\
    SX1255Controller.dacGainSetting 0 = 3 /\
    SX1255Controller.dacGainSetting (-3) = 2 /\
    SX1255Controller.dacGainSetting (-6) = 1 /\
    SX1255Controller.dacGainSetting (-9) = 0.
Proof.
  apply (dac_gain_field (open_controller 32000000) still_world (-12)).
  - apply ready_open_controller.
  - apply quiet_still_world.
Defined.

(** X9.  The mixer gain: for every float32 argument, NaN and the
    infinities included, [SetMixerGain] succeeds on a working bus, writes
    bits 3:0 of TXFE1 and keeps bits 7:4, so the DAC field set before is
    still there.  An argument below -37.5 gives the setting 0, one above
    -7.5 the setting 15, and the half-decibel step [h / 2] of the range gives
    [floor((h + 77) / 4)]: the nearest 2 dB step above -37.5 dB, a tie
    going up. *)
Theorem mixer_gain_field s w gainDb dacDb :
  ready s -> quiet w ->
  exists w1 w2,
    SX1255Controller.SetMixerGain s gainDb w = (Ok tt, w1) /\
    Z.land (read_value RegTxfe1 w1) 0xF0 = Z.land (read_value RegTxfe1 w) 0xF0 /\
    (SFltb gainDb (float32_of_halves (-75)) = true ->
     Z.land (read_value RegTxfe1 w1) 0x0F = 0) /\
    (SFltb gainDb (float32_of_halves (-75)) = false ->
     SFltb (float32_of_halves (-15)) gainDb = true ->
     Z.land (read_value RegTxfe1 w1) 0x0F = 15) /\
    (forall h, -75 <= h <= -15 -> gainDb = float32_of_halves h ->
     Z.land (read_value RegTxfe1 w1) 0x0F = (h + 77) / 4) /\
    SX1255Controller.SetMixerGain s gainDb
      (snd (SX1255Controller.SetDACGain s dacDb w)) = (Ok tt, w2) /\
    Z.land (Z.shiftr (read_value RegTxfe1 w2) 4) 0x07
    = SX1255Controller.dacGainSetting dacDb /\
    Z.land (read_value RegTxfe1 w2) 0x0F = Z.land (read_value RegTxfe1 w1) 0x0F.
Proof.
  intros Hr Hq.
  set (x := SX1255Controller.mixerGainRounded (SX1255Controller.clampMixerGain gainDb)).
  set (m := Z.land (converted8 w x) 0x0F).
  destruct (txfe1_fields (read_value RegTxfe1 w) (SX1255Controller.dacGainSetting dacDb) m
              (read_value_byte _ _) (dacGainSetting_range dacDb) (land_0F_range _))
    as (_ & _ & C & D & E & _).
  rewrite (SetDACGain_quiet s w dacDb Hr Hq). cbn [snd].
  rewrite !SetMixerGain_quiet by auto using quiet_written, quiet_read_back.
  do 2 eexists. split; [reflexivity|].
  rewrite !read_value_written_same.
  fold x m.
  change (converted8 (written RegTxfe1
            (Z.lor (Z.land (read_value RegTxfe1 w) 0x8F)
               (uint8 (Z.shiftl (SX1255Controller.dacGainSetting dacDb) 4)))
            (read_back RegTxfe1 w)) x) with (converted8 w x).
  fold m. rewrite C, D.
  split; [reflexivity|].
  split; [|split; [|split; [|split; [reflexivity|split; [exact E|]]]]].
  - intros L. unfold m, x, SX1255Controller.clampMixerGain. rewrite L.
    reflexivity.
  - intros L G'. unfold m, x, SX1255Controller.clampMixerGain. rewrite L, G'.
    reflexivity.
  - intros h Hh ->. unfold m, x. rewrite mixer_steps by assumption.
    change 0x0F with (Z.ones 4). rewrite Z.land_ones by lia.
    apply Z.mod_small.
    split; [apply Z.div_pos; lia|apply Z.div_lt_upper_bound; lia].
  - destruct (txfe1_fields (uint8 (Z.lor (Z.land (read_value RegTxfe1 w) 0x8F)
                 (uint8 (Z.shiftl (SX1255Controller.dacGainSetting dacDb) 4))))
                0 m (uint8_range _) ltac:(lia) (land_0F_range _))
      as (_ & _ & C' & _).
    exact C'.
Qed.

Lemma mixer_gain_field_witness :
  exists w1 w2,
    SX1255Controller.SetMixerGain (open_controller 32000000) (float32_of_halves (-41))
      still_world = (Ok tt, w1) /\
    Z.land (read_value RegTxfe1 w1) 0xF0 = Z.land (read_value RegTxfe1 still_world) 0xF0 /\
    (SFltb (float32_of_halves (-41)) (float32_of_halves (-75)) = true ->
     Z.land (read_value RegTxfe1 w1) 0x0F = 0) /\
    (SFltb (float32_of_halves (-41)) (float32_of_halves (-75)) = false ->
     SFltb (float32_of_halves (-15)) (float32_of_halves (-41)) = true ->
     Z.land (read_value RegTxfe1 w1) 0x0F = 15) /\
    (forall h, -75 <= h <= -15 -> float32_of_halves (-41) = float32_of_halves h ->
     Z.land (read_value RegTxfe1 w1) 0x0F = (h + 77) / 4) /\
    SX1255Controller.SetMixerGain (open_controller 32000000) (float32_of_halves (-41))
      (snd (SX1255Controller.SetDACGain (open_controller 32000000) (-6) still_world))
    = (Ok tt, w2) /\
    Z.land (Z.shiftr (read_value RegTxfe1 w2) 4) 0x07
    = SX1255Controller.dacGainSetting (-6) /\
    Z.land (read_value RegTxfe1 w2) 0x0F = Z.land (read_value RegTxfe1 w1) 0x0F.
Proof.
  apply (mixer_gain_field (open_controller 32000000) still_world
           (float32_of_halves (-41)) (-6)).
  - apply ready_open_controller.
  - apply quiet_still_world.
Defined.

(** ** The MODE register, continued *)

Section ModeRegister.

Lemma EnablePA_quiet s w enable :
  ready s -> quiet w ->
  SX1255Controller.EnablePA s enable w
  = (Ok tt, written RegMode
              (SX1255Controller.set_or_clear enable (read_value RegMode w) ModeBitDriverEnable)
              (read_back RegMode w)).
Proof.
  intros (Hi & d & Hs & Hd) Hq. unfold SX1255Controller.EnablePA.
  rewrite Hi. cbn [negb]. unfold SX1255Controller.via_spi. rewrite Hs.
  erewrite bind_ok by (apply ReadRegister_quiet; auto).
  apply WriteRegister_quiet; auto using quiet_read_back.
Qed.

(** The three read-modify-writes on a byte [m], in the two orders. *)
Lemma mode_rmw_table m rx tx pa :
  0 <= m < 256 ->
  let rmw b bit r := uint8 (SX1255Controller.set_or_clear b r bit) in
  rmw pa ModeBitDriverEnable (rmw tx ModeBitTxEnable (rmw rx ModeBitRxEnable m))
  = Z.land m 0xF1 + 2 * Z.b2z rx + 4 * Z.b2z tx + 8 * Z.b2z pa /\
  rmw rx ModeBitRxEnable (rmw tx ModeBitTxEnable (rmw pa ModeBitDriverEnable m))
  = Z.land m 0xF1 + 2 * Z.b2z rx + 4 * Z.b2z tx + 8 * Z.b2z pa.
Proof.
  intros Hm. cbv zeta.
  assert (T : forallb (fun m => forallb (fun rx => forallb (fun tx => forallb (fun pa =>
    let rmw b bit r := uint8 (SX1255Controller.set_or_clear b r bit) in
    (rmw pa ModeBitDriverEnable (rmw tx ModeBitTxEnable (rmw rx ModeBitRxEnable m))
     =? Z.land m 0xF1 + 2 * Z.b2z rx + 4 * Z.b2z tx + 8 * Z.b2z pa) &&
    (rmw rx ModeBitRxEnable (rmw tx ModeBitTxEnable (rmw pa ModeBitDriverEnable m))
     =? Z.land m 0xF1 + 2 * Z.b2z rx + 4 * Z.b2z tx + 8 * Z.b2z pa))
    [false; true]) [false; true]) [false; true]) (below 256) = true)
    by (vm_compute; reflexivity).
  pose proof (forallb_below _ _ m T ltac:(cbn; lia)) as T1. cbv beta in T1.
  rewrite forallb_forall in T1.
  specialize (T1 rx ltac:(destruct rx; cbn; auto)). cbv beta in T1.
  rewrite forallb_forall in T1.
  specialize (T1 tx ltac:(destruct tx; cbn; auto)). cbv beta in T1.
  rewrite forallb_forall in T1.
  specialize (T1 pa ltac:(destruct pa; cbn; auto)). cbv beta zeta in T1.
  apply andb_true_iff in T1. destruct T1 as [A B].
  apply Z.eqb_eq in A, B. split; assumption.
Qed.

Lemma SetMode_quiet s w mode :
  ready s -> quiet w ->
  SX1255Controller.SetMode s mode w = (Ok tt, written RegMode mode w).
Proof.
  intros (Hi & d & Hs & Hd) Hq. unfold SX1255Controller.SetMode.
  rewrite Hi. cbn [negb]. unfold SX1255Controller.via_spi. rewrite Hs.
  apply WriteRegister_quiet; auto.
Qed.

Lemma GetMode_quiet s w :
  ready s -> quiet w ->
  SX1255Controller.GetMode s w = (Ok (read_value RegMode w), read_back RegMode w).
Proof.
  intros (Hi & d & Hs & Hd) Hq. unfold SX1255Controller.GetMode.
  rewrite Hi. cbn [negb]. unfold SX1255Controller.via_spi. rewrite Hs.
  apply ReadRegister_quiet; auto.
Qed.

Lemma modeValue_cases name v :
  HardwarePlugin.modeValue name = Some v ->
  (name = "sleep" /\ v = ModeSleep) \/ (name = "standby" /\ v = ModeStandby) \/
  (name = "rx" /\ v = ModeRx) \/ (name = "tx" /\ v = ModeTx) \/
  (name = "tx_full" /\ v = ModeTxFull) \/ (name = "full_duplex" /\ v = ModeFullDuplex).
Proof.
  unfold HardwarePlugin.modeValue. intros H.
  repeat match type of H with
         | (if String.eqb ?a ?b then _ else _) = _ =>
             destruct (String.eqb_spec a b) as [->|]
         end;
    try discriminate; inversion H; subst; auto 10.
Qed.

End ModeRegister.

(** X10.  The three path enables together: [EnableRx], [EnableTx] and
    [EnablePA], called in this order or in the reverse order, leave the MODE
    register with bit 1, bit 2 and bit 3 equal to the three flags and with
    bit 0 and bits 7:4 as they were.  From standby, enabling all three gives
    the full-duplex mode, and enabling TX and PA the TX mode with PA. *)
Theorem enables_compose s w rx tx pa :
  ready s -> quiet w ->
  exists w3 w3',
    (SX1255Controller.EnableRx s rx ;;; SX1255Controller.EnableTx s tx ;;;
     SX1255Controller.EnablePA s pa) w = (Ok tt, w3) /\
    (SX1255Controller.EnablePA s pa ;;; SX1255Controller.EnableTx s tx ;;;
     SX1255Controller.EnableRx s rx) w = (Ok tt, w3') /\
    read_value RegMode w3
    = Z.land (read_value RegMode w) 0xF1 + 2 * Z.b2z rx + 4 * Z.b2z tx + 8 * Z.b2z pa /\
    read_value RegMode w3' = read_value RegMode w3 /\
    (read_value RegMode w = ModeStandby -> rx = true -> tx = true -> pa = true ->
     read_value RegMode w3 = ModeFullDuplex) /\
    (read_value RegMode w = ModeStandby -> rx = false -> tx = true -> pa = true ->
     read_value RegMode w3 = ModeTxFull).
Proof.
  intros Hr Hq.
  destruct (mode_rmw_table (read_value RegMode w) rx tx pa (read_value_byte _ _))
    as [A B].
  assert (S1 : forall b bit w0, quiet w0 ->
            quiet (written RegMode (SX1255Controller.set_or_clear b (read_value RegMode w0) bit)
                     (read_back RegMode w0)))
    by (intros; auto using quiet_written, quiet_read_back).
  do 2 eexists.
  split.
  { erewrite bind_ok by (apply EnableRx_quiet; auto).
    erewrite bind_ok by (apply EnableTx_quiet; auto).
    apply EnablePA_quiet; auto. }
  split.
  { erewrite bind_ok by (apply EnablePA_quiet; auto).
    erewrite bind_ok by (apply EnableTx_quiet; auto).
    apply EnableRx_quiet; auto. }
  rewrite !read_value_written_same.
  split; [exact A|]. split; [congruence|].
  split.
  - intros E -> -> ->. rewrite A, E. reflexivity.
  - intros E -> -> ->. rewrite A, E. reflexivity.
Qed.

Lemma enables_compose_witness :
  exists w3 w3',
    (SX1255Controller.EnableRx (open_controller 32000000) true ;;;
     SX1255Controller.EnableTx (open_controller 32000000) false ;;;
     SX1255Controller.EnablePA (open_controller 32000000) true) still_world = (Ok tt, w3) /\
    (SX1255Controller.EnablePA (open_controller 32000000) true ;;;
     SX1255Controller.EnableTx (open_controller 32000000) false ;;;
     SX1255Controller.EnableRx (open_controller 32000000) true) still_world = (Ok tt, w3') /\
    read_value RegMode w3
    = Z.land (read_value RegMode still_world) 0xF1
      + 2 * Z.b2z true + 4 * Z.b2z false + 8 * Z.b2z true /\
    read_value RegMode w3' = read_value RegMode w3 /\
    (read_value RegMode still_world = ModeStandby -> true = true -> false = true ->
     true = true -> read_value RegMode w3 = ModeFullDuplex) /\
    (read_value RegMode still_world = ModeStandby -> true = false -> false = true ->
     true = true -> read_value RegMode w3 = ModeTxFull).
Proof.
  apply (enables_compose (open_controller 32000000) still_world true false true).
  - apply ready_open_controller.
  - apply quiet_still_world.
Defined.

(** X11.  The mode names of the HTTP interface: a name that
    [handleSetMode] accepts selects a value below 16 which, written by
    [SetMode] and read by [GetMode], comes back unchanged and is shown by
    [handleGetMode] under the same name; and every value that
    [handleGetMode] does not show as "unknown" is the value its name
    selects. *)
Theorem mode_names_roundtrip name v s w u :
  HardwarePlugin.modeValue name = Some v ->
  ready s -> quiet w ->
  0 <= v < 16 /\
  HardwarePlugin.modeName v = name /\
  (exists w1 w2,
     SX1255Controller.SetMode s v w = (Ok tt, w1) /\
     SX1255Controller.GetMode s w1 = (Ok v, w2)) /\
  (HardwarePlugin.modeName u = "unknown" \/
   HardwarePlugin.modeValue (HardwarePlugin.modeName u) = Some u) /\
  HardwarePlugin.modeValue "unknown" = None.
Proof.
  intros Hv Hr Hq.
  assert (R : 0 <= v < 16 /\ HardwarePlugin.modeName v = name).
  { destruct (modeValue_cases name v Hv)
      as [[-> ->]|[[-> ->]|[[-> ->]|[[-> ->]|[[-> ->]|[-> ->]]]]]];
      (split; [cbv; split; congruence|reflexivity]). }
  destruct R as [R1 R2]. split; [exact R1|]. split; [exact R2|].
  split; [|split; [|reflexivity]].
  - do 2 eexists. split; [apply SetMode_quiet; assumption|].
    rewrite GetMode_quiet by auto using quiet_written.
    rewrite read_value_written_same, uint8_small by lia. reflexivity.
  - unfold HardwarePlugin.modeName.
    repeat match goal with
           | |- context [if ?a =? ?b then _ else _] =>
               destruct (Z.eqb_spec a b) as [->|]
           end; auto.
Qed.

Lemma mode_names_roundtrip_witness :
  0 <= ModeTxFull < 16 /\
  HardwarePlugin.modeName ModeTxFull = "tx_full" /\
  (exists w1 w2,
     SX1255Controller.SetMode (open_controller 32000000) ModeTxFull still_world
     = (Ok tt, w1) /\
     SX1255Controller.GetMode (open_controller 32000000) w1 = (Ok ModeTxFull, w2)) /\
  (HardwarePlugin.modeName 7 = "unknown" \/
   HardwarePlugin.modeValue (HardwarePlugin.modeName 7) = Some 7) /\
  HardwarePlugin.modeValue "unknown" = None.
Proof.
  apply (mode_names_roundtrip "tx_full" ModeTxFull (open_controller 32000000) still_world 7).
  - reflexivity.
  - apply ready_open_controller.
  - apply quiet_still_world.
Defined.

(** ** Register access, continued *)

Section Aliases.

Lemma lor_80_idem a : Z.lor (Z.lor a 0x80) 0x80 = Z.lor a 0x80.
Proof. rewrite <- Z.lor_assoc. reflexivity. Qed.

Lemma read_value_alias a b w :
  Z.land a 0x7F = Z.land b 0x7F -> read_value a w = read_value b w.
Proof. intros H. unfold read_value. now rewrite H. Qed.

End Aliases.

(** X12.  Only the low seven bits of an address reach the chip: reading
    at [addr] is reading at [addr & 0x7F], and writing at [addr] is writing
    at [addr | 0x80], frame for frame.  On a working bus a byte written is
    the byte read back, at the address written and at every address with the
    same low seven bits, and a read at any other address returns what was
    there before. *)
Theorem register_address_aliases d addr other value w :
  SPIDevice.conn d <> None -> quiet w -> 0 <= value < 256 ->
  SPIDevice.ReadRegister d addr w = SPIDevice.ReadRegister d (Z.land addr 0x7F) w /\
  SPIDevice.WriteRegister d addr value w
  = SPIDevice.WriteRegister d (Z.lor addr 0x80) value w /\
  fst ((SPIDevice.WriteRegister d addr value ;;; SPIDevice.ReadRegister d addr) w)
  = Ok value /\
  (Z.land other 0x7F = Z.land addr 0x7F ->
   fst ((SPIDevice.WriteRegister d addr value ;;; SPIDevice.ReadRegister d other) w)
   = Ok value) /\
  (Z.land other 0x7F <> Z.land addr 0x7F ->
   fst ((SPIDevice.WriteRegister d addr value ;;; SPIDevice.ReadRegister d other) w)
   = fst (SPIDevice.ReadRegister d other w)).
Proof.
  intros Hd Hq Hv.
  assert (W : forall o, fst ((SPIDevice.WriteRegister d addr value ;;;
                              SPIDevice.ReadRegister d o) w)
                        = Ok (read_value o (written addr value w))).
  { intros o. erewrite bind_ok by (apply WriteRegister_quiet; auto).
    rewrite ReadRegister_quiet by auto using quiet_written. reflexivity. }
  split; [|split; [|split; [|split]]].
  - unfold SPIDevice.ReadRegister. now rewrite land_7F_idem.
  - unfold SPIDevice.WriteRegister. now rewrite lor_80_idem.
  - rewrite W, read_value_written_same, uint8_small by assumption. reflexivity.
  - intros E. rewrite W, (read_value_alias other addr) by assumption.
    rewrite read_value_written_same, uint8_small by assumption. reflexivity.
  - intros N. rewrite W, read_value_written_other by assumption.
    rewrite ReadRegister_quiet by auto. reflexivity.
Qed.

Lemma register_address_aliases_witness :
  SPIDevice.ReadRegister open_transport 0x8C still_world
  = SPIDevice.ReadRegister open_transport (Z.land 0x8C 0x7F) still_world /\
  SPIDevice.WriteRegister open_transport 0x8C 0x55 still_world
  = SPIDevice.WriteRegister open_transport (Z.lor 0x8C 0x80) 0x55 still_world /\
  fst ((SPIDevice.WriteRegister open_transport 0x8C 0x55 ;;;
        SPIDevice.ReadRegister open_transport 0x8C) still_world)
  = Ok 0x55 /\
  (Z.land RegRxfe1 0x7F = Z.land 0x8C 0x7F ->
   fst ((SPIDevice.WriteRegister open_transport 0x8C 0x55 ;;;
         SPIDevice.ReadRegister open_transport RegRxfe1) still_world)
   = Ok 0x55) /\
  (Z.land RegRxfe1 0x7F <> Z.land 0x8C 0x7F ->
   fst ((SPIDevice.WriteRegister open_transport 0x8C 0x55 ;;;
         SPIDevice.ReadRegister open_transport RegRxfe1) still_world)
   = fst (SPIDevice.ReadRegister open_transport RegRxfe1 still_world)).
Proof.
  apply (register_address_aliases open_transport 0x8C RegRxfe1 0x55 still_world).
  - discriminate.
  - apply quiet_still_world.
  - lia.
Defined.

Section ReadAll.

Lemma regs_read_all addrs : forall w, regs (read_all addrs w) = regs w.
Proof.
  induction addrs as [|a rest IH]; intros w; [reflexivity|].
  cbn [read_all fold_left]. fold (read_all rest (read_back a w)). now rewrite IH.
Qed.

Lemma quiet_read_all addrs : forall w, quiet w -> quiet (read_all addrs w).
Proof.
  induction addrs as [|a rest IH]; intros w Hq; [exact Hq|].
  cbn [read_all fold_left]. fold (read_all rest (read_back a w)).
  apply IH, quiet_read_back, Hq.
Qed.

Lemma read_all_trace addrs : forall w,
  trace (read_all addrs w)
  = trace w ++ flat_map (fun a => [EvTx [Z.land a 0x7F; 0x00] (Some [0; read_value a w]);
                                   EvSleep 10]) addrs.
Proof.
  induction addrs as [|a rest IH]; intros w.
  - cbn. now rewrite app_nil_r.
  - cbn [read_all fold_left flat_map]. fold (read_all rest (read_back a w)).
    rewrite IH, trace_read_back, <- app_assoc. reflexivity.
Qed.

Lemma frames_reads (f : Z -> Z) addrs :
  frames (flat_map (fun a => [EvTx [Z.land a 0x7F; 0x00] (Some [0; f a]); EvSleep 10]) addrs)
  = map (fun a => [Z.land a 0x7F; 0x00]) addrs.
Proof.
  induction addrs as [|a rest IH]; [reflexivity|].
  cbn [flat_map app frames map]. now rewrite IH.
Qed.

Lemma register_writes_reads (f : Z -> Z) addrs :
  register_writes
    (flat_map (fun a => [EvTx [Z.land a 0x7F; 0x00] (Some [0; f a]); EvSleep 10]) addrs)
  = [].
Proof.
  induction addrs as [|a rest IH]; [reflexivity|].
  cbn [flat_map app]. unfold register_writes in *. cbn [filter is_write_frame].
  rewrite read_address_bit. exact IH.
Qed.

Lemma read_registers_quiet d addrs : forall registers w,
  SPIDevice.conn d <> None -> quiet w ->
  SX1255Controller.read_registers d addrs registers w
  = (Ok (registers ++ map (fun a => (a, read_value a w)) addrs), read_all addrs w).
Proof.
  induction addrs as [|a rest IH]; intros registers w Hd Hq.
  - cbn. now rewrite app_nil_r.
  - cbn [SX1255Controller.read_registers].
    erewrite bind_ok by (apply wrapping_ok, ReadRegister_quiet; auto).
    rewrite IH by auto using quiet_read_back.
    cbn [read_all fold_left map]. fold (read_all rest (read_back a w)).
    rewrite <- app_assoc. reflexivity.
Qed.

End ReadAll.

(** X13.  [ReadAllRegisters] on a working bus returns a map of the twenty
    registers 0x00 to 0x13, each bound to the byte the chip holds (its
    entries are listed in the order of the reads); it shifts out twenty read
    frames, one per address in ascending order, writes no register and
    leaves the register file as it was. *)
Theorem read_all_registers s w :
  ready s -> quiet w ->
  exists w',
    SX1255Controller.ReadAllRegisters s w
    = (Ok (map (fun a => (a, read_value a w)) (below 20)), w') /\
    frames (appended w w') = map (fun a => [a; 0x00]) (below 20) /\
    register_writes (appended w w') = [] /\
    regs w' = regs w.
Proof.
  intros (Hi & d & Hs & Hd) Hq.
  exists (read_all SX1255Controller.register_addresses w).
  split; [|split; [|split]].
  - unfold SX1255Controller.ReadAllRegisters.
    rewrite Hi. cbn [negb]. unfold SX1255Controller.via_spi. rewrite Hs.
    rewrite read_registers_quiet by assumption. reflexivity.
  - rewrite (appended_app _ _ _ (read_all_trace _ w)), (frames_reads (fun a => read_value a w)).
    reflexivity.
  - rewrite (appended_app _ _ _ (read_all_trace _ w)).
    apply (register_writes_reads (fun a => read_value a w)).
  - apply regs_read_all.
Qed.

Lemma read_all_registers_witness :
  exists w',
    SX1255Controller.ReadAllRegisters (open_controller 32000000) still_world
    = (Ok (map (fun a => (a, read_value a still_world)) (below 20)), w') /\
    frames (appended still_world w') = map (fun a => [a; 0x00]) (below 20) /\
    register_writes (appended still_world w') = [] /\
    regs w' = regs still_world.
Proof.
  apply (read_all_registers (open_controller 32000000) still_world).
  - apply ready_open_controller.
  - apply quiet_still_world.
Defined.

Section StatusBits.

Lemma status_bit st k :
  0 <= st < 256 -> 0 <= k < 8 ->
  negb (Z.land st (Z.shiftl 1 k) =? 0) = Z.testbit st k.
Proof.
  intros Hs Hk.
  assert (T : forallb (fun st => forallb (fun k =>
    Bool.eqb (negb (Z.land st (Z.shiftl 1 k) =? 0)) (Z.testbit st k))
    (below 8)) (below 256) = true) by (vm_compute; reflexivity).
  pose proof (forallb_below _ _ st T ltac:(cbn; lia)) as T1. cbv beta in T1.
  pose proof (forallb_below _ _ k T1 ltac:(cbn; lia)) as T2. cbv beta in T2.
  now apply eqb_prop in T2.
Qed.

Lemma version_strings_differ x y :
  0 <= x < 256 -> 0 <= y < 256 ->
  SX1255Controller.version_string x = SX1255Controller.version_string y -> x = y.
Proof.
  intros Hx Hy E.
  assert (T : forallb (fun x => forallb (fun y =>
    implb (String.eqb (SX1255Controller.version_string x)
                      (SX1255Controller.version_string y)) (x =? y))
    (below 256)) (below 256) = true) by (vm_compute; reflexivity).
  pose proof (forallb_below _ _ x T ltac:(cbn; lia)) as T1. cbv beta in T1.
  pose proof (forallb_below _ _ y T1 ltac:(cbn; lia)) as T2. cbv beta in T2.
  rewrite E, String.eqb_refl in T2. now apply Z.eqb_eq in T2.
Qed.

(** The code's rendering of a version byte is the text in words. *)
Lemma version_string_text v :
  0 <= v < 256 -> SX1255Controller.version_string v = version_text v.
Proof.
  intros Hv.
  assert (T : forallb (fun v => String.eqb (SX1255Controller.version_string v)
                                           (version_text v)) (below 256) = true)
    by (vm_compute; reflexivity).
  pose proof (forallb_below _ _ v T ltac:(cbn; lia)) as T1. cbv beta in T1.
  now apply String.eqb_eq in T1.
Qed.

End StatusBits.

(** X14.  The status getters decode one read of the STAT register:
    [GetStatus] reports bit 3 as "eol", bit 2 as "xosc_ready", bit 1 as
    "pll_lock_rx" and bit 0 as "pll_lock_tx"; [GetPLLStatus] returns the
    pair (TX locked, RX locked), bit 0 first, in agreement with it; each
    sends the one read frame of address 0x11 and leaves the registers as
    they were. *)
Theorem status_bits s w :
  ready s -> quiet w ->
  exists w',
    SX1255Controller.GetStatus s w
    = (Ok [("eol", Z.testbit (read_value RegStat w) 3);
           ("xosc_ready", Z.testbit (read_value RegStat w) 2);
           ("pll_lock_rx", Z.testbit (read_value RegStat w) 1);
           ("pll_lock_tx", Z.testbit (read_value RegStat w) 0)], w') /\
    SX1255Controller.GetPLLStatus s w
    = (Ok (Z.testbit (read_value RegStat w) 0, Z.testbit (read_value RegStat w) 1), w') /\
    frames (appended w w') = [[0x11; 0x00]] /\
    regs w' = regs w.
Proof.
  intros (Hi & d & Hs & Hd) Hq.
  pose proof (read_value_byte RegStat w) as B.
  exists (read_back RegStat w). split; [|split; [|split]].
  - unfold SX1255Controller.GetStatus.
    rewrite Hi. cbn [negb]. unfold SX1255Controller.via_spi. rewrite Hs.
    erewrite bind_ok by (apply wrapping_ok, ReadRegister_quiet; auto).
    unfold StatEol, StatXoscReady, StatPllLockRx, StatPllLockTx.
    rewrite !status_bit by lia. reflexivity.
  - unfold SX1255Controller.GetPLLStatus.
    rewrite Hi. cbn [negb]. unfold SX1255Controller.via_spi. rewrite Hs.
    erewrite bind_ok by (apply wrapping_ok, ReadRegister_quiet; auto).
    unfold StatPllLockRx, StatPllLockTx.
    rewrite !status_bit by lia. reflexivity.
  - rewrite (appended_app _ _ _ (trace_read_back _ w)). reflexivity.
  - reflexivity.
Qed.

Lemma status_bits_witness :
  exists w',
    SX1255Controller.GetStatus (open_controller 32000000) chip_world
    = (Ok [("eol", Z.testbit (read_value RegStat chip_world) 3);
           ("xosc_ready", Z.testbit (read_value RegStat chip_world) 2);
           ("pll_lock_rx", Z.testbit (read_value RegStat chip_world) 1);
           ("pll_lock_tx", Z.testbit (read_value RegStat chip_world) 0)], w') /\
    SX1255Controller.GetPLLStatus (open_controller 32000000) chip_world
    = (Ok (Z.testbit (read_value RegStat chip_world) 0,
           Z.testbit (read_value RegStat chip_world) 1), w') /\
    frames (appended chip_world w') = [[0x11; 0x00]] /\
    regs w' = regs chip_world.
Proof.
  apply (status_bits (open_controller 32000000) chip_world).
  - apply ready_open_controller.
  - intros i. reflexivity.
Defined.

(** X15.  The version string: [GetVersionString] reads the VERSION
    register once and returns, for the byte [16 * major + minor] it holds,
    the letter V followed by [major] written in decimal, 0 to 15, and, when
    [minor] is not 0, by one capital letter, A for 1 up to O for 15; when
    [minor] is 0 no letter follows.  So 0x10 reads "V1", 0x11 "V1A", 0xA0
    "V10", 0xFF "V15O" and 0x00 "V0".  Two different bytes never give the
    same string. *)
Theorem version_string_of_byte s w w0 :
  ready s -> quiet w -> quiet w0 ->
  SX1255Controller.GetVersionString s w
  = (Ok (version_text (read_value RegVersion w)), read_back RegVersion w) /\
  (forall major minor, 0 <= major < 16 -> 0 <= minor < 16 ->
     read_value RegVersion w = 16 * major + minor ->
     fst (SX1255Controller.GetVersionString s w)
     = Ok ("V" ++ decimal_text major ++ letter_text minor)%string) /\
  (forall major, 0 <= major < 16 ->
     read_value RegVersion w = 16 * major ->
     fst (SX1255Controller.GetVersionString s w) = Ok ("V" ++ decimal_text major)%string) /\
  (fst (SX1255Controller.GetVersionString s w) = fst (SX1255Controller.GetVersionString s w0) ->
   read_value RegVersion w = read_value RegVersion w0) /\
  (read_value RegVersion w = 0x10 ->
   fst (SX1255Controller.GetVersionString s w) = Ok "V1") /\
  (read_value RegVersion w = 0x11 ->
   fst (SX1255Controller.GetVersionString s w) = Ok "V1A") /\
  (read_value RegVersion w = 0xA0 ->
   fst (SX1255Controller.GetVersionString s w) = Ok "V10") /\
  (read_value RegVersion w = 0xFF ->
   fst (SX1255Controller.GetVersionString s w) = Ok "V15O") /\
  (read_value RegVersion w = 0x00 ->
   fst (SX1255Controller.GetVersionString s w) = Ok "V0").
Proof.
  intros Hr Hq Hq0. pose proof Hr as (Hi & d & Hs & Hd).
  assert (G : forall w1, quiet w1 ->
            SX1255Controller.GetVersionString s w1
            = (Ok (version_text (read_value RegVersion w1)), read_back RegVersion w1)).
  { intros w1 Hq1. unfold SX1255Controller.GetVersionString, SX1255Controller.GetVersion.
    rewrite Hi. cbn [negb]. unfold SX1255Controller.via_spi. rewrite Hs.
    erewrite bind_ok by (apply ReadRegister_quiet; auto).
    unfold ret. rewrite version_string_text by apply read_value_byte. reflexivity. }
  split; [apply G; assumption|]. rewrite !G by assumption. cbn [fst].
  split; [|split; [|split; [|repeat split; intros ->; reflexivity]]].
  - intros major minor Hmaj Hmin ->. unfold version_text.
    replace ((16 * major + minor) / 16) with major
      by (apply (Z.div_unique _ _ _ minor); lia).
    replace ((16 * major + minor) mod 16) with minor
      by (apply (Z.mod_unique _ _ major); lia).
    reflexivity.
  - intros major Hmaj ->. unfold version_text.
    replace (16 * major / 16) with major
      by (apply (Z.div_unique _ _ _ 0); lia).
    replace ((16 * major) mod 16) with 0
      by (apply (Z.mod_unique _ _ major); lia).
    unfold letter_text, decimal_text. cbn [Z.eqb].
    destruct (major <? 10); reflexivity.
  - intros E.
    apply version_strings_differ; auto using read_value_byte.
    rewrite !version_string_text by apply read_value_byte. congruence.
Qed.

Lemma version_string_of_byte_witness :
  SX1255Controller.GetVersionString (open_controller 32000000) chip_world
  = (Ok (version_text (read_value RegVersion chip_world)), read_back RegVersion chip_world) /\
  (forall major minor, 0 <= major < 16 -> 0 <= minor < 16 ->
     read_value RegVersion chip_world = 16 * major + minor ->
     fst (SX1255Controller.GetVersionString (open_controller 32000000) chip_world)
     = Ok ("V" ++ decimal_text major ++ letter_text minor)%string) /\
  (forall major, 0 <= major < 16 ->
     read_value RegVersion chip_world = 16 * major ->
     fst (SX1255Controller.GetVersionString (open_controller 32000000) chip_world)
     = Ok ("V" ++ decimal_text major)%string) /\
  (fst (SX1255Controller.GetVersionString (open_controller 32000000) chip_world)
   = fst (SX1255Controller.GetVersionString (open_controller 32000000) still_world) ->
   read_value RegVersion chip_world = read_value RegVersion still_world) /\
  (read_value RegVersion chip_world = 0x10 ->
   fst (SX1255Controller.GetVersionString (open_controller 32000000) chip_world) = Ok "V1") /\
  (read_value RegVersion chip_world = 0x11 ->
   fst (SX1255Controller.GetVersionString (open_controller 32000000) chip_world)
   = Ok "V1A") /\
  (read_value RegVersion chip_world = 0xA0 ->
   fst (SX1255Controller.GetVersionString (open_controller 32000000) chip_world)
   = Ok "V10") /\
  (read_value RegVersion chip_world = 0xFF ->
   fst (SX1255Controller.GetVersionString (open_controller 32000000) chip_world)
   = Ok "V15O") /\
  (read_value RegVersion chip_world = 0x00 ->
   fst (SX1255Controller.GetVersionString (open_controller 32000000) chip_world)
   = Ok "V0").
Proof.
  apply (version_string_of_byte (open_controller 32000000) chip_world still_world).
  - apply ready_open_controller.
  - intros i. reflexivity.
  - apply quiet_still_world.
Defined.

(** ** Handles: opening, closing and what is left held *)

Section Lifecycle.

Ltac run_paths H :=
  repeat match type of H with
         | context [if failing ?w then _ else _] => destruct (failing w) eqn:?
         | context [if existsb ?f ?l then _ else _] => destruct (existsb f l) eqn:?
         end.

(** What a successful [NewSPIDevice] returns and leaves. *)
Lemma NewSPIDevice_ok device speed w d w1 :
  SPIDevice.NewSPIDevice device speed w = (Ok d, w1) ->
  d = SPIDevice.mk (Some (SpiPort device)) (Some (SpiPort device)) device
        (speed * SPIDevice.physic_Hertz) /\
  held w1 = SpiPort device :: held w /\
  regs w1 = regs w /\ fault w1 = fault w /\ impl_uint32 w1 = impl_uint32 w.
Proof.
  unfold SPIDevice.NewSPIDevice, bind, wrapping, or_cleanup, ignoring, host_Init,
    open_resource, close_resource, external, ret.
  intros H. run_paths H; inversion H; subst; repeat split.
Qed.

(** What a successful [NewGPIOController] returns and leaves. *)
Lemma NewGPIOController_ok chipPath resetPin txRxPin w g w1 :
  GPIOController.NewGPIOController chipPath resetPin txRxPin w = (Ok g, w1) ->
  g = GPIOController.mk (Some (GpioChip chipPath)) (Some (GpioLine chipPath resetPin))
        (Some (GpioLine chipPath txRxPin)) chipPath resetPin txRxPin /\
  held w1 = GpioLine chipPath txRxPin :: GpioLine chipPath resetPin
              :: GpioChip chipPath :: held w /\
  regs w1 = regs w /\ fault w1 = fault w /\ impl_uint32 w1 = impl_uint32 w.
Proof.
  unfold GPIOController.NewGPIOController, bind, wrapping, or_cleanup, ignoring,
    chip_RequestLine, open_resource, close_resource, external, ret.
  intros H. run_paths H; inversion H; subst; repeat split.
Qed.

(** What a successful [NewSX1255Controller] returns and leaves. *)
Lemma NewSX1255Controller_ok spiDevice spiSpeed gpioChip resetPin txRxPin clockFreq w s w1 :
  SX1255Controller.NewSX1255Controller
    spiDevice spiSpeed gpioChip resetPin txRxPin clockFreq w = (Ok s, w1) ->
  s = SX1255Controller.mk
        (Some (SPIDevice.mk (Some (SpiPort spiDevice)) (Some (SpiPort spiDevice)) spiDevice
                 (spiSpeed * SPIDevice.physic_Hertz)))
        (Some (GPIOController.mk (Some (GpioChip gpioChip))
                 (Some (GpioLine gpioChip resetPin)) (Some (GpioLine gpioChip txRxPin))
                 gpioChip resetPin txRxPin))
        clockFreq true /\
  held w1 = GpioLine gpioChip txRxPin :: GpioLine gpioChip resetPin
              :: GpioChip gpioChip :: SpiPort spiDevice :: held w /\
  regs w1 = regs w /\ fault w1 = fault w /\ impl_uint32 w1 = impl_uint32 w.
Proof.
  unfold SX1255Controller.NewSX1255Controller, bind, wrapping, or_cleanup.
  intros H.
  destruct (SPIDevice.NewSPIDevice spiDevice spiSpeed w) as [[d|e] w0] eqn:ES;
    [|discriminate].
  destruct (GPIOController.NewGPIOController gpioChip resetPin txRxPin w0)
    as [[g|e] w2] eqn:EG; [|discriminate].
  apply NewSPIDevice_ok in ES. apply NewGPIOController_ok in EG.
  destruct ES as (-> & Hh & Hr & Hf & Hi). destruct EG as (-> & Hh' & Hr' & Hf' & Hi').
  inversion H; subst. repeat split; congruence.
Qed.

(** Opening never touches the registers, the oracle or the platform. *)
Lemma NewSX1255Controller_err spiDevice spiSpeed gpioChip resetPin txRxPin clockFreq w e w1 :
  SX1255Controller.NewSX1255Controller
    spiDevice spiSpeed gpioChip resetPin txRxPin clockFreq w = (Err e, w1) ->
  held w1 = held w.
Proof.
  unfold SX1255Controller.NewSX1255Controller, bind, wrapping, or_cleanup.
  intros H.
  pose proof (NewSPIDevice_handles spiDevice spiSpeed w) as HS.
  destruct (SPIDevice.NewSPIDevice spiDevice spiSpeed w) as [[d|e0] w0].
  - destruct HS as (Hh1 & Hport & _).
    pose proof (NewGPIOController_handles gpioChip resetPin txRxPin w0) as HG.
    destruct (GPIOController.NewGPIOController gpioChip resetPin txRxPin w0)
      as [[g|e1] w2]; [discriminate|].
    destruct HG as (Hh2 & _). inversion H; subst.
    unfold ignoring, SPIDevice.Close. rewrite Hport. unfold close_resource.
    destruct (failing w2); cbn [snd held set_held log]; rewrite Hh2, Hh1;
      apply release_acquire.
  - destruct HS as (Hh1 & _). inversion H; subst. exact Hh1.
Qed.

(** Closing one field of the GPIO controller. *)
Lemma close_field_some call msg r errs w :
  exists errs',
    GPIOController.close_field call msg (Some r) errs w
    = (errs', set_held (release r (held w)) (log (EvClose r (negb (failing w))) w)).
Proof.
  unfold GPIOController.close_field, close_resource.
  destruct (failing w); eexists; reflexivity.
Qed.

(** [GPIOController.Close] on a controller with its three handles. *)
Lemma GPIOController_Close_open c r t path rp tp w :
  exists errs b1 b2 b3,
    GPIOController.Close
      (GPIOController.mk (Some c) (Some r) (Some t) path rp tp) w
    = ((errs, GPIOController.mk None None None path rp tp),
       mkWorld (regs w) (release c (release r (release t (held w))))
               (trace w ++ [EvClose t b1; EvClose r b2; EvClose c b3])
               (fault w) (impl_uint32 w)).
Proof.
  unfold GPIOController.Close. cbn [GPIOController.txRxLine GPIOController.resetLine
    GPIOController.chip GPIOController.chipPath GPIOController.resetPin
    GPIOController.txRxPin].
  destruct (close_field_some "line.Close" "failed to close TX/RX line" t [] w)
    as (e1 & ->).
  destruct (close_field_some "line.Close" "failed to close reset line" r e1
              (set_held (release t (held w)) (log (EvClose t (negb (failing w))) w)))
    as (e2 & ->).
  match goal with
  | |- context [GPIOController.close_field ?a ?b (Some c) e2 ?w0] =>
      destruct (close_field_some a b c e2 w0) as (e3 & ->)
  end.
  do 4 eexists. unfold set_held, log. cbn [regs held trace fault impl_uint32].
  rewrite <- !app_assoc. reflexivity.
Qed.

(** [GPIOController.Close] on a controller that holds nothing. *)
Lemma GPIOController_Close_closed path rp tp w :
  GPIOController.Close (GPIOController.mk None None None path rp tp) w
  = (([], GPIOController.mk None None None path rp tp), w).
Proof. reflexivity. Qed.

(** [SX1255Controller.Close] on a controller as [NewSX1255Controller]
    returns it. *)
Lemma SX1255Controller_Close_open p cn dev spd c r t path rp tp clk ini w :
  exists errs b0 b1 b2 b3,
    SX1255Controller.Close
      (SX1255Controller.mk (Some (SPIDevice.mk cn (Some p) dev spd))
         (Some (GPIOController.mk (Some c) (Some r) (Some t) path rp tp)) clk ini) w
    = ((errs,
        SX1255Controller.mk (Some (SPIDevice.mk cn (Some p) dev spd))
          (Some (GPIOController.mk None None None path rp tp)) clk false),
       mkWorld (regs w) (release c (release r (release t (release p (held w)))))
               (trace w ++ [EvClose p b0; EvClose t b1; EvClose r b2; EvClose c b3])
               (fault w) (impl_uint32 w)).
Proof.
  unfold SX1255Controller.Close.
  cbn [SX1255Controller.spi SX1255Controller.gpio SX1255Controller.clockFreq].
  unfold SPIDevice.Close. cbn [SPIDevice.port].
  set (w1 := set_held (release p (held w)) (log (EvClose p (negb (failing w))) w)).
  assert (E : exists errs,
            match close_resource "port.Close" p w with
            | (Ok _, w') => ([], w')
            | (Err e, w') => ([CloseFailed (Wrap "SPI close error" e)], w')
            end = (errs, w1)).
  { unfold close_resource, w1. destruct (failing w); eexists; reflexivity. }
  destruct E as (e0 & ->).
  destruct (GPIOController_Close_open c r t path rp tp w1) as (eg & b1 & b2 & b3 & ->).
  exists (match eg with [] => e0 | _ => e0 ++ [CloseWrapped "GPIO close error" eg] end),
    (negb (failing w)), b1, b2, b3.
  destruct eg; unfold w1, set_held, log; cbn [regs held trace fault impl_uint32];
    rewrite <- !app_assoc; reflexivity.
Qed.

(** Closing the port and then the lines and the chip gives back the four
    handles of a controller. *)
Lemma release_controller dev chip rp tp h :
  release (GpioChip chip)
    (release (GpioLine chip rp)
       (release (GpioLine chip tp)
          (release (SpiPort dev)
             (GpioLine chip tp :: GpioLine chip rp :: GpioChip chip :: SpiPort dev :: h))))
  = h.
Proof.
  repeat (cbn [release Resource_eqb andb];
          rewrite ?String.eqb_refl, ?Z.eqb_refl).
  reflexivity.
Qed.

End Lifecycle.

(** X16.  The GPIO controller gives back what it took: on a controller
    that [NewGPIOController] returned, [Close] closes the TX/RX line, the
    reset line and the chip, in this order, the reverse of the order of
    opening, whichever of the three calls report an error; afterwards the
    handles held are those held before the controller was made, the
    controller reports itself not initialized, a second [Close] does
    nothing, and [Reset], [SetResetPin] and [SetTxRxPin] refuse without a
    call on a line. *)
Theorem gpio_close_releases chipPath resetPin txRxPin w g w1 :
  GPIOController.NewGPIOController chipPath resetPin txRxPin w = (Ok g, w1) ->
  exists errs g' w2,
    GPIOController.Close g w1 = ((errs, g'), w2) /\
    GPIOController.IsInitialized g = true /\
    GPIOController.IsInitialized g' = false /\
    closed (appended w1 w2)
    = [GpioLine chipPath txRxPin; GpioLine chipPath resetPin; GpioChip chipPath] /\
    List.length (appended w1 w2) = 3%nat /\
    held w2 = held w /\
    (forall w3, GPIOController.Close g' w3 = (([], g'), w3)) /\
    (forall w3, GPIOController.Reset g' w3 = (Err ErrResetLineNil, w3)) /\
    (forall high w3, GPIOController.SetResetPin g' high w3 = (Err ErrResetLineNil, w3)) /\
    (forall tx w3, GPIOController.SetTxRxPin g' tx w3 = (Some TxRxLineNil, w3)).
Proof.
  intros H. apply NewGPIOController_ok in H. destruct H as (-> & Hh & _).
  destruct (GPIOController_Close_open (GpioChip chipPath) (GpioLine chipPath resetPin)
              (GpioLine chipPath txRxPin) chipPath resetPin txRxPin w1)
    as (errs & b1 & b2 & b3 & E).
  do 3 eexists. split; [exact E|].
  split; [reflexivity|]. split; [reflexivity|].
  rewrite (appended_app w1 _ [EvClose (GpioLine chipPath txRxPin) b1;
                              EvClose (GpioLine chipPath resetPin) b2;
                              EvClose (GpioChip chipPath) b3]) by reflexivity.
  split; [reflexivity|]. split; [reflexivity|].
  split.
  - cbn [held]. rewrite Hh.
    repeat (cbn [release Resource_eqb andb];
            rewrite ?String.eqb_refl, ?Z.eqb_refl).
    reflexivity.
  - repeat split.
Qed.

Lemma gpio_close_releases_witness :
  exists errs g' w2,
    GPIOController.Close open_lines
      (snd (GPIOController.NewGPIOController "gpiochip0" 5 6 still_world))
    = ((errs, g'), w2) /\
    GPIOController.IsInitialized open_lines = true /\
    GPIOController.IsInitialized g' = false /\
    closed (appended (snd (GPIOController.NewGPIOController "gpiochip0" 5 6 still_world)) w2)
    = [GpioLine "gpiochip0" 6; GpioLine "gpiochip0" 5; GpioChip "gpiochip0"] /\
    List.length
      (appended (snd (GPIOController.NewGPIOController "gpiochip0" 5 6 still_world)) w2)
    = 3%nat /\
    held w2 = held still_world /\
    (forall w3, GPIOController.Close g' w3 = (([], g'), w3)) /\
    (forall w3, GPIOController.Reset g' w3 = (Err ErrResetLineNil, w3)) /\
    (forall high w3, GPIOController.SetResetPin g' high w3 = (Err ErrResetLineNil, w3)) /\
    (forall tx w3, GPIOController.SetTxRxPin g' tx w3 = (Some TxRxLineNil, w3)).
Proof.
  apply (gpio_close_releases "gpiochip0" 5 6 still_world open_lines
           (snd (GPIOController.NewGPIOController "gpiochip0" 5 6 still_world))).
  reflexivity.
Defined.

(** X17.  The controller gives back what it took: on a controller that
    [NewSX1255Controller] returned, [Close] closes the SPI port, the TX/RX
    line, the reset line and the GPIO chip, in this order, whichever of the
    calls report an error, and sends nothing on the bus; afterwards the
    handles held are those held before the controller was made and every
    operation on the controller is refused as not initialized, without an
    external call.  The controller keeps its transport: a second [Close]
    closes the SPI port once more, and nothing else. *)
Theorem controller_close_releases
    spiDevice spiSpeed gpioChip resetPin txRxPin clockFreq w s w1 :
  SX1255Controller.NewSX1255Controller
    spiDevice spiSpeed gpioChip resetPin txRxPin clockFreq w = (Ok s, w1) ->
  exists errs s' w2,
    SX1255Controller.Close s w1 = ((errs, s'), w2) /\
    closed (appended w1 w2)
    = [SpiPort spiDevice; GpioLine gpioChip txRxPin; GpioLine gpioChip resetPin;
       GpioChip gpioChip] /\
    List.length (appended w1 w2) = 4%nat /\
    held w2 = held w /\ regs w2 = regs w /\
    SX1255Controller.IsInitialized s = true /\
    SX1255Controller.IsInitialized s' = false /\
    (forall f w3, SX1255Controller.SetRxFrequency s' f w3 = (Err ErrNotInitialized, w3)) /\
    (forall a w3, SX1255Controller.ReadRegister s' a w3 = (Err ErrNotInitialized, w3)) /\
    (forall a v w3, SX1255Controller.WriteRegister s' a v w3 = (Err ErrNotInitialized, w3)) /\
    (forall w3, SX1255Controller.Reset s' w3 = (Err ErrNotInitialized, w3)) /\
    (forall tx w3, SX1255Controller.SetTxRxSwitch s' tx w3
                   = (Some TxRxControllerNotInitialized, w3)) /\
    (forall w3, closed (appended w3 (snd (SX1255Controller.Close s' w3)))
                = [SpiPort spiDevice]).
Proof.
  intros H. apply NewSX1255Controller_ok in H. destruct H as (-> & Hh & Hr & _).
  match goal with
  | |- context [SX1255Controller.Close
                  (SX1255Controller.mk (Some (SPIDevice.mk ?cn (Some ?p) ?dev ?spd))
                     (Some (GPIOController.mk (Some ?c) (Some ?r) (Some ?t) ?path ?rp ?tp))
                     ?clk ?ini) w1] =>
      destruct (SX1255Controller_Close_open p cn dev spd c r t path rp tp clk ini w1)
        as (errs & b0 & b1 & b2 & b3 & E)
  end.
  do 3 eexists. split; [exact E|].
  rewrite (appended_app w1 _ [EvClose (SpiPort spiDevice) b0;
                              EvClose (GpioLine gpioChip txRxPin) b1;
                              EvClose (GpioLine gpioChip resetPin) b2;
                              EvClose (GpioChip gpioChip) b3]) by reflexivity.
  split; [reflexivity|]. split; [reflexivity|].
  split; [cbn [held]; rewrite Hh; apply release_controller|].
  split; [exact Hr|].
  do 7 (split; [reflexivity|]).
  intros w3. unfold SX1255Controller.Close.
  cbn [SX1255Controller.spi SX1255Controller.gpio SPIDevice.Close SPIDevice.port].
  unfold close_resource.
  destruct (failing w3); cbn [GPIOController.Close snd];
    (erewrite appended_app; [|cbn [set_held log trace]; reflexivity]); reflexivity.
Qed.

Lemma controller_close_releases_witness :
  exists errs s' w2,
    SX1255Controller.Close (open_controller 32000000)
      (snd (SX1255Controller.NewSX1255Controller
              "/dev/spidev0.0" 500000 "gpiochip0" 5 6 32000000 still_world))
    = ((errs, s'), w2) /\
    closed (appended
              (snd (SX1255Controller.NewSX1255Controller
                      "/dev/spidev0.0" 500000 "gpiochip0" 5 6 32000000 still_world)) w2)
    = [SpiPort "/dev/spidev0.0"; GpioLine "gpiochip0" 6; GpioLine "gpiochip0" 5;
       GpioChip "gpiochip0"] /\
    List.length
      (appended
         (snd (SX1255Controller.NewSX1255Controller
                 "/dev/spidev0.0" 500000 "gpiochip0" 5 6 32000000 still_world)) w2)
    = 4%nat /\
    held w2 = held still_world /\ regs w2 = regs still_world /\
    SX1255Controller.IsInitialized (open_controller 32000000) = true /\
    SX1255Controller.IsInitialized s' = false /\
    (forall f w3, SX1255Controller.SetRxFrequency s' f w3 = (Err ErrNotInitialized, w3)) /\
    (forall a w3, SX1255Controller.ReadRegister s' a w3 = (Err ErrNotInitialized, w3)) /\
    (forall a v w3, SX1255Controller.WriteRegister s' a v w3 = (Err ErrNotInitialized, w3)) /\
    (forall w3, SX1255Controller.Reset s' w3 = (Err ErrNotInitialized, w3)) /\
    (forall tx w3, SX1255Controller.SetTxRxSwitch s' tx w3
                   = (Some TxRxControllerNotInitialized, w3)) /\
    (forall w3, closed (appended w3 (snd (SX1255Controller.Close s' w3)))
                = [SpiPort "/dev/spidev0.0"]).
Proof.
  apply (controller_close_releases "/dev/spidev0.0" 500000 "gpiochip0" 5 6 32000000
           still_world (open_controller 32000000)
           (snd (SX1255Controller.NewSX1255Controller
                   "/dev/spidev0.0" 500000 "gpiochip0" 5 6 32000000 still_world))).
  reflexivity.
Defined.

(** ** Operations that open and close nothing *)

Create HintDb held.

Lemma keeps_held_ret {A} (a : A) : keeps_held (ret a).
Proof. intros w. reflexivity. Qed.

Lemma keeps_held_fail {A} e : keeps_held (@fail A e).
Proof. intros w. reflexivity. Qed.

Lemma keeps_held_bind {A B} (c : M A) (k : A -> M B) :
  keeps_held c -> (forall a, keeps_held (k a)) -> keeps_held (bind c k).
Proof.
  intros Hc Hk w. unfold bind. specialize (Hc w).
  destruct (c w) as [[a|e] w']; cbn [snd] in *; [|exact Hc].
  now rewrite Hk.
Qed.

Lemma keeps_held_wrapping {A} msg (c : M A) : keeps_held c -> keeps_held (wrapping msg c).
Proof.
  intros Hc w. unfold wrapping. specialize (Hc w).
  destruct (c w) as [[a|e] w']; exact Hc.
Qed.

Lemma keeps_held_if {A} (b : bool) (x y : M A) :
  keeps_held x -> keeps_held y -> keeps_held (if b then x else y).
Proof. destruct b; auto. Qed.

Lemma keeps_held_time_Sleep us : keeps_held (time_Sleep us).
Proof. intros w. reflexivity. Qed.

Lemma keeps_held_conn_Tx tx : keeps_held (conn_Tx tx).
Proof.
  intros w. unfold conn_Tx. destruct (failing w); [reflexivity|].
  destruct (chip_exchange (regs w) tx). reflexivity.
Qed.

Lemma keeps_held_line_SetValue line v : keeps_held (line_SetValue line v).
Proof. intros w. unfold line_SetValue, external. destruct (failing w); reflexivity. Qed.

Lemma keeps_held_to_uint32 x : keeps_held (to_uint32 x).
Proof. intros w. reflexivity. Qed.

Lemma keeps_held_to_uint8 x : keeps_held (to_uint8 x).
Proof. intros w. reflexivity. Qed.

#[local] Hint Resolve keeps_held_ret keeps_held_fail keeps_held_bind keeps_held_wrapping
  keeps_held_if keeps_held_time_Sleep keeps_held_conn_Tx keeps_held_line_SetValue
  keeps_held_to_uint32 keeps_held_to_uint8 : held.

Lemma keeps_held_Transfer d tx n : keeps_held (SPIDevice.Transfer d tx n).
Proof.
  unfold SPIDevice.Transfer. destruct (SPIDevice.conn d); auto with held.
Qed.

#[local] Hint Resolve keeps_held_Transfer : held.

Lemma keeps_held_WriteRegister d a v : keeps_held (SPIDevice.WriteRegister d a v).
Proof. unfold SPIDevice.WriteRegister. auto with held. Qed.

Lemma keeps_held_ReadRegister d a : keeps_held (SPIDevice.ReadRegister d a).
Proof. unfold SPIDevice.ReadRegister. auto 6 with held. Qed.

Lemma keeps_held_BurstWrite d a vs : keeps_held (SPIDevice.BurstWrite d a vs).
Proof. unfold SPIDevice.BurstWrite. auto 6 with held. Qed.

Lemma keeps_held_BurstRead d a n : keeps_held (SPIDevice.BurstRead d a n).
Proof. unfold SPIDevice.BurstRead. auto 7 with held. Qed.

Lemma keeps_held_via_spi {A} s (k : SPIDevice.t -> M A) :
  (forall d, keeps_held (k d)) -> keeps_held (SX1255Controller.via_spi s k).
Proof.
  intros H. unfold SX1255Controller.via_spi.
  destruct (SX1255Controller.spi s); auto with held.
Qed.

Lemma keeps_held_Reset g : keeps_held (GPIOController.Reset g).
Proof.
  unfold GPIOController.Reset. destruct (GPIOController.resetLine g); auto 8 with held.
Qed.

#[local] Hint Resolve keeps_held_WriteRegister keeps_held_ReadRegister
  keeps_held_via_spi keeps_held_Reset : held.

Lemma keeps_held_write_defaults d entries :
  keeps_held (SX1255Controller.write_defaults d entries).
Proof.
  induction entries as [|[a v] rest IH]; cbn [SX1255Controller.write_defaults];
    auto with held.
Qed.

Lemma keeps_held_read_registers d addrs :
  forall registers, keeps_held (SX1255Controller.read_registers d addrs registers).
Proof.
  induction addrs as [|a rest IH]; intros registers;
    cbn [SX1255Controller.read_registers]; auto with held.
Qed.

#[local] Hint Resolve keeps_held_write_defaults keeps_held_read_registers : held.

Lemma keeps_held_SetRxFrequency s f : keeps_held (SX1255Controller.SetRxFrequency s f).
Proof. unfold SX1255Controller.SetRxFrequency. auto 10 with held. Qed.

Lemma keeps_held_GetRxFrequency s : keeps_held (SX1255Controller.GetRxFrequency s).
Proof. unfold SX1255Controller.GetRxFrequency. auto 10 with held. Qed.

Lemma keeps_held_SetTxFrequency s f : keeps_held (SX1255Controller.SetTxFrequency s f).
Proof. unfold SX1255Controller.SetTxFrequency. auto 10 with held. Qed.

Lemma keeps_held_GetTxFrequency s : keeps_held (SX1255Controller.GetTxFrequency s).
Proof. unfold SX1255Controller.GetTxFrequency. auto 10 with held. Qed.

Lemma keeps_held_GetVersion s : keeps_held (SX1255Controller.GetVersion s).
Proof. unfold SX1255Controller.GetVersion. auto with held. Qed.

#[local] Hint Resolve keeps_held_GetVersion : held.

Lemma keeps_held_Initialize s : keeps_held (SX1255Controller.Initialize s).
Proof. unfold SX1255Controller.Initialize. auto with held. Qed.

#[local] Hint Resolve keeps_held_Initialize : held.

(** X18.  No operation of the controller other than [Close] opens or
    closes a handle: for every controller, initialized or not, every
    argument and every pattern of failures of the bus and of the lines, the
    handles held after the call are those held before it. *)
Theorem operations_keep_handles s :
  (forall f, keeps_held (SX1255Controller.SetRxFrequency s f)) /\
  keeps_held (SX1255Controller.GetRxFrequency s) /\
  (forall f, keeps_held (SX1255Controller.SetTxFrequency s f)) /\
  keeps_held (SX1255Controller.GetTxFrequency s) /\
  (forall a, keeps_held (SX1255Controller.ReadRegister s a)) /\
  (forall a v, keeps_held (SX1255Controller.WriteRegister s a v)) /\
  keeps_held (SX1255Controller.ReadAllRegisters s) /\
  (forall m, keeps_held (SX1255Controller.SetMode s m)) /\
  keeps_held (SX1255Controller.GetMode s) /\
  (forall g, keeps_held (SX1255Controller.SetLNAGain s g)) /\
  (forall g, keeps_held (SX1255Controller.SetPGAGain s g)) /\
  (forall g, keeps_held (SX1255Controller.SetDACGain s g)) /\
  (forall g, keeps_held (SX1255Controller.SetMixerGain s g)) /\
  (forall b, keeps_held (SX1255Controller.EnableRx s b)) /\
  (forall b, keeps_held (SX1255Controller.EnableTx s b)) /\
  (forall b, keeps_held (SX1255Controller.EnablePA s b)) /\
  keeps_held (SX1255Controller.GetStatus s) /\
  keeps_held (SX1255Controller.GetPLLStatus s) /\
  keeps_held (SX1255Controller.GetVersionString s) /\
  keeps_held (SX1255Controller.Initialize s) /\
  (forall order, keeps_held (SX1255Controller.InitializeWithDefaults order s)) /\
  keeps_held (SX1255Controller.Reset s) /\
  (forall tx w, held (snd (SX1255Controller.SetTxRxSwitch s tx w)) = held w).
Proof.
  repeat match goal with |- _ /\ _ => split end; intros.
  - apply keeps_held_SetRxFrequency.
  - apply keeps_held_GetRxFrequency.
  - apply keeps_held_SetTxFrequency.
  - apply keeps_held_GetTxFrequency.
  - unfold SX1255Controller.ReadRegister. auto with held.
  - unfold SX1255Controller.WriteRegister. auto with held.
  - unfold SX1255Controller.ReadAllRegisters. auto with held.
  - unfold SX1255Controller.SetMode. auto with held.
  - unfold SX1255Controller.GetMode. auto with held.
  - unfold SX1255Controller.SetLNAGain. auto 8 with held.
  - unfold SX1255Controller.SetPGAGain. auto 8 with held.
  - unfold SX1255Controller.SetDACGain. auto 8 with held.
  - unfold SX1255Controller.SetMixerGain. auto 8 with held.
  - unfold SX1255Controller.EnableRx. auto 8 with held.
  - unfold SX1255Controller.EnableTx. auto 8 with held.
  - unfold SX1255Controller.EnablePA. auto 8 with held.
  - unfold SX1255Controller.GetStatus. auto 8 with held.
  - unfold SX1255Controller.GetPLLStatus. auto 8 with held.
  - unfold SX1255Controller.GetVersionString. auto 8 with held.
  - apply keeps_held_Initialize.
  - unfold SX1255Controller.InitializeWithDefaults. auto 8 with held.
  - unfold SX1255Controller.Reset, SX1255Controller.via_gpio.
    destruct (SX1255Controller.gpio s); auto 8 with held.
  - unfold SX1255Controller.SetTxRxSwitch, GPIOController.SetTxRxPin.
    destruct (SX1255Controller.initialized s); cbn [negb]; [|reflexivity].
    destruct (SX1255Controller.gpio s) as [g|]; [|reflexivity].
    destruct (GPIOController.txRxLine g) as [line|]; [|reflexivity].
    pose proof (keeps_held_line_SetValue line (if tx then 1 else 0) w) as H.
    destruct (line_SetValue line (if tx then 1 else 0) w) as [[u|e] w']; exact H.
Qed.

(** X19.  [withController] leaves no handle behind: for every
    configuration, every pattern of failures and every function [fn] that
    itself opens and closes nothing, the handles held after the call are
    those held before it.  When the controller cannot be made, [fn] is not
    called and the error of the construction is returned; otherwise the
    result is that of [fn], and after [fn], whether it failed or not, the SPI
    port, the TX/RX line, the reset line and the GPIO chip are closed, in
    this order. *)
Theorem with_controller_balanced {A} p (fn : SX1255Controller.t -> M A) w :
  (forall c, keeps_held (fn c)) ->
  held (snd (HardwarePlugin.withController p fn w)) = held w /\
  match HardwarePlugin.createController p w with
  | (Ok c, w1) =>
      fst (HardwarePlugin.withController p fn w) = fst (fn c w1) /\
      closed (appended (snd (fn c w1)) (snd (HardwarePlugin.withController p fn w)))
      = [SpiPort (HardwarePlugin.SPIDevice p);
         GpioLine (HardwarePlugin.GPIOChip p) (HardwarePlugin.TxRxPin p);
         GpioLine (HardwarePlugin.GPIOChip p) (HardwarePlugin.ResetPin p);
         GpioChip (HardwarePlugin.GPIOChip p)]
  | (Err e, w1) => HardwarePlugin.withController p fn w = (Err e, w1)
  end.
Proof.
  intros Hfn. unfold HardwarePlugin.withController.
  destruct (HardwarePlugin.createController p w) as [[c|e] w1] eqn:E.
  - unfold HardwarePlugin.createController in E.
    apply NewSX1255Controller_ok in E. destruct E as (-> & Hh & _).
    match goal with
    | |- context [fn ?c w1] => set (c0 := c) in *
    end.
    pose proof (Hfn c0 w1) as Hk.
    destruct (fn c0 w1) as [r w2]. cbn [snd fst] in *.
    destruct (SX1255Controller_Close_open (SpiPort (HardwarePlugin.SPIDevice p))
                (Some (SpiPort (HardwarePlugin.SPIDevice p))) (HardwarePlugin.SPIDevice p)
                (HardwarePlugin.SPISpeed p * SPIDevice.physic_Hertz)
                (GpioChip (HardwarePlugin.GPIOChip p))
                (GpioLine (HardwarePlugin.GPIOChip p) (HardwarePlugin.ResetPin p))
                (GpioLine (HardwarePlugin.GPIOChip p) (HardwarePlugin.TxRxPin p))
                (HardwarePlugin.GPIOChip p) (HardwarePlugin.ResetPin p)
                (HardwarePlugin.TxRxPin p) (HardwarePlugin.ClockFreq p) true w2)
      as (errs & b0 & b1 & b2 & b3 & EC).
    fold c0 in EC. rewrite EC. cbn [snd held].
    split; [rewrite Hk, Hh; apply release_controller|].
    split; [reflexivity|].
    erewrite appended_app; [|cbn [trace]; reflexivity]. reflexivity.
  - cbn [snd]. split; [|reflexivity].
    unfold HardwarePlugin.createController in E.
    apply NewSX1255Controller_err in E. exact E.
Qed.

Lemma with_controller_balanced_witness :
  held (snd (HardwarePlugin.withController (HardwarePlugin.NewHardwarePlugin plain_config)
               (fun c => SX1255Controller.SetRxFrequency c 434000000) still_world))
  = held still_world /\
  match HardwarePlugin.createController (HardwarePlugin.NewHardwarePlugin plain_config)
          still_world with
  | (Ok c, w1) =>
      fst (HardwarePlugin.withController (HardwarePlugin.NewHardwarePlugin plain_config)
             (fun c => SX1255Controller.SetRxFrequency c 434000000) still_world)
      = fst (SX1255Controller.SetRxFrequency c 434000000 w1) /\
      closed (appended (snd (SX1255Controller.SetRxFrequency c 434000000 w1))
                (snd (HardwarePlugin.withController
                        (HardwarePlugin.NewHardwarePlugin plain_config)
                        (fun c => SX1255Controller.SetRxFrequency c 434000000)
                        still_world)))
      = [SpiPort (HardwarePlugin.SPIDevice (HardwarePlugin.NewHardwarePlugin plain_config));
         GpioLine (HardwarePlugin.GPIOChip (HardwarePlugin.NewHardwarePlugin plain_config))
                  (HardwarePlugin.TxRxPin (HardwarePlugin.NewHardwarePlugin plain_config));
         GpioLine (HardwarePlugin.GPIOChip (HardwarePlugin.NewHardwarePlugin plain_config))
                  (HardwarePlugin.ResetPin (HardwarePlugin.NewHardwarePlugin plain_config));
         GpioChip (HardwarePlugin.GPIOChip (HardwarePlugin.NewHardwarePlugin plain_config))]
  | (Err e, w1) =>
      HardwarePlugin.withController (HardwarePlugin.NewHardwarePlugin plain_config)
        (fun c => SX1255Controller.SetRxFrequency c 434000000) still_world
      = (Err e, w1)
  end.
Proof.
  apply (with_controller_balanced (HardwarePlugin.NewHardwarePlugin plain_config)
           (fun c => SX1255Controller.SetRxFrequency c 434000000) still_world).
  intros c. apply keeps_held_SetRxFrequency.
Defined.

(** ** Two requests through the plugin *)

Section Requests.

Lemma rx_word_regs w w' : regs w' = regs w -> rx_word w' = rx_word w.
Proof. intros H. unfold rx_word, read_value. now rewrite H. Qed.

Lemma quiet_fault w w' : fault w' = fault w -> quiet w -> quiet w'.
Proof. intros H Hq i. rewrite H. apply Hq. Qed.

(** On a quiet world, with the two lines free and distinct, the
    controller is made. *)
Lemma NewSX1255Controller_quiet spiDevice spiSpeed gpioChip resetPin txRxPin clockFreq w :
  quiet w ->
  existsb (Resource_eqb (GpioLine gpioChip resetPin)) (held w) = false ->
  existsb (Resource_eqb (GpioLine gpioChip txRxPin)) (held w) = false ->
  resetPin <> txRxPin ->
  exists s w1,
    SX1255Controller.NewSX1255Controller
      spiDevice spiSpeed gpioChip resetPin txRxPin clockFreq w = (Ok s, w1).
Proof.
  intros Hq Hr Ht Hne.
  unfold SX1255Controller.NewSX1255Controller, SPIDevice.NewSPIDevice,
    GPIOController.NewGPIOController, bind, wrapping, or_cleanup, host_Init,
    chip_RequestLine, open_resource, external, ret.
  repeat match goal with
         | |- context [if failing ?w0 then _ else _] =>
             replace (failing w0) with false by (symmetry; apply Hq)
         end.
  cbn [held set_held log acquire existsb Resource_eqb orb].
  rewrite Hr.
  repeat match goal with
         | |- context [if failing ?w0 then _ else _] =>
             replace (failing w0) with false by (symmetry; apply Hq)
         end.
  cbn [held set_held log acquire existsb Resource_eqb orb].
  rewrite Ht, (proj2 (Z.eqb_neq txRxPin resetPin)) by auto.
  rewrite andb_false_r. cbn [orb].
  repeat match goal with
         | |- context [if failing ?w0 then _ else _] =>
             replace (failing w0) with false by (symmetry; apply Hq)
         end.
  do 2 eexists. reflexivity.
Qed.

(** [withController] around a function that keeps the handles. *)
Lemma withController_run {A} p (fn : SX1255Controller.t -> M A) w c wa r wb :
  HardwarePlugin.createController p w = (Ok c, wa) ->
  fn c wa = (r, wb) -> held wb = held wa ->
  exists w1,
    HardwarePlugin.withController p fn w = (r, w1) /\
    held w1 = held w /\ regs w1 = regs wb /\ fault w1 = fault wb.
Proof.
  intros Ec Ef Hh. unfold HardwarePlugin.withController. rewrite Ec, Ef.
  unfold HardwarePlugin.createController in Ec.
  apply NewSX1255Controller_ok in Ec. destruct Ec as (-> & Hha & _).
  match goal with
  | |- context [SX1255Controller.Close
                  (SX1255Controller.mk (Some (SPIDevice.mk ?cn (Some ?p0) ?dev ?spd))
                     (Some (GPIOController.mk (Some ?c0) (Some ?r0) (Some ?t0) ?path ?rp ?tp))
                     ?clk ?ini) wb] =>
      destruct (SX1255Controller_Close_open p0 cn dev spd c0 r0 t0 path rp tp clk ini wb)
        as (errs & b0 & b1 & b2 & b3 & E)
  end.
  rewrite E. eexists. split; [reflexivity|]. cbn [snd held regs fault].
  split; [|split; reflexivity].
  rewrite Hh, Hha. apply release_controller.
Qed.

End Requests.

(** X20.  Two requests through the plugin: with a configuration whose
    clock is left to the default of 32 MHz, or set to at least 31875001 Hz,
    on a working system with the two lines free and distinct, setting the RX
    frequency through one controller made and closed by [withController]
    and reading it through another returns a value at most
    [ceil(FXOSC / 2^20)] Hz, 31 Hz at the default, from the frequency asked
    for: the tuning word lives in the chip, not in the controller.  No
    handle is left held. *)
Theorem frequency_through_plugin cfg w freqHz :
  HardwarePlugin.ClockFreq cfg = 0 \/ 31875001 <= HardwarePlugin.ClockFreq cfg < 2 ^ 32 ->
  quiet w ->
  existsb (Resource_eqb (GpioLine (HardwarePlugin.GPIOChip cfg) (HardwarePlugin.ResetPin cfg)))
          (held w) = false ->
  existsb (Resource_eqb (GpioLine (HardwarePlugin.GPIOChip cfg) (HardwarePlugin.TxRxPin cfg)))
          (held w) = false ->
  HardwarePlugin.ResetPin cfg <> HardwarePlugin.TxRxPin cfg ->
  400000000 <= freqHz <= 510000000 ->
  exists w1 got w2,
    HardwarePlugin.withController (HardwarePlugin.NewHardwarePlugin cfg)
      (fun c => SX1255Controller.SetRxFrequency c freqHz) w = (Ok tt, w1) /\
    HardwarePlugin.withController (HardwarePlugin.NewHardwarePlugin cfg)
      SX1255Controller.GetRxFrequency w1 = (Ok got, w2) /\
    Z.abs (got - freqHz)
    <= roundtrip_bound (HardwarePlugin.ClockFreq (HardwarePlugin.NewHardwarePlugin cfg)) /\
    (HardwarePlugin.ClockFreq cfg = 0 -> Z.abs (got - freqHz) <= 31) /\
    held w1 = held w /\ held w2 = held w.
Proof.
  intros Hclk Hq Hr Ht Hne Hf.
  set (p := HardwarePlugin.NewHardwarePlugin cfg).
  set (c := HardwarePlugin.ClockFreq p).
  assert (Hc : 31875001 <= c < 2 ^ 32).
  { unfold c, p, HardwarePlugin.NewHardwarePlugin. cbn [HardwarePlugin.ClockFreq].
    destruct Hclk as [-> | H].
    - cbn. lia.
    - destruct (Z.eqb_spec (HardwarePlugin.ClockFreq cfg) 0); [lia|exact H]. }
  assert (Hmk : forall w0, quiet w0 -> held w0 = held w ->
            exists s wa, HardwarePlugin.createController p w0 = (Ok s, wa)).
  { intros w0 Hq0 Hh0. unfold HardwarePlugin.createController.
    apply NewSX1255Controller_quiet; auto; rewrite Hh0; assumption. }
  assert (Hready : forall w0 s wa, HardwarePlugin.createController p w0 = (Ok s, wa) ->
            ready s /\ SX1255Controller.clockFreq s = c /\
            regs wa = regs w0 /\ fault wa = fault w0).
  { intros w0 s wa E. unfold HardwarePlugin.createController in E.
    apply NewSX1255Controller_ok in E. destruct E as (-> & _ & Hr0 & Hf0 & _).
    split; [|auto]. split; [reflexivity|]. eexists. split; [reflexivity|discriminate]. }
  destruct (frf_word_spec c freqHz) as (n & Hw & Hn); [lia|exact Hf|].
  pose proof (frf_24_bits c freqHz n Hc Hf Hn) as H24.
  pose proof (roundtrip_distance c freqHz n ltac:(lia) Hn) as Hdist.
  pose proof (roundtrip_bound_le c ltac:(lia)) as Hbound.
  assert (Hcn : c * n < 2 ^ 53).
  { change (2 ^ 53) with 9007199254740992. change (2 ^ 20) with 1048576 in Hn.
    change (2 ^ 32) with 4294967296 in Hc. lia. }
  (* the first request *)
  destruct (Hmk w Hq eq_refl) as (s1 & wa & E1).
  destruct (Hready _ _ _ E1) as ((Hi1 & d1 & Hs1 & Hd1) & Hc1 & Hra & Hfa).
  assert (Hqa : quiet wa) by (apply (quiet_fault w); assumption).
  set (wb := written RegFrflRx (n mod 2 ^ 8)
               (written RegFrfmRx ((n / 2 ^ 8) mod 2 ^ 8)
                  (written RegFrfhRx (n / 2 ^ 16) wa))).
  assert (Eset : SX1255Controller.SetRxFrequency s1 freqHz wa = (Ok tt, wb)).
  { apply (SetRxFrequency_writes s1 d1); auto; [rewrite Hc1; exact Hw|lia]. }
  destruct (withController_run p (fun c0 => SX1255Controller.SetRxFrequency c0 freqHz)
              w s1 wa (Ok tt) wb E1 Eset eq_refl) as (w1 & EW1 & Hh1 & Hr1 & Hf1).
  assert (Hq1 : quiet w1) by (apply (quiet_fault wb); [exact Hf1|]; unfold wb;
                              auto using quiet_written).
  (* the second request *)
  destruct (Hmk w1 Hq1 Hh1) as (s2 & wc & E2).
  destruct (Hready _ _ _ E2) as (Hr2 & Hc2 & Hrc & Hfc).
  assert (Hqc : quiet wc) by (apply (quiet_fault w1); assumption).
  assert (Hword : rx_word wc = n).
  { rewrite (rx_word_regs w1 wc Hrc), (rx_word_regs wb w1 Hr1).
    apply word_of_written_rx. lia. }
  set (got := (c * n + 2 ^ 19) / 2 ^ 20) in *.
  assert (Eget : SX1255Controller.GetRxFrequency s2 wc
                 = (Ok got, read_back RegFrflRx (read_back RegFrfmRx (read_back RegFrfhRx wc)))).
  { rewrite GetRxFrequency_quiet by assumption.
    rewrite Hc2, Hword, frf_hz_any by lia.
    rewrite converted_of_Z; [reflexivity|].
    change (2 ^ 32) with 4294967296 in *. unfold got in *. lia. }
  destruct (withController_run p SX1255Controller.GetRxFrequency
              w1 s2 wc (Ok got) _ E2 Eget eq_refl) as (w2 & EW2 & Hh2 & _).
  exists w1, got, w2.
  split; [exact EW1|]. split; [exact EW2|]. split; [exact Hdist|].
  split; [|split; congruence].
  intros H0. assert (c = 32000000).
  { unfold c, p, HardwarePlugin.NewHardwarePlugin. cbn [HardwarePlugin.ClockFreq].
    rewrite H0. reflexivity. }
  revert Hdist. rewrite H. unfold roundtrip_bound. cbn. lia.
Qed.

Lemma frequency_through_plugin_witness :
  exists w1 got w2,
    HardwarePlugin.withController (HardwarePlugin.NewHardwarePlugin plain_config)
      (fun c => SX1255Controller.SetRxFrequency c 434000000) still_world = (Ok tt, w1) /\
    HardwarePlugin.withController (HardwarePlugin.NewHardwarePlugin plain_config)
      SX1255Controller.GetRxFrequency w1 = (Ok got, w2) /\
    Z.abs (got - 434000000)
    <= roundtrip_bound
         (HardwarePlugin.ClockFreq (HardwarePlugin.NewHardwarePlugin plain_config)) /\
    (HardwarePlugin.ClockFreq plain_config = 0 -> Z.abs (got - 434000000) <= 31) /\
    held w1 = held still_world /\ held w2 = held still_world.
Proof.
  apply (frequency_through_plugin plain_config still_world 434000000).
  - left. reflexivity.
  - apply quiet_still_world.
  - reflexivity.
  - reflexivity.
  - cbn. lia.
  - lia.
Defined.

(** ** The transport: reopening and probing *)

Section Reopening.

Lemma speed_recovered speed :
  0 <= speed < 2 ^ 32 ->
  uint32 (Z.quot (speed * SPIDevice.physic_Hertz) SPIDevice.physic_Hertz) = speed.
Proof.
  intros H. unfold SPIDevice.physic_Hertz. rewrite Z.quot_mul by lia.
  unfold uint32. apply Z.mod_small. exact H.
Qed.

Lemma release_head r h : release r (r :: h) = h.
Proof. apply release_acquire. Qed.

End Reopening.

(** X21.  [Reopen] on an open transport whose port is held: when it
    succeeds the transport is as before, the port has been closed and opened
    once and is held again.  When it fails, at the close or at the opening,
    the transport still has its old connection and port, so that [IsOpen]
    answers true, but the port is no longer held; every port opened on the
    way has been closed.  [ValidateSPIDevice] holds nothing afterwards that
    was not held before, whatever fails. *)
Theorem reopen_handles device speed h w :
  0 <= speed < 2 ^ 32 ->
  held w = SpiPort device :: h ->
  match SPIDevice.Reopen (opened_transport device speed) w with
  | ((Ok _, d'), w') =>
      d' = opened_transport device speed /\ held w' = held w /\
      closed (appended w w') = [SpiPort device] /\
      opened (appended w w') = [SpiPort device]
  | ((Err _, d'), w') =>
      d' = opened_transport device speed /\ SPIDevice.IsOpen d' = true /\ held w' = h /\
      closed (appended w w') = SpiPort device :: rev (opened (appended w w'))
  end
  /\ held (snd (SPIDevice.ValidateSPIDevice device w)) = held w.
Proof.
  intros Hs Hh. split.
  - unfold SPIDevice.Reopen, SPIDevice.Close, wrapping, close_resource, opened_transport.
    cbn [SPIDevice.port SPIDevice.device SPIDevice.speed].
    rewrite speed_recovered by assumption.
    destruct (failing w) eqn:F.
    + split; [reflexivity|]. split; [reflexivity|].
      cbn [held set_held log]. rewrite Hh, release_head. split; [reflexivity|].
      rewrite (appended_app w _ [EvClose (SpiPort device) false]) by reflexivity.
      reflexivity.
    + set (w1 := set_held (release (SpiPort device) (held w))
                   (log (EvClose (SpiPort device) true) w)).
      assert (Hh1 : held w1 = h) by (unfold w1; cbn [held set_held]; rewrite Hh;
                                     apply release_head).
      assert (Ht1 : trace w1 = trace w ++ [EvClose (SpiPort device) true]) by reflexivity.
      pose proof (NewSPIDevice_handles device speed w1) as HS.
      destruct (SPIDevice.NewSPIDevice device speed w1) as [[n|e] w2] eqn:EN.
      * destruct HS as (Hh2 & _ & _ & seg & Ht2 & Ho & Hc).
        apply NewSPIDevice_ok in EN. destruct EN as (-> & _).
        split; [reflexivity|]. split; [rewrite Hh2, Hh1, Hh; reflexivity|].
        rewrite (appended_app w w2 ([EvClose (SpiPort device) true] ++ seg))
          by (rewrite Ht2, Ht1, <- app_assoc; reflexivity).
        rewrite closed_app, opened_app, Hc, Ho. split; reflexivity.
      * destruct HS as (Hh2 & seg & Ht2 & Hc).
        split; [reflexivity|]. split; [reflexivity|].
        split; [rewrite Hh2; exact Hh1|].
        rewrite (appended_app w w2 ([EvClose (SpiPort device) true] ++ seg))
          by (rewrite Ht2, Ht1, <- app_assoc; reflexivity).
        rewrite closed_app, opened_app, Hc. reflexivity.
  - unfold SPIDevice.ValidateSPIDevice, bind, wrapping, ignoring, host_Init,
      open_resource, close_resource, external, ret.
    repeat match goal with
           | |- context [if failing ?w0 then _ else _] => destruct (failing w0)
           end; cbn [snd held set_held log acquire]; rewrite ?release_head; reflexivity.
Qed.

Lemma reopen_handles_witness :
  match SPIDevice.Reopen (opened_transport "/dev/spidev0.0" 500000)
          (snd (SPIDevice.NewSPIDevice "/dev/spidev0.0" 500000 still_world)) with
  | ((Ok _, d'), w') =>
      d' = opened_transport "/dev/spidev0.0" 500000 /\
      held w' = held (snd (SPIDevice.NewSPIDevice "/dev/spidev0.0" 500000 still_world)) /\
      closed (appended (snd (SPIDevice.NewSPIDevice "/dev/spidev0.0" 500000 still_world)) w')
      = [SpiPort "/dev/spidev0.0"] /\
      opened (appended (snd (SPIDevice.NewSPIDevice "/dev/spidev0.0" 500000 still_world)) w')
      = [SpiPort "/dev/spidev0.0"]
  | ((Err _, d'), w') =>
      d' = opened_transport "/dev/spidev0.0" 500000 /\
      SPIDevice.IsOpen d' = true /\ held w' = [] /\
      closed (appended (snd (SPIDevice.NewSPIDevice "/dev/spidev0.0" 500000 still_world)) w')
      = SpiPort "/dev/spidev0.0"
        :: rev (opened (appended
                          (snd (SPIDevice.NewSPIDevice "/dev/spidev0.0" 500000 still_world))
                          w'))
  end
  /\ held (snd (SPIDevice.ValidateSPIDevice "/dev/spidev0.0"
                  (snd (SPIDevice.NewSPIDevice "/dev/spidev0.0" 500000 still_world))))
     = held (snd (SPIDevice.NewSPIDevice "/dev/spidev0.0" 500000 still_world)).
Proof.
  apply (reopen_handles "/dev/spidev0.0" 500000 []
           (snd (SPIDevice.NewSPIDevice "/dev/spidev0.0" 500000 still_world))).
  - lia.
  - reflexivity.
Defined.

(** The reopening that fails at the opening: the transport still answers
    that it is open, and holds no port. *)
Example reopen_fails_at_open :
  let w := snd (SPIDevice.NewSPIDevice "/dev/spidev0.0" 500000 (faulty_world 5)) in
  held w = [SpiPort "/dev/spidev0.0"]
  /\ fst (fst (SPIDevice.Reopen (opened_transport "/dev/spidev0.0" 500000) w))
     = Err (Wrap "failed to open SPI device" (ErrExternal "spireg.Open"))
  /\ SPIDevice.IsOpen (snd (fst (SPIDevice.Reopen (opened_transport "/dev/spidev0.0" 500000) w)))
     = true
  /\ held (snd (SPIDevice.Reopen (opened_transport "/dev/spidev0.0" 500000) w)) = [].
Proof. cbv zeta. repeat split; vm_compute; reflexivity. Qed.

(** ** Bursts *)

Section Bursts.

Lemma land_7F_mod a : Z.land a 0x7F = a mod 128.
Proof. change 0x7F with (Z.ones 7). rewrite Z.land_ones by lia. reflexivity. Qed.

Lemma address_apart a k : 0 < k < 128 -> Z.land (a + k) 0x7F <> Z.land a 0x7F.
Proof.
  intros Hk. rewrite !land_7F_mod. intros E.
  pose proof (Z.div_mod (a + k) 128 ltac:(lia)).
  pose proof (Z.div_mod a 128 ltac:(lia)).
  lia.
Qed.

(** A burst write leaves alone the registers it does not reach. *)
Lemma write_burst_other data : forall r a x,
  (forall i, 0 <= i < Z.of_nat (List.length data) -> Z.land (a + i) 0x7F <> x) ->
  write_burst r a data x = r x.
Proof.
  induction data as [|v rest IH]; intros r a x H; [reflexivity|].
  cbn [write_burst]. rewrite IH.
  - unfold upd.
    assert (N : Z.land a 0x7F <> x).
    { rewrite <- (Z.add_0_r a). apply H. cbn [List.length]. lia. }
    destruct (Z.eqb_spec x (Z.land a 0x7F)); [congruence|reflexivity].
  - intros i Hi. replace (a + 1 + i) with (a + (1 + i)) by lia.
    apply H. cbn [List.length]. lia.
Qed.

(** Reading a burst back from where it was written. *)
Lemma read_write_burst data : forall r a dummy,
  Forall (fun v => 0 <= v < 256) data ->
  (List.length data <= 128)%nat ->
  List.length dummy = List.length data ->
  read_burst (write_burst r a data) a dummy = data.
Proof.
  induction data as [|v rest IH]; intros r a dummy Hb Hl Hd.
  - destruct dummy; [reflexivity|discriminate].
  - destruct dummy as [|z dummy]; [discriminate|].
    inversion Hb as [|? ? Hv Hrest]; subst.
    cbn [write_burst read_burst]. f_equal.
    + rewrite write_burst_other.
      * unfold upd. rewrite Z.eqb_refl, uint8_idem. apply uint8_small. exact Hv.
      * intros i Hi. replace (a + 1 + i) with (a + (1 + i)) by lia.
        apply address_apart. cbn [List.length] in Hl. lia.
    + apply IH; [assumption|cbn [List.length] in Hl; lia|].
      cbn [List.length] in Hd. lia.
Qed.

Lemma frames_two tx1 rx1 tx2 rx2 :
  frames [EvTx tx1 rx1; EvSleep 10; EvTx tx2 rx2; EvSleep 10] = [tx1; tx2].
Proof. reflexivity. Qed.

End Bursts.

(** X22.  A burst written is the burst read back: on a working bus, for
    at most 128 bytes, [BurstWrite] at a start address followed by
    [BurstRead] of as many bytes at the same address returns the bytes
    written.  Each is one exchange, of the address byte, with bit 7 set for
    the write and cleared for the read, and one byte per register; a burst of
    one byte leaves the registers as [WriteRegister] does. *)
Theorem burst_roundtrip d startAddr values value w :
  SPIDevice.conn d <> None -> quiet w ->
  values <> [] -> (List.length values <= 128)%nat ->
  Forall (fun v => 0 <= v < 256) values ->
  exists w1 w2,
    SPIDevice.BurstWrite d startAddr values w = (Ok tt, w1) /\
    SPIDevice.BurstRead d startAddr (Z.of_nat (List.length values)) w1 = (Ok values, w2) /\
    frames (appended w w2)
    = [Z.lor startAddr 0x80 :: values;
       Z.land startAddr 0x7F :: repeat 0 (List.length values)] /\
    regs (snd (SPIDevice.BurstWrite d startAddr [value] w))
    = regs (snd (SPIDevice.WriteRegister d startAddr value w)).
Proof.
  intros Hd Hq Hne Hl Hb.
  destruct (SPIDevice.conn d) as [c|] eqn:Hc; [|contradiction].
  assert (Hn : Nat.eqb (List.length values) 0 = false)
    by (destruct values; [contradiction|reflexivity]).
  assert (Hcount : (Z.of_nat (List.length values) <=? 0) = false)
    by (apply Z.leb_gt; destruct values; [contradiction|cbn [List.length]; lia]).
  set (r1 := write_burst (regs w) (Z.land startAddr 0x7F) values).
  set (tx1 := Z.lor startAddr 0x80 :: values).
  set (w1 := log (EvSleep 10)
               (set_regs r1 (log (EvTx tx1 (Some (0 :: map (fun _ => 0) values))) w))).
  set (tx2 := Z.land startAddr 0x7F :: repeat 0 (List.length values)).
  set (w2 := log (EvSleep 10) (set_regs r1 (log (EvTx tx2 (Some (0 :: values))) w1))).
  assert (E1 : SPIDevice.BurstWrite d startAddr values w = (Ok tt, w1)).
  { unfold SPIDevice.BurstWrite, SPIDevice.Transfer. rewrite Hn, Hc, Nat.eqb_refl.
    cbn [negb]. unfold bind, wrapping, conn_Tx. rewrite (quiet_failing w Hq).
    unfold chip_exchange. rewrite write_address_bit, write_address_low. reflexivity. }
  assert (E2 : SPIDevice.BurstRead d startAddr (Z.of_nat (List.length values)) w1
               = (Ok values, w2)).
  { unfold SPIDevice.BurstRead, SPIDevice.Transfer.
    rewrite Hcount, Hc, Nat.eqb_refl, Nat2Z.id.
    cbn [negb]. unfold bind, wrapping, conn_Tx.
    replace (failing w1) with false by (symmetry; apply Hq).
    unfold chip_exchange. rewrite read_address_bit.
    replace (read_burst (regs w1) (Z.land startAddr 0x7F) (repeat 0 (List.length values)))
      with values
      by (symmetry; apply read_write_burst; [assumption|assumption|apply repeat_length]).
    reflexivity. }
  exists w1, w2. split; [exact E1|]. split; [exact E2|]. split.
  - rewrite (appended_app w w2 [EvTx tx1 (Some (0 :: map (fun _ => 0) values)); EvSleep 10;
                                EvTx tx2 (Some (0 :: values)); EvSleep 10]).
    + apply frames_two.
    + unfold w2, w1. cbn [log set_regs trace]. rewrite <- !app_assoc. reflexivity.
  - rewrite WriteRegister_quiet by (rewrite ?Hc; auto; discriminate).
    unfold SPIDevice.BurstWrite, SPIDevice.Transfer. rewrite Hc.
    cbn [List.length Nat.eqb negb]. unfold bind, wrapping, conn_Tx.
    rewrite (quiet_failing w Hq). unfold chip_exchange.
    rewrite write_address_bit, write_address_low. cbn [write_burst].
    rewrite land_7F_idem. reflexivity.
Qed.

Lemma burst_roundtrip_witness :
  exists w1 w2,
    SPIDevice.BurstWrite open_transport RegFrfhRx [0xC0; 0xE3; 0x8E] still_world
    = (Ok tt, w1) /\
    SPIDevice.BurstRead open_transport RegFrfhRx
      (Z.of_nat (List.length [0xC0; 0xE3; 0x8E])) w1 = (Ok [0xC0; 0xE3; 0x8E], w2) /\
    frames (appended still_world w2)
    = [Z.lor RegFrfhRx 0x80 :: [0xC0; 0xE3; 0x8E];
       Z.land RegFrfhRx 0x7F :: repeat 0 (List.length [0xC0; 0xE3; 0x8E])] /\
    regs (snd (SPIDevice.BurstWrite open_transport RegFrfhRx [0x55] still_world))
    = regs (snd (SPIDevice.WriteRegister open_transport RegFrfhRx 0x55 still_world)).
Proof.
  apply (burst_roundtrip open_transport RegFrfhRx [0xC0; 0xE3; 0x8E] 0x55 still_world).
  - discriminate.
  - apply quiet_still_world.
  - discriminate.
  - cbn. lia.
  - repeat constructor; cbv; discriminate.
Defined.

(** ** Initialization and reset, continued *)

(** X23.  [Initialize] checks the bus and nothing else: on a ready
    controller it makes the one exchange that reads VERSION and succeeds
    exactly when that exchange does, whatever byte comes back, 0x00 and 0xFF
    included; it changes no register. *)
Theorem initialize_checks_the_bus_only s w :
  ready s ->
  exists w',
    SX1255Controller.Initialize s w
    = (if failing w
       then Err (Wrap "failed to verify SPI communication"
                   (Wrap "failed to read register"
                      (Wrap "SPI transfer failed" (ErrExternal "conn.Tx"))))
       else Ok tt, w') /\
    frames (appended w w') = [[RegVersion; 0x00]] /\
    regs w' = regs w.
Proof.
  intros (Hi & d & Hs & Hd).
  unfold SX1255Controller.Initialize, SX1255Controller.GetVersion.
  rewrite Hi. cbn [negb]. unfold SX1255Controller.via_spi. rewrite Hs.
  unfold bind, wrapping. rewrite ReadRegister_step by assumption.
  destruct (failing w); eexists; (split; [reflexivity|]); split; try reflexivity.
  - rewrite (appended_app w _ [EvTx [Z.land RegVersion 0x7F; 0x00] None]) by reflexivity.
    reflexivity.
  - cbn [ret]. rewrite (appended_app _ _ _ (trace_read_back RegVersion w)). reflexivity.
Qed.

Lemma initialize_checks_the_bus_only_witness :
  exists w',
    SX1255Controller.Initialize (open_controller 32000000) (faulty_world 0)
    = (if failing (faulty_world 0)
       then Err (Wrap "failed to verify SPI communication"
                   (Wrap "failed to read register"
                      (Wrap "SPI transfer failed" (ErrExternal "conn.Tx"))))
       else Ok tt, w') /\
    frames (appended (faulty_world 0) w') = [[RegVersion; 0x00]] /\
    regs w' = regs (faulty_world 0).
Proof.
  apply (initialize_checks_the_bus_only (open_controller 32000000) (faulty_world 0)).
  apply ready_open_controller.
Defined.

Section ResetRequest.

Lemma slept_app t1 t2 : slept (t1 ++ t2) = slept t1 + slept t2.
Proof.
  induction t1 as [|ev t1 IH]; [reflexivity|].
  destruct ev; cbn [app slept]; rewrite IH; lia.
Qed.

Lemma driven_app t1 t2 : driven (t1 ++ t2) = driven t1 ++ driven t2.
Proof.
  induction t1 as [|ev t1 IH]; [reflexivity|].
  destruct ev as [| | | | |r v [|]|]; cbn [app driven]; rewrite IH; reflexivity.
Qed.

(** Making a controller sends no frame and does not sleep; the two
    requests drive the reset line and the TX/RX line low. *)
Lemma NewSX1255Controller_segment
    spiDevice spiSpeed gpioChip resetPin txRxPin clockFreq w s w1 :
  SX1255Controller.NewSX1255Controller
    spiDevice spiSpeed gpioChip resetPin txRxPin clockFreq w = (Ok s, w1) ->
  exists seg,
    trace w1 = trace w ++ seg /\
    frames seg = [] /\ slept seg = 0 /\
    driven seg = [(GpioLine gpioChip resetPin, 0); (GpioLine gpioChip txRxPin, 0)] /\
    closed seg = [].
Proof.
  unfold SX1255Controller.NewSX1255Controller, SPIDevice.NewSPIDevice,
    GPIOController.NewGPIOController, bind, wrapping, or_cleanup, ignoring, host_Init,
    chip_RequestLine, open_resource, close_resource, external, ret.
  intros H.
  repeat match type of H with
         | context [if failing ?w0 then _ else _] => destruct (failing w0)
         | context [if existsb ?f ?l then _ else _] => destruct (existsb f l)
         end; inversion H; subst;
    cbn [trace log set_held]; rewrite <- ?app_assoc; cbn [app];
    eexists; (split; [reflexivity|]); repeat split.
Qed.

Lemma Reset_quiet g line w :
  GPIOController.resetLine g = Some line -> quiet w ->
  GPIOController.Reset g w
  = (Ok tt, log (EvSleep 5000)
              (log (EvSetValue line 0 true)
                 (log (EvSleep 100) (log (EvSetValue line 1 true) w)))).
Proof.
  intros Hl Hq. unfold GPIOController.Reset. rewrite Hl.
  unfold bind, wrapping, line_SetValue, external, time_Sleep.
  rewrite (quiet_failing w Hq).
  replace (failing (log (EvSleep 100) (log (EvSetValue line 1 true) w))) with false
    by (symmetry; apply Hq).
  reflexivity.
Qed.

End ResetRequest.

(** X24.  The reset request, from the making of the controller to its
    closing: on a working system with the two lines free and distinct,
    [withController] around [Reset] succeeds.  The levels driven are, in
    order: the reset line low and the TX/RX line low, by the two requests
    as outputs at 0, and then the reset line high and low again; the TX/RX
    line is not driven after its request.  The call sleeps 5100 microseconds
    in all, sends no frame on the SPI bus, closes the four handles it opened
    and leaves none held. *)
Theorem reset_through_plugin p w :
  quiet w ->
  existsb (Resource_eqb (GpioLine (HardwarePlugin.GPIOChip p) (HardwarePlugin.ResetPin p)))
          (held w) = false ->
  existsb (Resource_eqb (GpioLine (HardwarePlugin.GPIOChip p) (HardwarePlugin.TxRxPin p)))
          (held w) = false ->
  HardwarePlugin.ResetPin p <> HardwarePlugin.TxRxPin p ->
  exists w1,
    HardwarePlugin.withController p SX1255Controller.Reset w = (Ok tt, w1) /\
    driven (appended w w1)
    = [(GpioLine (HardwarePlugin.GPIOChip p) (HardwarePlugin.ResetPin p), 0);
       (GpioLine (HardwarePlugin.GPIOChip p) (HardwarePlugin.TxRxPin p), 0);
       (GpioLine (HardwarePlugin.GPIOChip p) (HardwarePlugin.ResetPin p), 1);
       (GpioLine (HardwarePlugin.GPIOChip p) (HardwarePlugin.ResetPin p), 0)] /\
    slept (appended w w1) = 5100 /\
    frames (appended w w1) = [] /\
    closed (appended w w1)
    = [SpiPort (HardwarePlugin.SPIDevice p);
       GpioLine (HardwarePlugin.GPIOChip p) (HardwarePlugin.TxRxPin p);
       GpioLine (HardwarePlugin.GPIOChip p) (HardwarePlugin.ResetPin p);
       GpioChip (HardwarePlugin.GPIOChip p)] /\
    held w1 = held w.
Proof.
  intros Hq Hr Ht Hne.
  destruct (NewSX1255Controller_quiet (HardwarePlugin.SPIDevice p) (HardwarePlugin.SPISpeed p)
              (HardwarePlugin.GPIOChip p) (HardwarePlugin.ResetPin p)
              (HardwarePlugin.TxRxPin p) (HardwarePlugin.ClockFreq p) w Hq Hr Ht Hne)
    as (s & wa & E).
  destruct (NewSX1255Controller_segment _ _ _ _ _ _ _ _ _ E)
    as (seg & Hseg & Sf & Ss & Sd & Sc).
  pose proof (NewSX1255Controller_ok _ _ _ _ _ _ _ _ _ E) as (-> & Hh & _ & Hf & _).
  assert (Hqa : quiet wa) by (apply (quiet_fault w); assumption).
  set (line := GpioLine (HardwarePlugin.GPIOChip p) (HardwarePlugin.ResetPin p)) in *.
  set (wb := log (EvSleep 5000)
               (log (EvSetValue line 0 true)
                  (log (EvSleep 100) (log (EvSetValue line 1 true) wa)))).
  unfold HardwarePlugin.withController, HardwarePlugin.createController. rewrite E.
  unfold SX1255Controller.Reset at 1.
  cbn [SX1255Controller.initialized negb SX1255Controller.via_gpio SX1255Controller.gpio].
  unfold SX1255Controller.via_gpio. cbn [SX1255Controller.gpio].
  erewrite Reset_quiet by (try reflexivity; exact Hqa). fold line wb.
  match goal with
  | |- context [SX1255Controller.Close
                  (SX1255Controller.mk (Some (SPIDevice.mk ?cn (Some ?p0) ?dev ?spd))
                     (Some (GPIOController.mk (Some ?c0) (Some ?r0) (Some ?t0) ?path ?rp ?tp))
                     ?clk ?ini) wb] =>
      destruct (SX1255Controller_Close_open p0 cn dev spd c0 r0 t0 path rp tp clk ini wb)
        as (errs & b0 & b1 & b2 & b3 & EC)
  end.
  rewrite EC. cbn [snd]. eexists. split; [reflexivity|].
  rewrite (appended_app w _
             (seg ++ [EvSetValue line 1 true; EvSleep 100; EvSetValue line 0 true;
                      EvSleep 5000]
                  ++ [EvClose (SpiPort (HardwarePlugin.SPIDevice p)) b0;
                      EvClose (GpioLine (HardwarePlugin.GPIOChip p) (HardwarePlugin.TxRxPin p)) b1;
                      EvClose line b2;
                      EvClose (GpioChip (HardwarePlugin.GPIOChip p)) b3])).
  - rewrite !driven_app, !slept_app, !frames_app, !closed_app, Sd, Ss, Sf, Sc.
    cbn [held]. repeat split.
    unfold wb. cbn [held log]. rewrite Hh. apply release_controller.
  - cbn [trace]. unfold wb. cbn [trace log]. rewrite Hseg, <- !app_assoc. reflexivity.
Qed.

Lemma reset_through_plugin_witness :
  exists w1,
    HardwarePlugin.withController (HardwarePlugin.NewHardwarePlugin plain_config)
      SX1255Controller.Reset still_world = (Ok tt, w1) /\
    driven (appended still_world w1)
    = [(GpioLine (HardwarePlugin.GPIOChip (HardwarePlugin.NewHardwarePlugin plain_config))
                 (HardwarePlugin.ResetPin (HardwarePlugin.NewHardwarePlugin plain_config)), 0);
       (GpioLine (HardwarePlugin.GPIOChip (HardwarePlugin.NewHardwarePlugin plain_config))
                 (HardwarePlugin.TxRxPin (HardwarePlugin.NewHardwarePlugin plain_config)), 0);
       (GpioLine (HardwarePlugin.GPIOChip (HardwarePlugin.NewHardwarePlugin plain_config))
                 (HardwarePlugin.ResetPin (HardwarePlugin.NewHardwarePlugin plain_config)), 1);
       (GpioLine (HardwarePlugin.GPIOChip (HardwarePlugin.NewHardwarePlugin plain_config))
                 (HardwarePlugin.ResetPin (HardwarePlugin.NewHardwarePlugin plain_config)), 0)] /\
    slept (appended still_world w1) = 5100 /\
    frames (appended still_world w1) = [] /\
    closed (appended still_world w1)
    = [SpiPort (HardwarePlugin.SPIDevice (HardwarePlugin.NewHardwarePlugin plain_config));
       GpioLine (HardwarePlugin.GPIOChip (HardwarePlugin.NewHardwarePlugin plain_config))
                (HardwarePlugin.TxRxPin (HardwarePlugin.NewHardwarePlugin plain_config));
       GpioLine (HardwarePlugin.GPIOChip (HardwarePlugin.NewHardwarePlugin plain_config))
                (HardwarePlugin.ResetPin (HardwarePlugin.NewHardwarePlugin plain_config));
       GpioChip (HardwarePlugin.GPIOChip (HardwarePlugin.NewHardwarePlugin plain_config))] /\
    held w1 = held still_world.
Proof.
  apply (reset_through_plugin (HardwarePlugin.NewHardwarePlugin plain_config) still_world).
  - apply quiet_still_world.
  - reflexivity.
  - reflexivity.
  - cbn. lia.
Defined.

(** ** The GPIO controller, reinitialized *)

(** X25.  [Reinitialize] on a GPIO controller that holds its three
    handles: when it succeeds the controller is as before, the three handles
    have been closed and opened again and are held.  When it fails, because a
    close reported an error or because the chip or a line could not be
    opened again, the controller is left closed, not initialized, and none
    of its handles is held; after a failed close nothing is opened at
    all. *)
Theorem gpio_reinitialize chipPath resetPin txRxPin h w :
  held w = GpioLine chipPath txRxPin :: GpioLine chipPath resetPin
             :: GpioChip chipPath :: h ->
  match GPIOController.Reinitialize (opened_lines chipPath resetPin txRxPin) w with
  | ((None, g'), w') =>
      g' = opened_lines chipPath resetPin txRxPin /\ held w' = held w /\
      closed (appended w w')
      = [GpioLine chipPath txRxPin; GpioLine chipPath resetPin; GpioChip chipPath] /\
      opened (appended w w')
      = [GpioChip chipPath; GpioLine chipPath resetPin; GpioLine chipPath txRxPin]
  | ((Some (ReinitCloseFailed report), g'), w') =>
      report <> [] /\
      GPIOController.IsInitialized g' = false /\ held w' = h /\
      opened (appended w w') = [] /\
      closed (appended w w')
      = [GpioLine chipPath txRxPin; GpioLine chipPath resetPin; GpioChip chipPath]
  | ((Some (ReinitOpenFailed _), g'), w') =>
      GPIOController.IsInitialized g' = false /\ held w' = h
  end.
Proof.
  intros Hh. unfold GPIOController.Reinitialize, opened_lines.
  cbn [GPIOController.chipPath GPIOController.resetPin GPIOController.txRxPin].
  destruct (GPIOController_Close_open (GpioChip chipPath) (GpioLine chipPath resetPin)
              (GpioLine chipPath txRxPin) chipPath resetPin txRxPin w)
    as (errs & b1 & b2 & b3 & E).
  rewrite E.
  set (w1 := mkWorld (regs w)
               (release (GpioChip chipPath)
                  (release (GpioLine chipPath resetPin)
                     (release (GpioLine chipPath txRxPin) (held w))))
               (trace w ++ [EvClose (GpioLine chipPath txRxPin) b1;
                            EvClose (GpioLine chipPath resetPin) b2;
                            EvClose (GpioChip chipPath) b3])
               (fault w) (impl_uint32 w)).
  assert (Hh1 : held w1 = h).
  { unfold w1. cbn [held]. rewrite Hh.
    repeat (cbn [release Resource_eqb andb];
            rewrite ?String.eqb_refl, ?Z.eqb_refl).
    reflexivity. }
  assert (Ht1 : trace w1 = trace w ++ [EvClose (GpioLine chipPath txRxPin) b1;
                                       EvClose (GpioLine chipPath resetPin) b2;
                                       EvClose (GpioChip chipPath) b3]) by reflexivity.
  destruct errs as [|e errs].
  - pose proof (NewGPIOController_handles chipPath resetPin txRxPin w1) as HG.
    destruct (GPIOController.NewGPIOController chipPath resetPin txRxPin w1)
      as [[n|e] w2] eqn:EN.
    + destruct HG as (Hh2 & _ & _ & seg & Ht2 & Ho & Hc).
      apply NewGPIOController_ok in EN. destruct EN as (-> & _).
      cbn [GPIOController.chip GPIOController.resetLine GPIOController.txRxLine
           GPIOController.chipPath GPIOController.resetPin GPIOController.txRxPin].
      split; [reflexivity|]. split; [rewrite Hh2, Hh1, Hh; reflexivity|].
      rewrite (appended_app w w2 (_ ++ seg))
        by (rewrite Ht2, Ht1, <- app_assoc; reflexivity).
      rewrite closed_app, opened_app, Hc, Ho. split; reflexivity.
    + destruct HG as (Hh2 & _). split; [reflexivity|]. rewrite Hh2. exact Hh1.
  - split; [discriminate|]. split; [reflexivity|]. split; [exact Hh1|].
    rewrite (appended_app w w1 _ Ht1). split; reflexivity.
Qed.

Lemma gpio_reinitialize_witness :
  match GPIOController.Reinitialize (opened_lines "gpiochip0" 5 6)
          (snd (GPIOController.NewGPIOController "gpiochip0" 5 6 still_world)) with
  | ((None, g'), w') =>
      g' = opened_lines "gpiochip0" 5 6 /\
      held w' = held (snd (GPIOController.NewGPIOController "gpiochip0" 5 6 still_world)) /\
      closed (appended (snd (GPIOController.NewGPIOController "gpiochip0" 5 6 still_world)) w')
      = [GpioLine "gpiochip0" 6; GpioLine "gpiochip0" 5; GpioChip "gpiochip0"] /\
      opened (appended (snd (GPIOController.NewGPIOController "gpiochip0" 5 6 still_world)) w')
      = [GpioChip "gpiochip0"; GpioLine "gpiochip0" 5; GpioLine "gpiochip0" 6]
  | ((Some (ReinitCloseFailed report), g'), w') =>
      report <> [] /\
      GPIOController.IsInitialized g' = false /\ held w' = [] /\
      opened (appended (snd (GPIOController.NewGPIOController "gpiochip0" 5 6 still_world)) w')
      = [] /\
      closed (appended (snd (GPIOController.NewGPIOController "gpiochip0" 5 6 still_world)) w')
      = [GpioLine "gpiochip0" 6; GpioLine "gpiochip0" 5; GpioChip "gpiochip0"]
  | ((Some (ReinitOpenFailed _), g'), w') =>
      GPIOController.IsInitialized g' = false /\ held w' = []
  end.
Proof.
  apply (gpio_reinitialize "gpiochip0" 5 6 []
           (snd (GPIOController.NewGPIOController "gpiochip0" 5 6 still_world))).
  reflexivity.
Defined.

(** A close that reports an error ends the reinitialization: the lines
    and the chip are closed and not opened again. *)
Example reinitialize_after_failed_close :
  let w := snd (GPIOController.NewGPIOController "gpiochip0" 5 6 (faulty_world 6)) in
  held w = [GpioLine "gpiochip0" 6; GpioLine "gpiochip0" 5; GpioChip "gpiochip0"]
  /\ fst (fst (GPIOController.Reinitialize (opened_lines "gpiochip0" 5 6) w))
     = Some (ReinitCloseFailed
               [Wrap "failed to close reset line" (ErrExternal "line.Close")])
  /\ held (snd (GPIOController.Reinitialize (opened_lines "gpiochip0" 5 6) w)) = []
  /\ GPIOController.IsInitialized
       (snd (fst (GPIOController.Reinitialize (opened_lines "gpiochip0" 5 6) w))) = false.
Proof. cbv zeta. repeat split; vm_compute; reflexivity. Qed.

(** ** Operations that write no register *)

Create HintDb reads.

Lemma reads_only_ret {A} (a : A) : reads_only (ret a).
Proof. intros w. split; reflexivity. Qed.

Lemma reads_only_fail {A} e : reads_only (@fail A e).
Proof. intros w. split; reflexivity. Qed.

Lemma reads_only_bind {A B} (c : M A) (k : A -> M B) :
  reads_only c -> (forall a, reads_only (k a)) -> reads_only (bind c k).
Proof.
  intros Hc Hk w. unfold bind. specialize (Hc w).
  destruct (c w) as [[a|e] w']; cbn [snd] in *; [|exact Hc].
  destruct (Hk a w') as [R T]. destruct Hc as [R' T']. split; congruence.
Qed.

Lemma reads_only_wrapping {A} msg (c : M A) : reads_only c -> reads_only (wrapping msg c).
Proof.
  intros Hc w. unfold wrapping. specialize (Hc w).
  destruct (c w) as [[a|e] w']; exact Hc.
Qed.

Lemma reads_only_dropping_error {A} (zero : A) (c : M A) :
  reads_only c -> reads_only (HardwarePlugin.dropping_error zero c).
Proof.
  intros Hc w. unfold HardwarePlugin.dropping_error. specialize (Hc w).
  destruct (c w) as [[a|e] w']; [exact Hc|].
  destruct (HardwarePlugin.is_panic e); exact Hc.
Qed.

Lemma reads_only_if {A} (b : bool) (x y : M A) :
  reads_only x -> reads_only y -> reads_only (if b then x else y).
Proof. destruct b; auto. Qed.

Lemma reads_only_time_Sleep us : reads_only (time_Sleep us).
Proof.
  intros w. split; [reflexivity|]. cbn [time_Sleep snd log trace].
  rewrite register_writes_app. apply app_nil_r.
Qed.

Lemma reads_only_to_uint32 x : reads_only (to_uint32 x).
Proof. intros w. split; reflexivity. Qed.

(** An exchange whose address byte has bit 7 clear. *)
Lemma reads_only_read_frame a data : reads_only (conn_Tx (Z.land a 0x7F :: data)).
Proof.
  intros w. unfold conn_Tx. destruct (failing w).
  - split; [reflexivity|]. cbn [snd log trace]. rewrite register_writes_app.
    unfold register_writes at 2. cbn [filter is_write_frame].
    rewrite read_address_bit. apply app_nil_r.
  - unfold chip_exchange. rewrite read_address_bit. split; [reflexivity|].
    cbn [snd log set_regs trace]. rewrite register_writes_app.
    unfold register_writes at 2. cbn [filter is_write_frame].
    rewrite read_address_bit. apply app_nil_r.
Qed.

#[local] Hint Resolve reads_only_ret reads_only_fail reads_only_bind reads_only_wrapping
  reads_only_dropping_error reads_only_if reads_only_time_Sleep reads_only_to_uint32
  reads_only_read_frame : reads.

Lemma reads_only_ReadRegister d a : reads_only (SPIDevice.ReadRegister d a).
Proof.
  unfold SPIDevice.ReadRegister, SPIDevice.Transfer.
  destruct (SPIDevice.conn d); auto 8 with reads.
Qed.

Lemma reads_only_BurstRead d a n : reads_only (SPIDevice.BurstRead d a n).
Proof.
  unfold SPIDevice.BurstRead, SPIDevice.Transfer.
  destruct (SPIDevice.conn d); auto 9 with reads.
Qed.

Lemma reads_only_via_spi {A} s (k : SPIDevice.t -> M A) :
  (forall d, reads_only (k d)) -> reads_only (SX1255Controller.via_spi s k).
Proof.
  intros H. unfold SX1255Controller.via_spi.
  destruct (SX1255Controller.spi s); auto with reads.
Qed.

#[local] Hint Resolve reads_only_ReadRegister reads_only_BurstRead reads_only_via_spi : reads.

Lemma reads_only_read_registers d addrs :
  forall registers, reads_only (SX1255Controller.read_registers d addrs registers).
Proof.
  induction addrs as [|a rest IH]; intros registers;
    cbn [SX1255Controller.read_registers]; auto with reads.
Qed.

Lemma reads_only_GetVersion s : reads_only (SX1255Controller.GetVersion s).
Proof. unfold SX1255Controller.GetVersion. auto with reads. Qed.

Lemma reads_only_GetVersionString s : reads_only (SX1255Controller.GetVersionString s).
Proof.
  unfold SX1255Controller.GetVersionString. auto using reads_only_GetVersion with reads.
Qed.

Lemma reads_only_GetRxFrequency s : reads_only (SX1255Controller.GetRxFrequency s).
Proof. unfold SX1255Controller.GetRxFrequency. auto 10 with reads. Qed.

Lemma reads_only_GetTxFrequency s : reads_only (SX1255Controller.GetTxFrequency s).
Proof. unfold SX1255Controller.GetTxFrequency. auto 10 with reads. Qed.

Lemma reads_only_GetMode s : reads_only (SX1255Controller.GetMode s).
Proof. unfold SX1255Controller.GetMode. auto with reads. Qed.

Lemma reads_only_GetStatus s : reads_only (SX1255Controller.GetStatus s).
Proof. unfold SX1255Controller.GetStatus. auto 8 with reads. Qed.

(** X26.  The read operations write nothing: for every controller and
    transport, open or not, every argument and every pattern of failures of
    the bus, after a register read, a burst read, the read of all registers,
    of the mode, of a frequency, of the status, of the version and after
    the plain initialization the register file is the one before the call
    and the call has sent no write frame; so it is for the whole sequence
    of reads behind the status request. *)
Theorem read_operations_write_nothing s d :
  (forall a, reads_only (SPIDevice.ReadRegister d a)) /\
  (forall a n, reads_only (SPIDevice.BurstRead d a n)) /\
  reads_only (SPIDevice.CheckDevice d) /\
  (forall a, reads_only (SX1255Controller.ReadRegister s a)) /\
  reads_only (SX1255Controller.ReadAllRegisters s) /\
  reads_only (SX1255Controller.GetMode s) /\
  reads_only (SX1255Controller.GetRxFrequency s) /\
  reads_only (SX1255Controller.GetTxFrequency s) /\
  reads_only (SX1255Controller.GetStatus s) /\
  reads_only (SX1255Controller.GetPLLStatus s) /\
  reads_only (SX1255Controller.GetVersion s) /\
  reads_only (SX1255Controller.GetVersionString s) /\
  reads_only (SX1255Controller.Initialize s) /\
  reads_only (HardwarePlugin.handleStatus_fn s).
Proof.
  repeat match goal with |- _ /\ _ => split end; intros.
  - apply reads_only_ReadRegister.
  - apply reads_only_BurstRead.
  - unfold SPIDevice.CheckDevice. auto with reads.
  - unfold SX1255Controller.ReadRegister. auto with reads.
  - unfold SX1255Controller.ReadAllRegisters.
    auto using reads_only_read_registers with reads.
  - apply reads_only_GetMode.
  - apply reads_only_GetRxFrequency.
  - apply reads_only_GetTxFrequency.
  - apply reads_only_GetStatus.
  - unfold SX1255Controller.GetPLLStatus. auto 8 with reads.
  - apply reads_only_GetVersion.
  - apply reads_only_GetVersionString.
  - unfold SX1255Controller.Initialize. auto using reads_only_GetVersion with reads.
  - unfold HardwarePlugin.handleStatus_fn.
    apply reads_only_bind; [apply reads_only_GetStatus|intros status].
    apply reads_only_bind;
      [apply reads_only_dropping_error, reads_only_GetVersionString|intros version].
    apply reads_only_bind;
      [apply reads_only_dropping_error, reads_only_GetRxFrequency|intros rxFreq].
    apply reads_only_bind;
      [apply reads_only_dropping_error, reads_only_GetTxFrequency|intros txFreq].
    apply reads_only_bind;
      [apply reads_only_dropping_error, reads_only_GetMode|intros mode].
    apply reads_only_ret.
Qed.

(** The status request on a chip that answers: nine reads, the status
    decoded, the version rendered, the frequencies of the word 0 and the mode
    read. *)
Example status_request_on_chip :
  fst (HardwarePlugin.handleStatus_fn (open_controller 32000000) chip_world)
  = Ok ([("eol", false); ("xosc_ready", true); ("pll_lock_rx", true);
         ("pll_lock_tx", false)], "V1A", 0, 0, 0)
  /\ List.length (frames (trace (snd (HardwarePlugin.handleStatus_fn
                                       (open_controller 32000000) chip_world)))) = 9%nat.
Proof. split; vm_compute; reflexivity. Qed.

(** ** The default table and the gain setters *)

Section DefaultGains.

Lemma quiet_write_all entries : forall w, quiet w -> quiet (write_all entries w).
Proof.
  intros w Hq i. rewrite fault_write_all. apply Hq.
Qed.

(** What a register holds once the defaults are written, in any order. *)
Lemma default_read_back order addr value w :
  Permutation order DefaultRegisterValues ->
  In (addr, value) DefaultRegisterValues ->
  read_value addr (write_all order w) = value.
Proof.
  intros Hp Hin. rewrite (write_all_read_in addr value).
  - apply uint8_small.
    apply (proj1 (Forall_forall _ _) default_values_bytes (addr, value) Hin).
  - apply (Permutation_NoDup (l := map key DefaultRegisterValues)).
    + apply Permutation_map. symmetry. exact Hp.
    + apply default_keys_distinct.
  - apply (Permutation_in (l := DefaultRegisterValues)); [symmetry; exact Hp|exact Hin].
Qed.

(** The PGA settings that leave the default RXFE1 as it is. *)
Lemma pga_on_default g :
  0 <= g < 256 ->
  uint8 (Z.lor (Z.land 0x2F 0xE1) (uint8 (Z.shiftl (Z.min g 30 / 2) 1))) = 0x2F
  <-> g = 14 \/ g = 15.
Proof.
  intros Hg.
  assert (T : forallb (fun g =>
    Bool.eqb (uint8 (Z.lor (Z.land 0x2F 0xE1) (uint8 (Z.shiftl (Z.min g 30 / 2) 1))) =? 0x2F)
             ((g =? 14) || (g =? 15))) (below 256) = true) by (vm_compute; reflexivity).
  pose proof (forallb_below _ _ g T ltac:(cbn; lia)) as T1. cbv beta in T1.
  apply eqb_prop in T1. split.
  - intros E. apply Z.eqb_eq in E. rewrite E in T1. symmetry in T1.
    apply orb_true_iff in T1. destruct T1 as [H|H]; apply Z.eqb_eq in H; auto.
  - intros H. apply Z.eqb_eq. rewrite T1. apply orb_true_iff.
    destruct H as [->| ->]; [left|right]; reflexivity.
Qed.

End DefaultGains.

(** X27.  The default table read through the gain setters: once
    [InitializeWithDefaults] has run, in whatever order the table is
    traversed, RXFE1 holds 0x2F and TXFE1 holds 0x2E; setting the LNA to its
    maximum, the DAC to -3 dB or the mixer to -9.5 dB writes back the byte
    that is there.  The PGA setting in the default RXFE1 is 7, the one
    [SetPGAGain] writes for 14 and 15 dB and for no other gain: [SetPGAGain]
    with 30 dB changes the register to 0x3F. *)
Theorem default_gains_decoded order s w pgaDb lnaDb :
  Permutation order DefaultRegisterValues -> ready s -> quiet w ->
  0 <= pgaDb < 256 -> 45 < lnaDb ->
  exists w0,
    SX1255Controller.InitializeWithDefaults order s w = (Ok tt, w0) /\
    read_value RegRxfe1 w0 = 0x2F /\
    read_value RegTxfe1 w0 = 0x2E /\
    read_value RegRxfe1 (snd (SX1255Controller.SetLNAGain s lnaDb w0)) = 0x2F /\
    read_value RegTxfe1 (snd (SX1255Controller.SetDACGain s (-3) w0)) = 0x2E /\
    read_value RegTxfe1
      (snd (SX1255Controller.SetMixerGain s (float32_of_halves (-19)) w0)) = 0x2E /\
    (read_value RegRxfe1 (snd (SX1255Controller.SetPGAGain s pgaDb w0)) = 0x2F
     <-> pgaDb = 14 \/ pgaDb = 15) /\
    read_value RegRxfe1 (snd (SX1255Controller.SetPGAGain s 30 w0)) = 0x3F.
Proof.
  intros Hp Hs Hq Hg Hl. pose proof Hs as (Hi & d & Hd & Hc).
  set (w0 := write_all order (read_back RegVersion w)).
  assert (Hq0 : quiet w0) by (apply quiet_write_all, quiet_read_back, Hq).
  assert (Rx : read_value RegRxfe1 w0 = 0x2F)
    by (apply default_read_back; [exact Hp|cbn; tauto]).
  assert (Tx : read_value RegTxfe1 w0 = 0x2E)
    by (apply default_read_back; [exact Hp|cbn; tauto]).
  exists w0. split.
  { unfold SX1255Controller.InitializeWithDefaults.
    erewrite bind_ok by (apply Initialize_quiet; assumption).
    unfold SX1255Controller.via_spi. rewrite Hd.
    apply write_defaults_quiet; auto using quiet_read_back. }
  split; [exact Rx|]. split; [exact Tx|].
  rewrite SetLNAGain_quiet, SetDACGain_quiet, SetMixerGain_quiet, !SetPGAGain_quiet
    by assumption.
  cbn [snd]. rewrite !read_value_written_same, Rx, Tx.
  split.
  { unfold SX1255Controller.lnaGainSetting.
    rewrite (proj2 (Z.gtb_lt lnaDb 45)) by exact Hl. reflexivity. }
  split; [reflexivity|].
  split.
  { rewrite (mixer_steps (-19) w0) by lia. reflexivity. }
  split; [apply pga_on_default; exact Hg|reflexivity].
Qed.

Lemma default_gains_decoded_witness :
  exists w0,
    SX1255Controller.InitializeWithDefaults DefaultRegisterValues
      (open_controller 32000000) still_world = (Ok tt, w0) /\
    read_value RegRxfe1 w0 = 0x2F /\
    read_value RegTxfe1 w0 = 0x2E /\
    read_value RegRxfe1 (snd (SX1255Controller.SetLNAGain (open_controller 32000000) 48 w0))
    = 0x2F /\
    read_value RegTxfe1 (snd (SX1255Controller.SetDACGain (open_controller 32000000) (-3) w0))
    = 0x2E /\
    read_value RegTxfe1
      (snd (SX1255Controller.SetMixerGain (open_controller 32000000)
              (float32_of_halves (-19)) w0)) = 0x2E /\
    (read_value RegRxfe1 (snd (SX1255Controller.SetPGAGain (open_controller 32000000) 14 w0))
     = 0x2F
     <-> 14 = 14 \/ 14 = 15) /\
    read_value RegRxfe1 (snd (SX1255Controller.SetPGAGain (open_controller 32000000) 30 w0))
    = 0x3F.
Proof.
  apply (default_gains_decoded DefaultRegisterValues (open_controller 32000000)
           still_world 14 48).
  - apply Permutation_refl.
  - apply ready_open_controller.
  - apply quiet_still_world.
  - lia.
  - lia.
Defined.
